(** * Tempesta TLS: the MPI memory pool (src/tls/mpool.c)

    A shallow embedding of the page-sized bump allocator that backs the
    multi-precision integers of a TLS handshake, of the registry of
    per-scheme profiles and of the per-CPU pools for temporary MPIs,
    followed by the properties of that code.

    Conventions of the embedding.
    - Pointers and [size_t] values are [Z] in [0, 2^64); unsigned
      arithmetic wraps through [u64].
    - Memory is a byte store [Z -> Z]; a cell is read modulo 256.  The two
      [size_t] fields of a [TlsMpiPool] live in the first 16 bytes of the
      pool's page, little endian, exactly where the C struct puts them.
    - [None] in the [option] monad is a kernel oops: a [BUG_ON] that fires
      or a dereference of a pointer into page zero (NULL).
    - What mpool.c uses without defining is either a kernel primitive,
      modelled below with a comment that says so, or a field of the
      [Externals] class.

    The table of connection hooks of src/tempesta_fw/connection.c has a
    section of its own. *)

From stdpp Require Import base numbers option list gmap.

Open Scope Z_scope.

(** ** Machine arithmetic and kernel constants *)

Definition u64 (z : Z) : Z := z mod 2 ^ 64.

(** Conversion to [int]: the low 32 bits, read in two's complement. *)
Definition s32 (z : Z) : Z := (z + 2 ^ 31) mod 2 ^ 32 - 2 ^ 31.

(** Linux, x86-64: [PAGE_SHIFT] is 12, [PAGE_SIZE] is [1UL << PAGE_SHIFT]
    and [PAGE_MASK] is [~(PAGE_SIZE - 1)]. *)
Definition PAGE_SHIFT : Z := 12.
Definition PAGE_SIZE : Z := Z.shiftl 1 PAGE_SHIFT.
Definition PAGE_MASK : Z := u64 (Z.lnot (PAGE_SIZE - 1)).

Definition ENOMEM : Z := 12.
Definition EINVAL : Z := 22.

(** [#define MCTX_ORDER 0 /* one page */] *)
Definition MCTX_ORDER : Z := 0.

(** ** Byte memory *)

Definition mem := Z -> Z.

Definition load8 (m : mem) (a : Z) : Z := m a mod 256.

Fixpoint load_le (k : nat) (m : mem) (a : Z) : Z :=
  match k with
  | O => 0
  | S k' => load8 m a + 256 * load_le k' m (a + 1)
  end.

Definition store_le (k : nat) (m : mem) (a v : Z) : mem :=
  fun x =>
    if (a <=? x) && (x <? a + Z.of_nat k)
    then (v / 256 ^ (x - a)) mod 256
    else m x.

(** A [size_t] or pointer field: eight bytes, little endian. *)
Definition load64 (m : mem) (a : Z) : Z := load_le 8 m a.
Definition store64 (m : mem) (a v : Z) : mem := store_le 8 m a v.

(** [bzero_fast(p, n)]; [memset(p, 0, n)] is the same store. *)
Definition bzero_fast (m : mem) (p n : Z) : mem :=
  fun x => if (p <=? x) && (x <? p + n) then 0 else m x.

(** Page zero is never mapped: a load or store through a pointer into it
    (NULL, or a small offset from NULL) oopses. *)
Definition mapped (a : Z) : bool := PAGE_SIZE <=? a.

Definition rd64 (m : mem) (a : Z) : option Z :=
  if mapped a then Some (load64 m a) else None.

Definition wr64 (m : mem) (a v : Z) : option mem :=
  if mapped a then Some (store64 m a v) else None.

(** [BUG_ON(c)] *)
Definition BUG_ON (c : bool) : option unit :=
  if c then None else Some tt.

(** ** The pool header

    [typedef struct tls_mpi_profile_t { size_t curr; size_t size; } TlsMpiPool;]
    [curr] is documented as the offset of the free area, [size] as the
    size of the profile. *)

Definition sizeof_TlsMpiPool : Z := 16.
Definition curr_of (mp : Z) : Z := mp.
Definition size_of (mp : Z) : Z := mp + 8.

(** [MPI_POOL_DATA(mp)]: the address [sizeof(TlsMpiPool)] bytes after [mp]. *)
Definition MPI_POOL_DATA (mp : Z) : Z := u64 (mp + sizeof_TlsMpiPool).

(** ** Profile and key types *)

(** [ttls_mpi_profile_t]: the enumerators are the indices of [mpi_profiles]. *)
Definition TTLS_MPI_PROFILE_ECDH : nat := 0.
Definition TTLS_MPI_PROFILE_DHM : nat := 1.
Definition TTLS_MPI_PROFILE_ECDHE_SECP256 : nat := 2.
Definition TTLS_MPI_PROFILE_ECDHE_SECP384 : nat := 3.
Definition TTLS_MPI_PROFILE_ECDHE_SECP521 : nat := 4.
Definition TTLS_MPI_PROFILE_ECDHE_BP256 : nat := 5.
Definition TTLS_MPI_PROFILE_ECDHE_BP384 : nat := 6.
Definition TTLS_MPI_PROFILE_ECDHE_BP521 : nat := 7.
Definition __TTLS_MPI_PROFILES_N : nat := 8.

(** [pkey->pk_info->type]: the four key types mpool.c names, and the rest
    (the [default:] branches). *)
Inductive ttls_pk_type_t :=
| TTLS_PK_RSA
| TTLS_PK_ECKEY
| TTLS_PK_ECKEY_DH
| TTLS_PK_ECDSA
| TTLS_PK_OTHER (code : Z).

Record TlsPkCtx := { pk_info_type : ttls_pk_type_t; pk_ctx : Z }.

Record ttls_x509_crt := { pk : TlsPkCtx }.

(** What [ttls_mpi_profile_alloc] reads of a [TlsCtx]. *)
Record TlsCtx := {
  hs : Z;
  peer_conf_mpi_prof : Z;
  xfrm_ciphersuite_info : Z
}.

(** ** Machine state

    - [memory]: the byte store;
    - [live_pages]: pages handed out by the buddy allocator and not yet
      given back;
    - [buddy]: what the next calls of [__get_free_pages] will return
      (0 is a failed allocation; an exhausted list fails too);
    - [mpi_profiles]: [mpi_profiles[i].profile], [__TTLS_MPI_PROFILES_N] slots;
    - [g_tmp_mpool]: the per-CPU pointer, one entry per possible CPU;
    - [has_empty_profile]: the static flag of [ttls_mpi_profile_set]. *)
Record state := {
  memory : mem;
  live_pages : gset Z;
  buddy : list Z;
  mpi_profiles : list Z;
  g_tmp_mpool : list Z;
  has_empty_profile : bool
}.

Definition set_memory (m : mem) (st : state) : state :=
  {| memory := m; live_pages := live_pages st; buddy := buddy st;
     mpi_profiles := mpi_profiles st; g_tmp_mpool := g_tmp_mpool st;
     has_empty_profile := has_empty_profile st |}.

Definition set_mpi_profiles (l : list Z) (st : state) : state :=
  {| memory := memory st; live_pages := live_pages st; buddy := buddy st;
     mpi_profiles := l; g_tmp_mpool := g_tmp_mpool st;
     has_empty_profile := has_empty_profile st |}.

Definition set_g_tmp_mpool (l : list Z) (st : state) : state :=
  {| memory := memory st; live_pages := live_pages st; buddy := buddy st;
     mpi_profiles := mpi_profiles st; g_tmp_mpool := l;
     has_empty_profile := has_empty_profile st |}.

Definition set_has_empty_profile (b : bool) (st : state) : state :=
  {| memory := memory st; live_pages := live_pages st; buddy := buddy st;
     mpi_profiles := mpi_profiles st; g_tmp_mpool := g_tmp_mpool st;
     has_empty_profile := b |}.

(** The state of the module at load time: statics are zero, the flag is
    initialised to [true]. *)
Definition boot_state (m : mem) (pages : list Z) (ncpu : nat) : state :=
  {| memory := m; live_pages := ∅; buddy := pages;
     mpi_profiles := replicate __TTLS_MPI_PROFILES_N 0;
     g_tmp_mpool := replicate ncpu 0;
     has_empty_profile := true |}.

(** ** A state-and-oops monad for the C functions *)

Definition M (A : Type) : Type := state -> option (A * state).

Definition ret {A} (a : A) : M A := fun st => Some (a, st).

Definition bind {A B} (c : M A) (k : A -> M B) : M B :=
  fun st => match c st with
            | Some (a, st') => k a st'
            | None => None
            end.

Definition oops {A} : M A := fun _ => None.

Declare Scope kernel_scope.
Delimit Scope kernel_scope with K.
Notation "x <- c ;; k" := (bind c (fun x => k))
  (at level 100, c at next level, right associativity) : kernel_scope.
Notation "c ;;; k" := (bind c (fun _ => k))
  (at level 100, right associativity) : kernel_scope.
Open Scope kernel_scope.

Definition lift {A} (o : option A) : M A :=
  fun st => match o with Some a => Some (a, st) | None => None end.

Definition bug_on (c : bool) : M unit := lift (BUG_ON c).

Definition load (a : Z) : M Z := fun st => lift (rd64 (memory st) a) st.

Definition store (a v : Z) : M unit :=
  fun st => match wr64 (memory st) a v with
            | Some m => Some (tt, set_memory m st)
            | None => None
            end.

(* The model has no map of the kernel's memory beyond page zero: it lets a
   clear of any length through, where the kernel may fault or overwrite
   what lies after the page.  The properties that say a clear returns
   keep it inside the page of its pool. *)
Definition bzero (p n : Z) : M unit :=
  fun st =>
    if (0 <? n) && negb (mapped p) then None
    else Some (tt, set_memory (bzero_fast (memory st) p n) st).

(** [__get_free_pages(gfp, order)], the kernel's buddy allocator: 0 when
    it fails, else the address of [PAGE_SIZE << order] bytes, zeroed when
    [__GFP_ZERO] is in [gfp]. *)
Definition __get_free_pages (gfp_zero : bool) (order : Z) : M Z :=
  fun st =>
    match buddy st with
    | [] => Some (0, st)
    | p :: rest =>
        let m := if (negb (p =? 0)) && gfp_zero
                 then bzero_fast (memory st) p (Z.shiftl PAGE_SIZE order)
                 else memory st in
        Some (p, {| memory := m;
                    live_pages := if p =? 0 then live_pages st
                                  else {[ p ]} ∪ live_pages st;
                    buddy := rest;
                    mpi_profiles := mpi_profiles st;
                    g_tmp_mpool := g_tmp_mpool st;
                    has_empty_profile := has_empty_profile st |})
    end.

(** [free_pages(addr, order)]: the page leaves the pages in use, its
    bytes stay as they are; the kernel ignores a zero address. *)
Definition free_pages (addr : Z) (order : Z) : M unit :=
  fun st =>
    if addr =? 0 then Some (tt, st)
    else Some (tt, {| memory := memory st;
                      live_pages := live_pages st ∖ {[ addr ]};
                      buddy := buddy st;
                      mpi_profiles := mpi_profiles st;
                      g_tmp_mpool := g_tmp_mpool st;
                      has_empty_profile := has_empty_profile st |}).

(** [mpi_profiles[i].profile] *)
Definition get_profile (i : nat) : M Z :=
  fun st => Some (default 0 (mpi_profiles st !! i), st).

Definition put_profile (i : nat) (mp : Z) : M unit :=
  fun st => Some (tt, set_mpi_profiles (<[ i := mp ]> (mpi_profiles st)) st).

(** [*per_cpu_ptr(&g_tmp_mpool, cpu)]; [this_cpu_ptr] is the same slot for
    the executing CPU. *)
Definition get_tmp_mpool (cpu : nat) : M Z :=
  fun st => Some (default 0 (g_tmp_mpool st !! cpu), st).

Definition put_tmp_mpool (cpu : nat) (mp : Z) : M unit :=
  fun st => Some (tt, set_g_tmp_mpool (<[ cpu := mp ]> (g_tmp_mpool st)) st).

Definition get_has_empty_profile : M bool :=
  fun st => Some (has_empty_profile st, st).

Definition put_has_empty_profile (b : bool) : M unit :=
  fun st => Some (tt, set_has_empty_profile b st).

(** Any function of the store alone, run on the state. *)
Definition on_memory {A} (f : mem -> A * mem) : M A :=
  fun st => let '(a, m) := f (memory st) in Some (a, set_memory m st).

(** ** What mpool.c uses and does not define

    - [__mpi_profile]: [ttls_mpi_profile_alloc_mpi] finds the pool of the
      MPI [x] by calling it; the file defines only [__mpi_pool].
    - [mem_alloc]: [ttls_mpi_cleanup_ctx] reads [mp->mem_alloc], a field
      [TlsMpiPool] does not declare.
    - The elliptic-curve and Diffie-Hellman routines, which work on the
      context at the address they are given; each returns its status and
      the store it leaves.  [ecdh_grp_nbits] reads [ecdh_ctx->grp.nbits].
      [ttls_dhm_init] is called on [&hs->dhm_ctx], and
      [ttls_mpi_profile_set] declares no [hs].
    - The two predicates on a ciphersuite. *)
Class Externals := {
  __mpi_profile : Z -> Z;
  mem_alloc : mem -> Z -> Z;
  ttls_ecdh_get_params : Z -> TlsPkCtx -> mem -> Z * mem;
  ttls_ecp_point_init : Z -> mem -> mem;
  ecdh_grp_nbits : mem -> Z -> Z;
  TTLS_ECP_WINDOW_ORDER : Z;
  ecp_precompute_comb : Z -> Z -> Z -> mem -> Z * mem;
  ttls_dhm_init : mem -> mem;
  ttls_ciphersuite_uses_ecdh : Z -> bool;
  ttls_ciphersuite_uses_ecdhe : Z -> bool
}.

(** Control flow of a loop body that may [return]. *)
Inductive flow (A : Type) :=
| Next (a : A)
| Return (r : Z).
Arguments Next {A} a.
Arguments Return {A} r.

Fixpoint for_each (l : list nat) (body : nat -> M unit) : M unit :=
  match l with
  | [] => ret tt
  | i :: l' => body i ;;; for_each l' body
  end.

(** [for_each_possible_cpu]: the CPUs that have a slot in [g_tmp_mpool]. *)
Definition possible_cpus : M (list nat) :=
  fun st => Some (seq 0 (length (g_tmp_mpool st)), st).

Section Mpool.
Context `{Externals}.

(** [ttls_mpi_pool_init(mp)] *)
Definition ttls_mpi_pool_init (mp : Z) : M unit :=
  store (curr_of mp) (MPI_POOL_DATA mp) ;;;
  store (size_of mp) 0.

(** [__mpi_pool(addr)].  [sp] is the address of the local [a], that is
    the stack pointer of the caller; [cpu] is the executing CPU. *)
Definition __mpi_pool (cpu : nat) (sp : Z) (addr : Z) : M Z :=
  let a := addr in
  if (sp <? a) && (a <? u64 (sp + 2 * PAGE_SIZE))
  then get_tmp_mpool cpu
  else ret (Z.land a (u64 (Z.lnot PAGE_MASK))).

(** [MPI_POOL_FREE_PTR(mp)]: [sizeof(TlsMpiPool) + mp->curr] bytes after [mp]. *)
Definition MPI_POOL_FREE_PTR (mp : Z) : M Z :=
  curr <- load (curr_of mp) ;;
  ret (u64 (mp + sizeof_TlsMpiPool + curr)).

(** [ttls_mpi_profile_alloc_mpi(x, n)].  The source gives no return type,
    so the function returns [int]: [-ENOMEM] as it is, and the distance
    from [x] to the allocated bytes, an [unsigned long], cut to an
    [int]. *)
Definition ttls_mpi_profile_alloc_mpi (x n : Z) : M Z :=
  let mp := __mpi_profile x in
  size <- load (size_of mp) ;;
  if PAGE_SIZE <? u64 (sizeof_TlsMpiPool + size + n) then ret (- ENOMEM)
  else
    ptr <- MPI_POOL_FREE_PTR mp ;;
    bug_on (ptr <=? x) ;;;
    curr <- load (curr_of mp) ;;
    store (curr_of mp) (curr + n) ;;;
    size <- load (size_of mp) ;;
    store (size_of mp) (size + n) ;;;
    ret (s32 (u64 (ptr - x))).

(** [mp->mem_alloc] *)
Definition load_mem_alloc (mp : Z) : M Z :=
  fun st => if mapped mp then Some (mem_alloc (memory st) mp, st) else None.

(** [ttls_mpi_cleanup_ctx()], run on CPU [cpu]. *)
Definition ttls_mpi_cleanup_ctx (cpu : nat) : M unit :=
  mp <- get_tmp_mpool cpu ;;
  let data := MPI_POOL_DATA mp in
  ma <- load_mem_alloc mp ;;
  bug_on (ma <? data) ;;;
  curr <- load (curr_of mp) ;;
  size <- load (size_of mp) ;;
  bug_on (size <? curr) ;;;
  curr <- load (curr_of mp) ;;
  bzero data curr ;;;
  store (curr_of mp) 0.

(** [ttls_mpi_free_mpool(ctx)] *)
Definition ttls_mpi_free_mpool (ctx : Z) : M unit :=
  let addr := Z.land ctx PAGE_MASK in
  bzero addr (Z.shiftl PAGE_SIZE MCTX_ORDER) ;;;
  free_pages addr MCTX_ORDER.

(** [ttls_mpi_pool_alloc(n, gfp_mask)]; [gfp_zero] says whether the
    caller's mask has [__GFP_ZERO], which the function adds anyway. *)
Definition ttls_mpi_pool_alloc (n : Z) (gfp_zero : bool) : M Z :=
  bug_on (Z.shiftl PAGE_SIZE MCTX_ORDER <? n) ;;;
  mp <- __get_free_pages (gfp_zero || true) MCTX_ORDER ;;
  if mp =? 0 then ret 0
  else
    ttls_mpi_pool_init mp ;;;
    curr <- load (curr_of mp) ;;
    store (curr_of mp) (curr + n) ;;;
    ret (MPI_POOL_DATA mp).

(** [ttls_mpi_profile_for_cert(pid, pkey)].  The body tests [id], the
    signature names the parameter [pid]: one variable.  The [default:]
    branch only logs. *)
Definition ttls_mpi_profile_for_cert (pid : nat) (pkey : TlsPkCtx) : bool :=
  match pk_info_type pkey with
  | TTLS_PK_ECKEY =>
      if Nat.eqb pid TTLS_MPI_PROFILE_ECDH then true else false
  | TTLS_PK_ECKEY_DH => false
  | TTLS_PK_ECDSA => false
  | TTLS_PK_RSA => false
  | TTLS_PK_OTHER _ => false
  end.

(** [ttls_mpi_profile_create_ec(pkey)].  The page is not given back on
    the two failure paths. *)
Definition ttls_mpi_profile_create_ec (pkey : TlsPkCtx) : M Z :=
  mp <- __get_free_pages true MCTX_ORDER ;;
  if mp =? 0 then ret 0
  else
    let ecdh_ctx := MPI_POOL_DATA mp in
    r <- on_memory (ttls_ecdh_get_params ecdh_ctx pkey) ;;
    if negb (r =? 0) then ret 0
    else
      on_memory (fun m => (tt, ttls_ecp_point_init ecdh_ctx m)) ;;;
      nbits <- (fun st => Some (ecdh_grp_nbits (memory st) ecdh_ctx, st)) ;;
      let d := u64 (nbits + TTLS_ECP_WINDOW_ORDER - 1)
               / TTLS_ECP_WINDOW_ORDER in
      r <- on_memory (ecp_precompute_comb ecdh_ctx TTLS_ECP_WINDOW_ORDER d) ;;
      if negb (r =? 0) then ret 0 else ret mp.

(** One turn of the loop of [ttls_mpi_profile_set], on the locals [mp]
    and [n]. *)
Definition profile_set_body (pkey : TlsPkCtx) (i : nat) (mp n : Z)
  : M (flow (Z * Z)) :=
  p <- get_profile i ;;
  if negb (p =? 0) then ret (Next (mp, n + 1))
  else if negb (ttls_mpi_profile_for_cert i pkey) then ret (Next (mp, n))
  else
    r <- (if mp =? 0 then
            match pk_info_type pkey with
            | TTLS_PK_ECKEY | TTLS_PK_ECKEY_DH | TTLS_PK_ECDSA =>
                mp' <- ttls_mpi_profile_create_ec pkey ;;
                if mp' =? 0 then ret (Return (- EINVAL)) else ret (Next mp')
            | TTLS_PK_RSA =>
                on_memory (fun m => (tt, ttls_dhm_init m)) ;;; ret (Next mp)
            | TTLS_PK_OTHER _ => ret (Next mp)
            end
          else ret (Next mp)) ;;
    match r with
    | Return e => ret (Return e)
    | Next mp' => put_profile i mp' ;;; ret (Next (mp', n + 1))
    end.

Fixpoint profile_set_loop (pkey : TlsPkCtx) (l : list nat) (mp n : Z)
  : M (flow (Z * Z)) :=
  match l with
  | [] => ret (Next (mp, n))
  | i :: l' =>
      r <- profile_set_body pkey i mp n ;;
      match r with
      | Return e => ret (Return e)
      | Next (mp', n') => profile_set_loop pkey l' mp' n'
      end
  end.

(** [ttls_mpi_profile_set(crt)].  The local [mp] is declared without an
    initialiser and tested before it is assigned: [mp_uninit] is the value
    it happens to hold, the same at the test and at the store, as in a
    build that keeps the local in a register or a stack slot.  Reading it
    is undefined in C, and an optimising compiler may do otherwise. *)
Definition ttls_mpi_profile_set (crt : ttls_x509_crt) (mp_uninit : Z) : M Z :=
  let pkey := pk crt in
  b <- get_has_empty_profile ;;
  if negb b then ret 0
  else
    r <- profile_set_loop pkey (seq 0 __TTLS_MPI_PROFILES_N) mp_uninit 0 ;;
    match r with
    | Return e => ret e
    | Next (_, n) =>
        (if n =? Z.of_nat __TTLS_MPI_PROFILES_N
         then put_has_empty_profile false else ret tt) ;;;
        ret 0
    end.

(** [ttls_mpi_profile_alloc(tls)]: both branches are empty. *)
Definition ttls_mpi_profile_alloc (tls : TlsCtx) : M Z :=
  let ci := xfrm_ciphersuite_info tls in
  if ttls_ciphersuite_uses_ecdh ci || ttls_ciphersuite_uses_ecdhe ci
  then ret 0
  else ret 0.

(** [ttls_mpool_exit()].  The second loop names the per-CPU variable
    [g_tmp_pool]; the file declares [g_tmp_mpool]. *)
Definition ttls_mpool_exit : M unit :=
  for_each (seq 0 __TTLS_MPI_PROFILES_N) (fun i =>
    p <- get_profile i ;;
    if negb (p =? 0) then free_pages p MCTX_ORDER else ret tt) ;;;
  cpus <- possible_cpus ;;
  for_each cpus (fun i =>
    ptr <- get_tmp_mpool i ;;
    curr <- load (curr_of ptr) ;;
    bzero (MPI_POOL_DATA ptr) curr ;;;
    free_pages ptr MCTX_ORDER).

(** The loop of [ttls_mpool_init]; [true] is the jump to [err_cleanup]. *)
Fixpoint mpool_init_loop (cpus : list nat) : M bool :=
  match cpus with
  | [] => ret false
  | cpu :: cpus' =>
      mp <- __get_free_pages true MCTX_ORDER ;;
      put_tmp_mpool cpu mp ;;;
      if mp =? 0 then ret true else mpool_init_loop cpus'
  end.

(** [ttls_mpool_init()] *)
Definition ttls_mpool_init : M Z :=
  cpus <- possible_cpus ;;
  failed <- mpool_init_loop cpus ;;
  if failed then ttls_mpool_exit ;;; ret (- ENOMEM) else ret 0.

End Mpool.

(** ** Vocabulary of the properties *)

(** The bytes a pool can hand out: its page less the header, starting
    right after the header. *)
Definition pool_capacity : Z := Z.shiftl PAGE_SIZE MCTX_ORDER - sizeof_TlsMpiPool.
Definition pool_base (mp : Z) : Z := mp + sizeof_TlsMpiPool.

(** The two header fields of the pool at [mp]. *)
Definition pool_curr (st : state) (mp : Z) : Z := load64 (memory st) (curr_of mp).
Definition pool_size (st : state) (mp : Z) : Z := load64 (memory st) (size_of mp).

(** [mpi_profiles[i].profile] and the per-CPU pointer, as values. *)
Definition profile_slot (st : state) (i : nat) : Z :=
  default 0 (mpi_profiles st !! i).
Definition tmp_mpool_slot (st : state) (cpu : nat) : Z :=
  default 0 (g_tmp_mpool st !! cpu).

(** Every profile type has a profile registered. *)
Definition all_profiles_filled (st : state) : Prop :=
  forall i : nat, (i < __TTLS_MPI_PROFILES_N)%nat -> profile_slot st i <> 0.

(** Every byte of the page at [p] reads zero. *)
Definition page_zeroed (st : state) (p : Z) : Prop :=
  forall a : Z, p <= a < p + Z.shiftl PAGE_SIZE MCTX_ORDER -> load8 (memory st) a = 0.

(** How many of the slots listed in [l] hold a profile. *)
Fixpoint filled_among (profiles : list Z) (l : list nat) : Z :=
  match l with
  | [] => 0
  | i :: l' =>
      (if default 0 (profiles !! i) =? 0 then 0 else 1) + filled_among profiles l'
  end.

(** A computation that leaves the profile table and the flag alone. *)
Definition keeps_registry {A} (c : M A) : Prop :=
  forall st a st', c st = Some (a, st') ->
    mpi_profiles st' = mpi_profiles st /\
    has_empty_profile st' = has_empty_profile st.

(** The table has its [__TTLS_MPI_PROFILES_N] slots, and the flag is
    cleared only if all of them are filled. *)
Definition registry_inv (st : state) : Prop :=
  length (mpi_profiles st) = __TTLS_MPI_PROFILES_N /\
  (has_empty_profile st = false -> all_profiles_filled st).

(** The two sides of the address test of [__mpi_pool]. *)
Definition in_stack_window (sp a : Z) : Prop :=
  sp < a /\ a < u64 (sp + 2 * PAGE_SIZE).

(** The page an address lies in. *)
Definition page_of (a : Z) : Z := a - a mod PAGE_SIZE.

(** Requests [(x, n)]: the bytes asked for in all. *)
Definition total_size (reqs : list (Z * Z)) : Z :=
  foldr (fun r acc => r.2 + acc) 0 reqs.

(** The [BUG_ON] of the allocator, along a run: each MPI lies below the
    free pointer its call will find. *)
Fixpoint mpis_below (free : Z) (reqs : list (Z * Z)) : Prop :=
  match reqs with
  | [] => True
  | r :: reqs' => r.1 < free /\ mpis_below (free + r.2) reqs'
  end.

(** The byte range of each allocation, as first address and length: a
    call on the MPI [x] returns the distance from [x] to its bytes. *)
Definition ranges (reqs : list (Z * Z)) (rets : list Z) : list (Z * Z) :=
  zip_with (fun r d => (r.1 + d, r.2)) reqs rets.

(** Ranges laid end to end from [lo]. *)
Fixpoint stacked (lo : Z) (rs : list (Z * Z)) : Prop :=
  match rs with
  | [] => True
  | r :: rs' => r.1 = lo /\ stacked (lo + r.2) rs'
  end.

Section Scenarios.
Context `{Externals}.

(** A run of allocations [(x, n)], collecting what each call returns. *)
Fixpoint alloc_all (reqs : list (Z * Z)) : M (list Z) :=
  match reqs with
  | [] => ret []
  | (x, n) :: reqs' =>
      r <- ttls_mpi_profile_alloc_mpi x n ;;
      rs <- alloc_all reqs' ;;
      ret (r :: rs)
  end.

(** The entry points of the module, as the rest of the kernel calls them. *)
Inductive op :=
| Op_pool_init (mp : Z)
| Op_alloc_mpi (x n : Z)
| Op_cleanup_ctx (cpu : nat)
| Op_free_mpool (ctx : Z)
| Op_pool_alloc (n : Z) (gfp_zero : bool)
| Op_profile_set (crt : ttls_x509_crt) (mp_uninit : Z)
| Op_profile_alloc (tls : TlsCtx)
| Op_mpool_exit
| Op_mpool_init.

Definition step (o : op) : M unit :=
  match o with
  | Op_pool_init mp => ttls_mpi_pool_init mp
  | Op_alloc_mpi x n => ttls_mpi_profile_alloc_mpi x n ;;; ret tt
  | Op_cleanup_ctx cpu => ttls_mpi_cleanup_ctx cpu
  | Op_free_mpool ctx => ttls_mpi_free_mpool ctx
  | Op_pool_alloc n z => ttls_mpi_pool_alloc n z ;;; ret tt
  | Op_profile_set crt u => ttls_mpi_profile_set crt u ;;; ret tt
  | Op_profile_alloc tls => ttls_mpi_profile_alloc tls ;;; ret tt
  | Op_mpool_exit => ttls_mpool_exit
  | Op_mpool_init => ttls_mpool_init ;;; ret tt
  end.

Fixpoint run (ops : list op) : M unit :=
  match ops with
  | [] => ret tt
  | o :: ops' => step o ;;; run ops'
  end.

End Scenarios.

(** Whether a computation runs to its end without an oops. *)
Definition runs {A} (c : M A) (st : state) : bool :=
  match c st with
  | Some _ => true
  | None => false
  end.

(** The state a computation ends in ([st] itself if it oopses). *)
Definition state_after {A} (c : M A) (st : state) : state :=
  match c st with
  | Some (_, st') => st'
  | None => st
  end.

(** ** Concrete scenarios *)

(** The resolver the file does define, on CPU [cpu] with the stack
    pointer at [sp], reading the per-CPU pointers of [st]. *)
Definition stack_resolver (cpu : nat) (sp : Z) (st : state) (x : Z) : Z :=
  match __mpi_pool cpu sp x st with
  | Some (mp, _) => mp
  | None => 0
  end.

(** Elliptic-curve routines that succeed: the first copies the key word
    into the context. *)
Definition demo_externals (resolver : Z -> Z) : Externals := {|
  __mpi_profile := resolver;
  mem_alloc := fun _ mp => MPI_POOL_DATA mp;
  ttls_ecdh_get_params := fun ctx pkey m => (0, store64 m ctx (pk_ctx pkey));
  ttls_ecp_point_init := fun _ m => m;
  ecdh_grp_nbits := fun _ _ => 256;
  TTLS_ECP_WINDOW_ORDER := 6;
  ecp_precompute_comb := fun _ _ _ m => (0, m);
  ttls_dhm_init := fun m => m;
  ttls_ciphersuite_uses_ecdh := fun _ => true;
  ttls_ciphersuite_uses_ecdhe := fun _ => false
|}.

(** Memory full of the byte [0xAA]; two pages the buddy allocator will
    hand out; one CPU, whose stack pointer is below both pages. *)
Definition demo_mem : mem := fun _ => 170.
Definition demo_page : Z := 327680.
Definition demo_page2 : Z := 393216.
Definition demo_sp : Z := 65536.
Definition demo_x : Z := 65600.

Definition demo_boot : state := boot_state demo_mem [demo_page; demo_page2] 1.

(** After [ttls_mpool_init]: CPU 0 owns the zeroed page [demo_page]. *)
Definition demo_ready : state := state_after ttls_mpool_init demo_boot.

Definition demo_ext : Externals :=
  demo_externals (stack_resolver 0 demo_sp demo_ready).

(** A pool page above 4 GiB, where the pages of a 64-bit kernel are, for
    CPU 0, and an MPI on its stack. *)
Definition far_page : Z := 4295032832.
Definition far_x : Z := 65564.
Definition far_ready : state :=
  state_after ttls_mpool_init (boot_state demo_mem [far_page] 1).
Definition far_ext : Externals :=
  demo_externals (stack_resolver 0 demo_sp far_ready).


(** A table in which only the ECDH slot is still empty. *)
Definition demo_nearly_full : state :=
  set_mpi_profiles
    [0; 458752; 462848; 466944; 471040; 475136; 479232; 483328] demo_ready.

Definition eckey_crt : ttls_x509_crt :=
  {| pk := {| pk_info_type := TTLS_PK_ECKEY; pk_ctx := 3735928559 |} |}.
Definition rsa_crt : ttls_x509_crt :=
  {| pk := {| pk_info_type := TTLS_PK_RSA; pk_ctx := 3735928559 |} |}.
Definition demo_tls : TlsCtx :=
  {| hs := 0; peer_conf_mpi_prof := 0; xfrm_ciphersuite_info := 0 |}.

(** ** Uses of the per-CPU pool *)

(** One use of the pool of temporary MPIs: an allocation of [n] bytes for
    the MPI at [x], or the cleanup that ends a call of the handshake
    state machine. *)
Inductive pool_op :=
| Pool_alloc (x n : Z)
| Pool_cleanup.

Section PoolUses.
Context `{Externals}.

(** Runs the uses in order on CPU [cpu], as a caller does: the result
    lists the sizes of the requests the caller takes as granted, those
    that did not return [-ENOMEM]. *)
Fixpoint pool_run (cpu : nat) (ops : list pool_op) : M (list Z) :=
  match ops with
  | [] => ret []
  | Pool_alloc x n :: ops' =>
      r <- ttls_mpi_profile_alloc_mpi x n ;;
      granted <- pool_run cpu ops' ;;
      ret (if r =? - ENOMEM then granted else n :: granted)
  | Pool_cleanup :: ops' =>
      ttls_mpi_cleanup_ctx cpu ;;; pool_run cpu ops'
  end.

End PoolUses.

(** The sum of a list of sizes. *)
Definition sum_sizes (l : list Z) : Z := foldr Z.add 0 l.

(** Every MPI of the run lies less than 2^31 bytes below the end of the
    pool [mp], so that every distance the allocator returns fits an
    [int]. *)
Definition mpis_near (mp : Z) (ops : list pool_op) : Prop :=
  Forall (fun o => match o with
                   | Pool_alloc x _ => mp + PAGE_SIZE - x < 2 ^ 31
                   | Pool_cleanup => True
                   end) ops.

(** Elliptic-curve routines the first of which fails. *)
Definition failing_externals (resolver : Z -> Z) : Externals := {|
  __mpi_profile := resolver;
  mem_alloc := fun _ mp => MPI_POOL_DATA mp;
  ttls_ecdh_get_params := fun ctx pkey m => (- 20352, m);
  ttls_ecp_point_init := fun _ m => m;
  ecdh_grp_nbits := fun _ _ => 256;
  TTLS_ECP_WINDOW_ORDER := 6;
  ecp_precompute_comb := fun _ _ _ m => (0, m);
  ttls_dhm_init := fun m => m;
  ttls_ciphersuite_uses_ecdh := fun _ => true;
  ttls_ciphersuite_uses_ecdhe := fun _ => false
|}.


(** The pool of CPU 0 after 3000 bytes were handed out and written to. *)
Definition demo_used : state :=
  state_after (store (pool_base demo_page) 3735928559)
    (state_after (@ttls_mpi_profile_alloc_mpi demo_ext demo_x 3000) demo_ready).

(** ** connection.c: the table of connection hooks

    [conn_hooks] is a static array of [TFW_CONN_MAX_PROTOS] pointers, NULL
    at load time.  [TFW_CONN_MAX_PROTOS] is [TFW_GFSM_FSM_N], and
    [TFW_CONN_TYPE2IDX] maps a connection type to its index; both come
    from headers. *)
Class Gfsm := {
  TFW_GFSM_FSM_N : nat;
  TFW_CONN_TYPE2IDX : Z -> Z
}.

(** Conversion to [unsigned]. *)
Definition u32 (z : Z) : Z := z mod 2 ^ 32.

Section ConnHooks.
Context `{Gfsm}.

Definition TFW_CONN_MAX_PROTOS : Z := Z.of_nat TFW_GFSM_FSM_N.

(** [tfw_connection_hooks_register(hooks, type)], on the array
    [conn_hooks]; [None] when the [BUG_ON] fires.  The array is read only
    when the index is in range. *)
Definition tfw_connection_hooks_register (hooks type : Z) (conn_hooks : list Z)
  : option (list Z) :=
  let hid := u32 (TFW_CONN_TYPE2IDX type) in
  if (TFW_CONN_MAX_PROTOS <=? hid)
     || negb (default 0 (conn_hooks !! Z.to_nat hid) =? 0)
  then None
  else Some (<[ Z.to_nat hid := hooks ]> conn_hooks).

(** A sequence of registrations [(hooks, type)], as the protocol modules
    make them while they load. *)
Fixpoint register_all (regs : list (Z * Z)) (conn_hooks : list Z)
  : option (list Z) :=
  match regs with
  | [] => Some conn_hooks
  | (hooks, type) :: regs' =>
      match tfw_connection_hooks_register hooks type conn_hooks with
      | Some conn_hooks' => register_all regs' conn_hooks'
      | None => None
      end
  end.

End ConnHooks.

(** A stand-in for the headers: four protocols, the index in the low
    four bits of the type. *)
Definition demo_gfsm : Gfsm :=
  {| TFW_GFSM_FSM_N := 4; TFW_CONN_TYPE2IDX := fun t => Z.land t 15 |}.

(** * Properties

    ** Byte memory *)

Lemma load8_bound (m : mem) (a : Z) : 0 <= load8 m a < 256.
Proof. unfold load8. apply Z.mod_pos_bound. lia. Qed.

Lemma load_le_ext (k : nat) (m m' : mem) (a : Z) :
  (forall x, a <= x < a + Z.of_nat k -> m x = m' x) ->
  load_le k m a = load_le k m' a.
Proof.
  revert a. induction k as [|k IH]; intros a Hx; simpl; [reflexivity|].
  unfold load8. rewrite (Hx a) by lia.
  rewrite (IH (a + 1)); [reflexivity|].
  intros x Hr. apply Hx. lia.
Qed.

Lemma load_le_bound (k : nat) (m : mem) (a : Z) :
  0 <= load_le k m a < 256 ^ Z.of_nat k.
Proof.
  revert a. induction k as [|k IH]; intros a.
  - simpl. lia.
  - rewrite Nat2Z.inj_succ, Z.pow_succ_r by lia.
    cbn [load_le]. pose proof (load8_bound m a). pose proof (IH (a + 1)). lia.
Qed.

Lemma load_le_store_le (k k0 : nat) (m : mem) (a v j : Z) :
  0 <= j -> j + Z.of_nat k <= Z.of_nat k0 ->
  load_le k (store_le k0 m a v) (a + j) = (v / 256 ^ j) mod 256 ^ Z.of_nat k.
Proof.
  revert j. induction k as [|k IH]; intros j Hj Hk.
  - simpl. rewrite Z.mod_1_r. reflexivity.
  - cbn [load_le]. rewrite Nat2Z.inj_succ in *.
    replace (a + j + 1) with (a + (j + 1)) by lia.
    rewrite IH by lia.
    unfold load8, store_le.
    replace ((a <=? a + j) && (a + j <? a + Z.of_nat k0)) with true
      by (symmetry; apply andb_true_iff; split; [apply Z.leb_le|apply Z.ltb_lt]; lia).
    replace (a + j - a) with j by lia.
    rewrite Z.mod_mod by lia.
    rewrite Z.pow_succ_r by lia.
    rewrite Z.rem_mul_r by lia.
    rewrite Z.pow_add_r, Z.pow_1_r by lia.
    rewrite Z.div_div by lia. reflexivity.
Qed.

Lemma load64_bound (m : mem) (a : Z) : 0 <= load64 m a < 2 ^ 64.
Proof. exact (load_le_bound 8 m a). Qed.

Lemma load64_store64_same (m : mem) (a v : Z) :
  load64 (store64 m a v) a = u64 v.
Proof.
  unfold load64, store64, u64.
  replace a with (a + 0) at 2 by lia.
  rewrite load_le_store_le by lia.
  rewrite Z.pow_0_r, Z.div_1_r. reflexivity.
Qed.

Lemma store64_outside (m : mem) (a v x : Z) :
  x < a \/ a + 8 <= x -> store64 m a v x = m x.
Proof.
  intros Hx. unfold store64, store_le.
  destruct (a <=? x) eqn:E1; destruct (x <? a + Z.of_nat 8) eqn:E2; simpl; try reflexivity.
  apply Z.leb_le in E1. apply Z.ltb_lt in E2. lia.
Qed.

Lemma load64_store64_other (m : mem) (a v b : Z) :
  b + 8 <= a \/ a + 8 <= b ->
  load64 (store64 m a v) b = load64 m b.
Proof.
  intros Hd. unfold load64. apply load_le_ext.
  intros x Hx. apply store64_outside. lia.
Qed.

Lemma bzero_fast_inside (m : mem) (p n x : Z) :
  p <= x < p + n -> bzero_fast m p n x = 0.
Proof.
  intros Hx. unfold bzero_fast.
  destruct (p <=? x) eqn:E1; destruct (x <? p + n) eqn:E2; simpl; try reflexivity;
    [apply Z.ltb_ge in E2|apply Z.leb_gt in E1|apply Z.leb_gt in E1]; lia.
Qed.

Lemma bzero_fast_outside (m : mem) (p n x : Z) :
  x < p \/ p + n <= x -> bzero_fast m p n x = m x.
Proof.
  intros Hx. unfold bzero_fast.
  destruct (p <=? x) eqn:E1; destruct (x <? p + n) eqn:E2; simpl; try reflexivity.
  apply Z.leb_le in E1. apply Z.ltb_lt in E2. lia.
Qed.

Lemma load_le_zero (k : nat) (m : mem) (a : Z) :
  (forall x, a <= x < a + Z.of_nat k -> m x = 0) -> load_le k m a = 0.
Proof.
  revert a. induction k as [|k IH]; intros a Hz; simpl; [reflexivity|].
  unfold load8. rewrite (Hz a) by lia.
  rewrite IH; [reflexivity|]. intros x Hx. apply Hz. lia.
Qed.

Lemma load64_bzero_inside (m : mem) (p n a : Z) :
  p <= a -> a + 8 <= p + n -> load64 (bzero_fast m p n) a = 0.
Proof.
  intros H1 H2. unfold load64. apply load_le_zero.
  intros x Hx. apply bzero_fast_inside. lia.
Qed.

Lemma load64_bzero_outside (m : mem) (p n a : Z) :
  a + 8 <= p \/ p + n <= a -> load64 (bzero_fast m p n) a = load64 m a.
Proof.
  intros Hd. unfold load64. apply load_le_ext.
  intros x Hx. apply bzero_fast_outside. lia.
Qed.

(** ** The allocator *)

Lemma PAGE_SIZE_eq : PAGE_SIZE = 4096.
Proof. reflexivity. Qed.

Lemma pool_capacity_eq : pool_capacity = 4080.
Proof. reflexivity. Qed.

Lemma mapped_true (a : Z) : PAGE_SIZE <= a -> mapped a = true.
Proof. intros Ha. unfold mapped. apply Z.leb_le. exact Ha. Qed.

Lemma u64_small (z : Z) : 0 <= z < 2 ^ 64 -> u64 z = z.
Proof. intros Hz. unfold u64. apply Z.mod_small. exact Hz. Qed.

(** A distance that fits an [int] survives the conversion. *)
Lemma s32_small (z : Z) : 0 <= z < 2 ^ 31 -> s32 (u64 z) = z.
Proof.
  intros Hz. unfold s32, u64.
  rewrite (Z.mod_small z) by lia.
  rewrite Z.mod_small by lia. lia.
Qed.

Lemma s32_bound (z : Z) : - 2 ^ 31 <= s32 z < 2 ^ 31.
Proof.
  unfold s32. pose proof (Z.mod_pos_bound (z + 2 ^ 31) (2 ^ 32)). lia.
Qed.

Section Allocator.
Context `{Externals}.

(** What one call of [ttls_mpi_profile_alloc_mpi] does, in closed form. *)
Lemma alloc_mpi_unfold (x n : Z) (st : state) :
  let mp := __mpi_profile x in
  PAGE_SIZE <= mp ->
  ttls_mpi_profile_alloc_mpi x n st =
    if PAGE_SIZE <? u64 (sizeof_TlsMpiPool + pool_size st mp + n)
    then Some (- ENOMEM, st)
    else if u64 (mp + sizeof_TlsMpiPool + pool_curr st mp) <=? x
    then None
    else Some (s32 (u64 (u64 (mp + sizeof_TlsMpiPool + pool_curr st mp) - x)),
               set_memory
                 (store64 (store64 (memory st) (curr_of mp) (pool_curr st mp + n))
                          (size_of mp) (pool_size st mp + n)) st).
Proof.
  intros mp Hmp.
  assert (Hm1 : mapped mp = true) by (apply mapped_true; exact Hmp).
  assert (Hm2 : mapped (mp + 8) = true) by (apply mapped_true; lia).
  unfold ttls_mpi_profile_alloc_mpi, MPI_POOL_FREE_PTR, pool_size, pool_curr.
  fold mp. unfold bind, load, store, bug_on, lift, rd64, wr64, BUG_ON, ret, size_of, curr_of.
  rewrite Hm2. cbn [memory set_memory].
  destruct (PAGE_SIZE <? _); [reflexivity|].
  rewrite Hm1. cbn [memory set_memory].
  destruct (_ <=? x); [reflexivity|].
  cbn [memory set_memory].
  rewrite load64_store64_other by lia.
  reflexivity.
Qed.

(** An allocation that fits a pool whose two counters agree, for an MPI
    less than 2^31 bytes below the free pointer. *)
Lemma alloc_mpi_fits (x n c mp : Z) (st : state) :
  __mpi_profile x = mp ->
  PAGE_SIZE <= mp -> mp + PAGE_SIZE < 2 ^ 64 ->
  pool_curr st mp = c -> pool_size st mp = c ->
  0 <= c -> 0 <= n -> c + n <= pool_capacity ->
  x < pool_base mp + c ->
  pool_base mp + c - x < 2 ^ 31 ->
  exists st',
    ttls_mpi_profile_alloc_mpi x n st = Some (pool_base mp + c - x, st') /\
    pool_curr st' mp = c + n /\ pool_size st' mp = c + n.
Proof.
  intros Hres Hlo Hhi Hc Hs Hc0 Hn Hfit Hx Hint.
  pose proof (alloc_mpi_unfold x n st) as Hu. cbv zeta in Hu.
  rewrite Hres in Hu. specialize (Hu Hlo). rewrite Hu, Hc, Hs. clear Hu.
  rewrite pool_capacity_eq in Hfit. rewrite PAGE_SIZE_eq in *.
  unfold pool_base, sizeof_TlsMpiPool in *.
  rewrite (u64_small (16 + c + n)) by lia.
  rewrite (u64_small (mp + 16 + c)) by lia.
  destruct (4096 <? 16 + c + n) eqn:E1; [apply Z.ltb_lt in E1; lia|].
  destruct (mp + 16 + c <=? x) eqn:E2; [apply Z.leb_le in E2; lia|].
  rewrite s32_small by lia.
  eexists. split; [reflexivity|].
  unfold pool_curr, pool_size, curr_of, size_of. cbn [memory set_memory].
  rewrite load64_store64_other by lia.
  rewrite !load64_store64_same.
  split; apply u64_small; lia.
Qed.

(** A request refused for lack of room changes nothing at all. *)
Lemma alloc_mpi_refused (x n : Z) (st : state) :
  PAGE_SIZE <= __mpi_profile x ->
  PAGE_SIZE < u64 (sizeof_TlsMpiPool + pool_size st (__mpi_profile x) + n) ->
  ttls_mpi_profile_alloc_mpi x n st = Some (- ENOMEM, st).
Proof.
  intros Hlo Hbig. rewrite alloc_mpi_unfold by exact Hlo.
  apply Z.ltb_lt in Hbig. rewrite Hbig. reflexivity.
Qed.

End Allocator.

(** ** Runs of allocations *)

Lemma stacked_bounds (rs : list (Z * Z)) (lo : Z) :
  stacked lo rs -> Forall (fun r => 0 <= r.2) rs ->
  forall r, r ∈ rs -> lo <= r.1 /\ r.1 + r.2 <= lo + total_size rs.
Proof.
  revert lo. induction rs as [|r0 rs IH]; intros lo Hst Hpos r Hin.
  - apply elem_of_nil in Hin. contradiction.
  - destruct Hst as [Hlo Hst]. apply Forall_cons in Hpos as [Hp0 Hpos].
    assert (Htot : 0 <= total_size rs).
    { clear -Hpos. induction Hpos; simpl; [lia|]. unfold total_size in *. simpl. lia. }
    apply elem_of_cons in Hin as [->|Hin].
    + unfold total_size in *. simpl. lia.
    + destruct (IH _ Hst Hpos r Hin) as [H1 H2].
      unfold total_size in *. simpl. lia.
Qed.

Lemma stacked_ordered (rs : list (Z * Z)) (lo : Z) (i j : nat) (r r' : Z * Z) :
  stacked lo rs -> Forall (fun r => 0 <= r.2) rs ->
  (i < j)%nat -> rs !! i = Some r -> rs !! j = Some r' ->
  r.1 + r.2 <= r'.1.
Proof.
  revert lo i j. induction rs as [|r0 rs IH]; intros lo i j Hst Hpos Hij Hi Hj.
  - discriminate.
  - destruct Hst as [Hlo Hst]. apply Forall_cons in Hpos as [Hp0 Hpos].
    destruct j as [|j]; [lia|]. simpl in Hj.
    destruct i as [|i].
    + simpl in Hi. injection Hi as <-.
      apply list_elem_of_lookup_2 in Hj.
      destruct (stacked_bounds _ _ Hst Hpos _ Hj) as [H1 _]. lia.
    + simpl in Hi. apply (IH (lo + r0.2) i j); auto. lia.
Qed.

Section Runs.
Context `{Externals}.

Lemma alloc_all_stacked (reqs : list (Z * Z)) (c mp : Z) (st : state) :
  PAGE_SIZE <= mp -> mp + PAGE_SIZE < 2 ^ 64 ->
  pool_curr st mp = c -> pool_size st mp = c -> 0 <= c ->
  Forall (fun r => __mpi_profile r.1 = mp /\ 0 <= r.2) reqs ->
  mpis_below (pool_base mp + c) reqs ->
  Forall (fun r => pool_base mp + pool_capacity - r.1 < 2 ^ 31) reqs ->
  c + total_size reqs <= pool_capacity ->
  exists rets st',
    alloc_all reqs st = Some (rets, st') /\
    length rets = length reqs /\
    Forall (fun d => d <> - ENOMEM) rets /\
    stacked (pool_base mp + c) (ranges reqs rets) /\
    pool_curr st' mp = c + total_size reqs /\
    pool_size st' mp = c + total_size reqs.
Proof.
  intros Hlo Hhi. revert c st.
  induction reqs as [|[x n] reqs IH]; intros c st Hc Hs Hc0 Hall Hbelow Hint Hfit.
  - exists [], st. simpl. unfold total_size. simpl.
    repeat split; auto; lia.
  - apply Forall_cons in Hall as [[Hres Hn] Hall]. simpl in Hres, Hn.
    apply Forall_cons in Hint as [Hix Hint]. simpl in Hix.
    destruct Hbelow as [Hx Hbelow]. simpl in Hx, Hbelow.
    assert (Htot : 0 <= total_size reqs).
    { clear -Hall. induction Hall as [|r l [_ Hr] _ IHl]; unfold total_size in *; simpl; lia. }
    assert (Hsum : total_size ((x, n) :: reqs) = n + total_size reqs) by reflexivity.
    rewrite Hsum in *.
    destruct (alloc_mpi_fits x n c mp st) as (st1 & Hrun & Hc1 & Hs1); auto; try lia.
    destruct (IH (c + n) st1) as (rets & st' & Hrest & Hlen & Hok & Hstk & Hc' & Hs');
      auto; try lia.
    { replace (pool_base mp + (c + n)) with (pool_base mp + c + n) by lia. exact Hbelow. }
    exists ((pool_base mp + c - x) :: rets), st'.
    cbn [alloc_all]. unfold bind at 1. rewrite Hrun.
    unfold bind at 1. rewrite Hrest. unfold ret.
    split; [reflexivity|].
    split; [simpl; lia|].
    split.
    { apply Forall_cons. split; [|exact Hok]. unfold ENOMEM. lia. }
    split.
    { simpl. split; [lia|].
      replace (pool_base mp + c + n) with (pool_base mp + (c + n)) by lia. exact Hstk. }
    split; lia.
Qed.

End Runs.

Lemma ranges_sizes (reqs : list (Z * Z)) (rets : list Z) :
  length rets = length reqs ->
  total_size (ranges reqs rets) = total_size reqs /\
  (Forall (fun r => 0 <= r.2) reqs -> Forall (fun r => 0 <= r.2) (ranges reqs rets)).
Proof.
  revert rets. induction reqs as [|r reqs IH]; intros [|d rets] Hlen;
    simpl in Hlen; try discriminate.
  - split; [reflexivity|]. intros _. constructor.
  - injection Hlen as Hlen. destruct (IH rets Hlen) as [Ht Hf].
    unfold ranges, total_size in *. simpl. split.
    + rewrite Ht. reflexivity.
    + intros Hall. apply Forall_cons in Hall as [H0 Hall].
      apply Forall_cons. split; [exact H0|]. apply Hf. exact Hall.
Qed.

(** Where the returned distance is right.  On a pool fresh from the page
    allocator (both counters zero), for every run of requests whose sizes
    add up to at most the capacity of the pool (its page less the
    header), made for MPIs less than 2^31 bytes below the end of the
    pool, every call returns the distance to its bytes, every allocated
    range lies within the pool, from its base up to and including base +
    capacity, and an earlier range ends at or before the start of every
    later one. *)
Theorem alloc_run_within_capacity `{Externals}
    (reqs : list (Z * Z)) (mp : Z) (st : state) :
  PAGE_SIZE <= mp -> mp + PAGE_SIZE < 2 ^ 64 ->
  pool_curr st mp = 0 -> pool_size st mp = 0 ->
  Forall (fun r => __mpi_profile r.1 = mp /\ 0 <= r.2) reqs ->
  mpis_below (pool_base mp) reqs ->
  Forall (fun r => pool_base mp + pool_capacity - r.1 < 2 ^ 31) reqs ->
  total_size reqs <= pool_capacity ->
  exists rets st',
    alloc_all reqs st = Some (rets, st') /\
    length rets = length reqs /\
    Forall (fun d => d <> - ENOMEM) rets /\
    (forall r, r ∈ ranges reqs rets ->
       pool_base mp <= r.1 /\
       r.1 + r.2 <= pool_base mp + pool_capacity /\
       (0 < r.2 -> r.1 < pool_base mp + pool_capacity)) /\
    (forall i j r r', (i < j)%nat ->
       ranges reqs rets !! i = Some r -> ranges reqs rets !! j = Some r' ->
       r.1 + r.2 <= r'.1).
Proof.
  intros Hlo Hhi Hc Hs Hall Hbelow Hint Hfit.
  destruct (alloc_all_stacked reqs 0 mp st) as (rets & st' & Hrun & Hlen & Hok & Hstk & _);
    auto; try lia.
  { replace (pool_base mp + 0) with (pool_base mp) by lia. exact Hbelow. }
  replace (pool_base mp + 0) with (pool_base mp) in Hstk by lia.
  destruct (ranges_sizes reqs rets Hlen) as [Htot Hpos].
  assert (Hpos' : Forall (fun r => 0 <= r.2) (ranges reqs rets)).
  { apply Hpos. eapply Forall_impl; [exact Hall|]. intros r [_ Hr]. exact Hr. }
  exists rets, st'.
  split; [exact Hrun|]. split; [exact Hlen|]. split; [exact Hok|]. split.
  - intros r Hin.
    destruct (stacked_bounds _ _ Hstk Hpos' r Hin) as [H1 H2]. lia.
  - intros i j r r' Hij Hi Hj. eapply stacked_ordered; eauto.
Qed.

Lemma alloc_run_within_capacity_witness :
  exists rets st',
    @alloc_all demo_ext [(demo_x, 100); (demo_x, 1000)] demo_ready = Some (rets, st') /\
    length rets = 2%nat /\
    Forall (fun d => d <> - ENOMEM) rets /\
    (forall r, r ∈ ranges [(demo_x, 100); (demo_x, 1000)] rets ->
       pool_base demo_page <= r.1 /\
       r.1 + r.2 <= pool_base demo_page + pool_capacity /\
       (0 < r.2 -> r.1 < pool_base demo_page + pool_capacity)) /\
    (forall i j r r', (i < j)%nat ->
       ranges [(demo_x, 100); (demo_x, 1000)] rets !! i = Some r ->
       ranges [(demo_x, 100); (demo_x, 1000)] rets !! j = Some r' ->
       r.1 + r.2 <= r'.1).
Proof.
  apply (@alloc_run_within_capacity demo_ext
           [(demo_x, 100); (demo_x, 1000)] demo_page demo_ready).
  - vm_compute. discriminate.
  - vm_compute. reflexivity.
  - vm_compute. reflexivity.
  - vm_compute. reflexivity.
  - repeat constructor; vm_compute; try reflexivity; discriminate.
  - vm_compute. repeat split.
  - repeat constructor; vm_compute; reflexivity.
  - vm_compute. discriminate.
Defined.

(** On a full pool a request of no bytes succeeds and is given the address
    base + capacity, the first byte after the page. *)
Lemma alloc_run_zero_size_at_end :
  let reqs := [(demo_x, 4080); (demo_x, 0)] in
  let rets := [pool_base demo_page - demo_x;
               pool_base demo_page + pool_capacity - demo_x] in
  total_size reqs <= pool_capacity /\
  fst <$> @alloc_all demo_ext reqs demo_ready = Some rets /\
  ~ (forall r, r ∈ ranges reqs rets ->
       pool_base demo_page <= r.1 < pool_base demo_page + pool_capacity) /\
  ~ (forall r, r ∈ ranges reqs rets ->
       demo_page <= r.1 < demo_page + PAGE_SIZE).
Proof.
  intros reqs rets.
  assert (Hin : (pool_base demo_page + pool_capacity, 0) ∈ ranges reqs rets).
  { apply list_elem_of_further. vm_compute. apply list_elem_of_here. }
  split; [vm_compute; discriminate|].
  split; [vm_compute; reflexivity|].
  split; intros Hall; apply Hall in Hin; cbn [fst] in Hin.
  - lia.
  - vm_compute in Hin. destruct Hin as [_ Hin]. discriminate.
Qed.

(** C7.  The function has no return type, so the distance it returns is
    cut to an [int].  On an empty pool at [0x100010000] (CPU 0) a request
    of 32 bytes for the MPI at [0x1001c] is granted, the counters move to
    32, and the call returns [-ENOMEM]: the distance is [0xfffffff4].
    The next request, 32 bytes for the MPI at [0x10040], is granted too
    and returns -16.  Neither result, added to its MPI, is an address of
    the pool, and the first reads as a refusal. *)
Theorem alloc_granted_returns_enomem :
  let st1 := state_after (@ttls_mpi_profile_alloc_mpi far_ext far_x 32) far_ready in
  let st2 := state_after (@ttls_mpi_profile_alloc_mpi far_ext demo_x 32) st1 in
  pool_curr far_ready far_page = 0 /\ pool_size far_ready far_page = 0 /\
  32 + 32 <= pool_capacity /\
  far_x < pool_base far_page /\ demo_x < pool_base far_page + 32 /\
  fst <$> @ttls_mpi_profile_alloc_mpi far_ext far_x 32 far_ready = Some (- ENOMEM) /\
  pool_curr st1 far_page = 32 /\ pool_size st1 far_page = 32 /\
  fst <$> @ttls_mpi_profile_alloc_mpi far_ext demo_x 32 st1 = Some (- 16) /\
  pool_curr st2 far_page = 64 /\ pool_size st2 far_page = 64 /\
  ~ (pool_base far_page <= far_x + - ENOMEM < pool_base far_page + pool_capacity) /\
  ~ (pool_base far_page <= demo_x + - 16 < pool_base far_page + pool_capacity).
Proof.
  intros st1 st2.
  repeat split; try (vm_compute; reflexivity); try (vm_compute; discriminate).
  - intros [Hlo _]. vm_compute in Hlo. apply Hlo. reflexivity.
  - intros [Hlo _]. vm_compute in Hlo. apply Hlo. reflexivity.
Qed.

(** ** Cleaning the per-CPU pool *)

Section Cleanup.
Context `{Externals}.

(** [ttls_mpi_cleanup_ctx] zeroes the bytes handed out and puts [curr]
    back to zero; it leaves [size] as it was. *)
Lemma cleanup_ctx_spec (cpu : nat) (st : state) :
  let mp := tmp_mpool_slot st cpu in
  PAGE_SIZE <= mp -> mp + PAGE_SIZE < 2 ^ 64 ->
  MPI_POOL_DATA mp <= mem_alloc (memory st) mp ->
  pool_curr st mp <= pool_size st mp ->
  exists st',
    ttls_mpi_cleanup_ctx cpu st = Some (tt, st') /\
    pool_curr st' mp = 0 /\
    pool_size st' mp = pool_size st mp /\
    (forall a, pool_base mp <= a < pool_base mp + pool_curr st mp ->
       load8 (memory st') a = 0) /\
    (forall a, a < mp \/ pool_base mp + pool_curr st mp <= a ->
       memory st' a = memory st a).
Proof.
  intros mp Hlo Hhi Hma Hcs.
  assert (Hm1 : mapped mp = true) by (apply mapped_true; exact Hlo).
  assert (Hm2 : mapped (mp + 8) = true) by (apply mapped_true; lia).
  assert (Hd : MPI_POOL_DATA mp = mp + 16).
  { unfold MPI_POOL_DATA, sizeof_TlsMpiPool. apply u64_small.
    rewrite PAGE_SIZE_eq in *. lia. }
  assert (Hm3 : mapped (mp + 16) = true)
    by (apply mapped_true; lia).
  pose proof (load64_bound (memory st) mp) as Hcb.
  unfold ttls_mpi_cleanup_ctx, get_tmp_mpool, load_mem_alloc.
  unfold bind at 1. fold (tmp_mpool_slot st cpu). fold mp.
  unfold bind at 1. rewrite Hm1.
  unfold bind, load, store, bzero, bug_on, lift, rd64, wr64, BUG_ON, size_of, curr_of.
  rewrite Hd in *.
  destruct (mem_alloc (memory st) mp <? mp + 16) eqn:E1;
    [apply Z.ltb_lt in E1; lia|].
  unfold pool_curr, pool_size, curr_of, size_of, pool_base, sizeof_TlsMpiPool in *.
  rewrite Hm1, Hm2. cbn [memory set_memory].
  destruct (load64 (memory st) (mp + 8) <? load64 (memory st) mp) eqn:E2;
    [apply Z.ltb_lt in E2; lia|].
  rewrite Hm3, andb_false_r. cbn [memory set_memory].
  eexists. split; [reflexivity|]. cbn [memory set_memory].
  split; [rewrite load64_store64_same; reflexivity|].
  split.
  { rewrite load64_store64_other by lia.
    rewrite load64_bzero_outside by lia. reflexivity. }
  split.
  - intros a Ha. unfold load8.
    rewrite store64_outside by lia.
    rewrite bzero_fast_inside by lia. reflexivity.
  - intros a Ha.
    rewrite store64_outside.
    + apply bzero_fast_outside. lia.
    + destruct Ha as [Ha|Ha]; [left; exact Ha|right; lia].
Qed.

End Cleanup.

(** C1.  A pool that served 3000 bytes and was then cleaned has its
    offset back at zero, yet a request of 2000 bytes, well within the
    capacity, is refused: the test reads [size], which the cleanup leaves
    at 3000.  The refusal changes nothing. *)
Theorem alloc_refused_with_room :
  let st := state_after
              (@ttls_mpi_profile_alloc_mpi demo_ext demo_x 3000 ;;;
               @ttls_mpi_cleanup_ctx demo_ext 0) demo_ready in
  pool_curr st demo_page = 0 /\
  pool_size st demo_page = 3000 /\
  pool_curr st demo_page + 2000 <= pool_capacity /\
  @ttls_mpi_profile_alloc_mpi demo_ext demo_x 2000 st = Some (- ENOMEM, st).
Proof.
  intros st.
  assert (Hc : pool_curr st demo_page = 0) by (vm_compute; reflexivity).
  assert (Hs : pool_size st demo_page = 3000) by (vm_compute; reflexivity).
  split; [exact Hc|]. split; [exact Hs|].
  split; [rewrite Hc; vm_compute; discriminate|].
  assert (Hr : @__mpi_profile demo_ext demo_x = demo_page) by (vm_compute; reflexivity).
  apply (@alloc_mpi_refused demo_ext).
  - rewrite Hr. vm_compute. discriminate.
  - rewrite Hr, Hs. vm_compute. reflexivity.
Qed.

(** C5.  The run of the specification: 100 bytes, 1000 bytes, a cleanup,
    then 4000 bytes.  The first allocation is at the base of the pool; the
    one after the cleanup is refused instead of being given that address
    again. *)
Theorem alloc_after_cleanup_refused :
  4000 <= pool_capacity /\
  fst <$> (a <- @ttls_mpi_profile_alloc_mpi demo_ext demo_x 100 ;;
           b <- @ttls_mpi_profile_alloc_mpi demo_ext demo_x 1000 ;;
           @ttls_mpi_cleanup_ctx demo_ext 0 ;;;
           c <- @ttls_mpi_profile_alloc_mpi demo_ext demo_x 4000 ;;
           ret (demo_x + a, demo_x + b, c)) demo_ready
  = Some (pool_base demo_page, pool_base demo_page + 100, - ENOMEM).
Proof.
  split; [vm_compute; discriminate|]. vm_compute. reflexivity.
Qed.

(** ** Finding the pool of an address *)

Lemma lnot_PAGE_MASK : u64 (Z.lnot PAGE_MASK) = Z.ones PAGE_SHIFT.
Proof. reflexivity. Qed.

(** An address in the window above the stack pointer belongs to the pool
    of the executing CPU. *)
Lemma mpi_pool_stack (cpu : nat) (sp a : Z) (st : state) :
  in_stack_window sp a ->
  __mpi_pool cpu sp a st = Some (tmp_mpool_slot st cpu, st).
Proof.
  intros [H1 H2]. unfold __mpi_pool.
  apply Z.ltb_lt in H1, H2. rewrite H1, H2. reflexivity.
Qed.

(** Any other address is mapped to its offset within its page, not to the
    page: the mask is [~PAGE_MASK]. *)
Lemma mpi_pool_elsewhere (cpu : nat) (sp a : Z) (st : state) :
  0 <= a -> ~ in_stack_window sp a ->
  __mpi_pool cpu sp a st = Some (a mod PAGE_SIZE, st).
Proof.
  intros Ha Hout. unfold __mpi_pool.
  destruct ((sp <? a) && (a <? u64 (sp + 2 * PAGE_SIZE))) eqn:E.
  - apply andb_true_iff in E as [E1 E2].
    apply Z.ltb_lt in E1, E2. exfalso. apply Hout. split; assumption.
  - rewrite lnot_PAGE_MASK, Z.land_ones by (unfold PAGE_SHIFT; lia).
    reflexivity.
Qed.

(** C2.  A profile created for an EC key sits in the page [demo_page2];
    an address 48 bytes into that page is not in the stack window, and
    [__mpi_pool] answers 48 where the page boundary is [demo_page2]. *)
Theorem mpi_pool_of_profile_address :
  let st := state_after (@ttls_mpi_profile_set demo_ext eckey_crt 0) demo_ready in
  profile_slot st TTLS_MPI_PROFILE_ECDH = demo_page2 /\
  ~ in_stack_window demo_sp (demo_page2 + 48) /\
  page_of (demo_page2 + 48) = demo_page2 /\
  fst <$> __mpi_pool 0 demo_sp (demo_page2 + 48) st = Some 48.
Proof.
  intros st.
  assert (Hout : ~ in_stack_window demo_sp (demo_page2 + 48)).
  { intros [_ Hw]. vm_compute in Hw. discriminate. }
  split; [vm_compute; reflexivity|]. split; [exact Hout|].
  split; [vm_compute; reflexivity|].
  rewrite mpi_pool_elsewhere; [reflexivity| |exact Hout].
  vm_compute. discriminate.
Qed.

(** ** Giving pools back *)

Lemma land_PAGE_MASK (a : Z) :
  0 <= a < 2 ^ 64 -> Z.land a PAGE_MASK = page_of a.
Proof.
  intros Ha. unfold page_of.
  assert (Hm : PAGE_MASK = Z.shiftl (Z.ones 52) 12) by reflexivity.
  rewrite PAGE_SIZE_eq.
  assert (Hd : a - a mod 4096 = Z.shiftl (Z.shiftr a 12) 12).
  { rewrite Z.shiftl_mul_pow2, Z.shiftr_div_pow2 by lia.
    change (2 ^ 12) with 4096. pose proof (Z.div_mod a 4096). lia. }
  rewrite Hd, Hm. apply Z.bits_inj'. intros n Hn.
  rewrite Z.land_spec, !Z.shiftl_spec by lia.
  destruct (Z.lt_ge_cases n 12) as [Hlt|Hge].
  - rewrite !(Z.testbit_neg_r _ (n - 12)) by lia. apply andb_false_r.
  - rewrite Z.shiftr_spec by lia. replace (n - 12 + 12) with n by lia.
    destruct (Z.lt_ge_cases n 64) as [Hlt|Hge'].
    + rewrite Z.ones_spec_low by lia. apply andb_true_r.
    + rewrite Z.ones_spec_high by lia. rewrite andb_false_r. symmetry.
      destruct (Z.eq_dec a 0) as [->|Hnz]; [apply Z.testbit_0_l|].
      apply Z.bits_above_log2; [lia|].
      apply Z.lt_le_trans with 64; [|lia].
      apply Z.log2_lt_pow2; lia.
Qed.

(** [ttls_mpi_free_mpool] zeroes the whole page of [ctx] and then gives it
    back. *)
Lemma free_mpool_zeroes_page (ctx : Z) (st : state) :
  PAGE_SIZE <= ctx < 2 ^ 64 ->
  exists st',
    ttls_mpi_free_mpool ctx st = Some (tt, st') /\
    page_zeroed st' (page_of ctx) /\
    (page_of ctx ∉ live_pages st') /\
    (forall a, a < page_of ctx \/ page_of ctx + PAGE_SIZE <= a ->
       memory st' a = memory st a).
Proof.
  intros Hctx. rewrite PAGE_SIZE_eq in Hctx.
  unfold ttls_mpi_free_mpool. rewrite land_PAGE_MASK by lia.
  assert (Hp : 4096 <= page_of ctx).
  { unfold page_of. rewrite PAGE_SIZE_eq.
    pose proof (Z.div_mod ctx 4096). pose proof (Z.mod_pos_bound ctx 4096).
    assert (1 <= ctx / 4096) by (apply Z.div_le_lower_bound; lia). lia. }
  unfold bind, bzero, free_pages.
  replace (mapped (page_of ctx)) with true
    by (symmetry; apply mapped_true; rewrite PAGE_SIZE_eq; exact Hp).
  rewrite andb_false_r.
  replace (page_of ctx =? 0) with false by (symmetry; apply Z.eqb_neq; lia).
  eexists. split; [reflexivity|].
  unfold page_zeroed. cbn [memory live_pages set_memory].
  split; [|split].
  - intros a Ha. unfold load8. rewrite bzero_fast_inside by exact Ha. reflexivity.
  - apply not_elem_of_difference. right. apply elem_of_singleton. reflexivity.
  - intros a Ha. apply bzero_fast_outside. exact Ha.
Qed.

(** C3.  The profile page holds the key word the EC preparation copied
    into it.  After [ttls_mpool_exit] the page is back with the allocator
    and the word is still there: the first loop frees without zeroing. *)
Theorem mpool_exit_keeps_profile_bytes :
  let st := state_after (@ttls_mpi_profile_set demo_ext eckey_crt 0) demo_ready in
  let st' := state_after ttls_mpool_exit st in
  profile_slot st TTLS_MPI_PROFILE_ECDH = demo_page2 /\
  bool_decide (demo_page2 ∈ live_pages st) = true /\
  runs ttls_mpool_exit st = true /\
  bool_decide (demo_page2 ∈ live_pages st') = false /\
  load64 (memory st') (pool_base demo_page2) = pk_ctx (pk eckey_crt) /\
  ~ page_zeroed st' demo_page2.
Proof.
  intros st st'.
  assert (Hw : load64 (memory st') (pool_base demo_page2) = pk_ctx (pk eckey_crt))
    by (vm_compute; reflexivity).
  split; [vm_compute; reflexivity|].
  split; [vm_compute; reflexivity|].
  split; [vm_compute; reflexivity|].
  split; [vm_compute; reflexivity|].
  split; [exact Hw|].
  intros Hz. specialize (Hz (pool_base demo_page2)).
  assert (Hb : load8 (memory st') (pool_base demo_page2) = 239)
    by (vm_compute; reflexivity).
  rewrite Hz in Hb; [discriminate|]. vm_compute. split; [discriminate|reflexivity].
Qed.

(** ** Start-up *)

(** A loop over CPUs whose body reads through the per-CPU pointer oopses
    as soon as one of the CPUs it visits has a NULL pointer. *)
Lemma for_each_null_slot (l : list nat) (body : nat -> M unit) (i : nat) (st : state) :
  i ∈ l -> tmp_mpool_slot st i = 0 ->
  (forall j s a s', body j s = Some (a, s') -> g_tmp_mpool s' = g_tmp_mpool s) ->
  (forall s, tmp_mpool_slot s i = 0 -> body i s = None) ->
  for_each l body st = None.
Proof.
  intros Hin Hnull Hframe Hoops. revert st Hnull.
  induction l as [|j l IH]; intros st Hnull.
  - apply elem_of_nil in Hin. contradiction.
  - cbn [for_each]. unfold bind.
    destruct (body j st) as [[a st1]|] eqn:Ej; [|reflexivity].
    assert (Hnull1 : tmp_mpool_slot st1 i = 0).
    { unfold tmp_mpool_slot. rewrite (Hframe _ _ _ _ Ej). exact Hnull. }
    apply elem_of_cons in Hin as [->|Hin].
    + rewrite (Hoops st Hnull) in Ej. discriminate.
    + apply IH; assumption.
Qed.

(** When the loop of [ttls_mpool_init] jumps to [err_cleanup], the CPU it
    stopped at has a NULL pointer. *)
Lemma mpool_init_loop_failed (cpus : list nat) (st st1 : state) :
  (forall c, c ∈ cpus -> (c < length (g_tmp_mpool st))%nat) ->
  mpool_init_loop cpus st = Some (true, st1) ->
  length (g_tmp_mpool st1) = length (g_tmp_mpool st) /\
  exists i, i ∈ cpus /\ tmp_mpool_slot st1 i = 0.
Proof.
  revert st. induction cpus as [|cpu cpus IH]; intros st Hrange Hrun.
  - discriminate.
  - cbn [mpool_init_loop] in Hrun. unfold bind in Hrun.
    destruct (__get_free_pages true MCTX_ORDER st) as [[mp s1]|] eqn:Eg; [|discriminate].
    assert (Hg : g_tmp_mpool s1 = g_tmp_mpool st).
    { unfold __get_free_pages in Eg. destruct (buddy st); injection Eg as _ <-; reflexivity. }
    unfold put_tmp_mpool in Hrun.
    destruct (mp =? 0) eqn:Emp.
    + apply Z.eqb_eq in Emp. subst mp. injection Hrun as <-.
      cbn [g_tmp_mpool set_g_tmp_mpool]. rewrite length_insert, Hg.
      split; [reflexivity|]. exists cpu. split; [apply list_elem_of_here|].
      unfold tmp_mpool_slot. cbn [g_tmp_mpool set_g_tmp_mpool].
      rewrite list_lookup_insert_eq; [reflexivity|].
      apply Hrange. apply list_elem_of_here.
    + apply IH in Hrun.
      * cbn [g_tmp_mpool set_g_tmp_mpool] in Hrun. rewrite length_insert, Hg in Hrun.
        destruct Hrun as [Hlen (i & Hi & Hnull)].
        split; [exact Hlen|]. exists i. split; [apply list_elem_of_further; exact Hi|exact Hnull].
      * intros c Hc. cbn [g_tmp_mpool set_g_tmp_mpool]. rewrite length_insert, Hg.
        apply Hrange. apply list_elem_of_further. exact Hc.
Qed.

(** [ttls_mpool_exit] oopses if the pointer of some possible CPU is NULL. *)
Lemma mpool_exit_null_slot (i : nat) (st : state) :
  (i < length (g_tmp_mpool st))%nat -> tmp_mpool_slot st i = 0 ->
  ttls_mpool_exit st = None.
Proof.
  intros Hi Hnull. unfold ttls_mpool_exit. unfold bind at 1.
  destruct (for_each _ _ st) as [[[] s1]|] eqn:E1; [|reflexivity].
  assert (Hg : g_tmp_mpool s1 = g_tmp_mpool st).
  { clear -E1. revert st E1.
    induction (seq 0 __TTLS_MPI_PROFILES_N) as [|j l IH]; intros st E1.
    - injection E1 as <-. reflexivity.
    - cbn [for_each] in E1. unfold bind, get_profile, free_pages, ret in E1.
      destruct (negb _); [destruct (_ =? 0)|]; apply IH in E1; exact E1. }
  unfold bind, possible_cpus.
  apply (for_each_null_slot _ _ i).
  - apply elem_of_seq. rewrite Hg. lia.
  - unfold tmp_mpool_slot. rewrite Hg. exact Hnull.
  - intros j s a s' Ej. unfold bind, get_tmp_mpool, load, lift, bzero, free_pages in Ej.
    destruct (rd64 _ _); [|discriminate].
    destruct (_ && _); [discriminate|].
    destruct (_ =? 0); injection Ej as _ <-; reflexivity.
  - intros s Hs. unfold bind, get_tmp_mpool, load, lift.
    unfold tmp_mpool_slot in Hs. rewrite Hs. reflexivity.
Qed.

(** [ttls_mpool_init] never returns [-ENOMEM]: it returns 0, or a failed
    allocation sends it through [ttls_mpool_exit] into an oops. *)
Lemma mpool_init_returns_zero (st st' : state) (r : Z) :
  ttls_mpool_init st = Some (r, st') -> r = 0.
Proof.
  unfold ttls_mpool_init. unfold bind at 1. unfold possible_cpus.
  unfold bind at 1.
  destruct (mpool_init_loop _ st) as [[failed s1]|] eqn:El; [|discriminate].
  destruct failed.
  - apply mpool_init_loop_failed in El.
    + destruct El as [Hlen (i & Hi & Hnull)].
      apply elem_of_seq in Hi.
      unfold bind. rewrite (mpool_exit_null_slot i s1); [discriminate| |exact Hnull].
      rewrite Hlen. lia.
    + intros c Hc. apply elem_of_seq in Hc. lia.
  - intros E. injection E as <- _. reflexivity.
Qed.

(** C10.  Two possible CPUs and one page to be had: the second allocation
    fails, [err_cleanup] runs [ttls_mpool_exit], and that reads [curr]
    through the NULL pointer of the second CPU.  The same when the
    allocator answers 0 outright. *)
Theorem mpool_init_failure_oopses :
  ttls_mpool_init (boot_state demo_mem [demo_page] 2) = None /\
  ttls_mpool_init (boot_state demo_mem [demo_page; 0; demo_page2] 2) = None /\
  ttls_mpool_init (boot_state demo_mem [] 1) = None.
Proof. repeat split; vm_compute; reflexivity. Qed.

(** ** Initialising a pool header *)

Lemma pool_init_spec (mp : Z) (st : state) :
  PAGE_SIZE <= mp ->
  ttls_mpi_pool_init mp st =
    Some (tt, set_memory (store64 (store64 (memory st) (curr_of mp) (MPI_POOL_DATA mp))
                                  (size_of mp) 0) st).
Proof.
  intros Hlo.
  assert (Hm1 : mapped mp = true) by (apply mapped_true; exact Hlo).
  assert (Hm2 : mapped (mp + 8) = true) by (apply mapped_true; lia).
  unfold ttls_mpi_pool_init, bind, store, wr64, curr_of, size_of.
  rewrite Hm1. cbn [memory set_memory]. rewrite Hm2. reflexivity.
Qed.

(** What [ttls_mpi_pool_init] does get right: it takes the pool and
    nothing else, sets the [size] field to zero, writes nowhere but in
    the 16 bytes of the header, and allocates nothing: the pages in use,
    the page allocator, the profile table and the per-CPU pointers are as
    they were. *)
Theorem pool_init_clears_size (mp : Z) (st : state) :
  PAGE_SIZE <= mp ->
  exists st',
    ttls_mpi_pool_init mp st = Some (tt, st') /\
    pool_size st' mp = 0 /\
    (forall a, a < mp \/ mp + sizeof_TlsMpiPool <= a -> memory st' a = memory st a) /\
    live_pages st' = live_pages st /\
    buddy st' = buddy st /\
    mpi_profiles st' = mpi_profiles st /\
    g_tmp_mpool st' = g_tmp_mpool st /\
    has_empty_profile st' = has_empty_profile st.
Proof.
  intros Hlo. eexists. split; [apply pool_init_spec; exact Hlo|].
  unfold pool_size, curr_of, size_of, sizeof_TlsMpiPool.
  cbn [memory set_memory live_pages buddy mpi_profiles g_tmp_mpool has_empty_profile].
  split; [rewrite load64_store64_same; reflexivity|].
  split; [|repeat split].
  intros a Ha. rewrite !store64_outside by lia. reflexivity.
Qed.

Lemma pool_init_clears_size_witness :
  exists st',
    ttls_mpi_pool_init demo_page2 demo_ready = Some (tt, st') /\
    pool_size st' demo_page2 = 0 /\
    (forall a, a < demo_page2 \/ demo_page2 + sizeof_TlsMpiPool <= a ->
       memory st' a = memory demo_ready a) /\
    live_pages st' = live_pages demo_ready /\
    buddy st' = buddy demo_ready /\
    mpi_profiles st' = mpi_profiles demo_ready /\
    g_tmp_mpool st' = g_tmp_mpool demo_ready /\
    has_empty_profile st' = has_empty_profile demo_ready.
Proof.
  apply (pool_init_clears_size demo_page2 demo_ready).
  vm_compute. discriminate.
Defined.

(** C9.  [ttls_mpi_pool_init] does not set the offset to zero: it stores
    the address of the data area in [curr].  The struct comment,
    [MPI_POOL_FREE_PTR] and [ttls_mpi_cleanup_ctx] take [curr] for an
    offset from the data area, so the free pointer of a pool just
    initialised is [2 * (mp + 16)] modulo 2^64, an address outside the
    page of the pool, where it should be the data area. *)
Theorem pool_init_offset_is_address (mp : Z) (st : state) :
  PAGE_SIZE <= mp -> mp + 2 * PAGE_SIZE <= 2 ^ 64 ->
  exists st',
    ttls_mpi_pool_init mp st = Some (tt, st') /\
    pool_curr st' mp = pool_base mp /\
    pool_curr st' mp <> 0 /\
    pool_size st' mp = 0 /\
    MPI_POOL_FREE_PTR mp st' = Some (u64 (2 * pool_base mp), st') /\
    u64 (2 * pool_base mp) <> pool_base mp /\
    (u64 (2 * pool_base mp) < mp \/ mp + PAGE_SIZE <= u64 (2 * pool_base mp)).
Proof.
  intros Hlo Hhi. rewrite (pool_init_spec mp st Hlo).
  eexists. split; [reflexivity|].
  assert (Hd : MPI_POOL_DATA mp = pool_base mp).
  { unfold MPI_POOL_DATA, pool_base, sizeof_TlsMpiPool. apply u64_small.
    rewrite PAGE_SIZE_eq in *. lia. }
  rewrite Hd.
  assert (Hc : load64 (store64 (store64 (memory st) (curr_of mp) (pool_base mp))
                               (size_of mp) 0) (curr_of mp) = pool_base mp).
  { unfold curr_of, size_of. rewrite load64_store64_other by lia.
    rewrite load64_store64_same. apply u64_small.
    unfold pool_base, sizeof_TlsMpiPool. rewrite PAGE_SIZE_eq in *. lia. }
  assert (Hout : u64 (2 * pool_base mp) < mp \/ mp + PAGE_SIZE <= u64 (2 * pool_base mp)).
  { unfold pool_base, sizeof_TlsMpiPool. rewrite PAGE_SIZE_eq in *.
    destruct (Z_lt_le_dec (2 * (mp + 16)) (2 ^ 64)) as [Hs|Hs].
    - rewrite u64_small by lia. right. lia.
    - unfold u64. rewrite <- (Z.mod_unique (2 * (mp + 16)) (2 ^ 64) 1
                                (2 * (mp + 16) - 2 ^ 64)) by lia.
      left. lia. }
  unfold pool_curr, pool_size. cbn [memory set_memory]. rewrite Hc.
  split; [reflexivity|].
  split; [unfold pool_base, sizeof_TlsMpiPool; rewrite PAGE_SIZE_eq in Hlo; lia|].
  split; [apply load64_store64_same|].
  split.
  { unfold MPI_POOL_FREE_PTR, bind, load, rd64, lift, ret.
    change (mapped (curr_of mp)) with (mapped mp).
    rewrite (mapped_true _ Hlo). cbn [memory set_memory].
    rewrite Hc. do 3 f_equal. unfold pool_base, sizeof_TlsMpiPool. lia. }
  split; [|exact Hout].
  unfold pool_base, sizeof_TlsMpiPool in *. rewrite PAGE_SIZE_eq in *. lia.
Qed.

Lemma pool_init_offset_is_address_witness :
  exists st',
    ttls_mpi_pool_init demo_page2 demo_ready = Some (tt, st') /\
    pool_curr st' demo_page2 = pool_base demo_page2 /\
    pool_curr st' demo_page2 <> 0 /\
    pool_size st' demo_page2 = 0 /\
    MPI_POOL_FREE_PTR demo_page2 st' = Some (u64 (2 * pool_base demo_page2), st') /\
    u64 (2 * pool_base demo_page2) <> pool_base demo_page2 /\
    (u64 (2 * pool_base demo_page2) < demo_page2 \/
     demo_page2 + PAGE_SIZE <= u64 (2 * pool_base demo_page2)).
Proof.
  apply (pool_init_offset_is_address demo_page2 demo_ready).
  - vm_compute. discriminate.
  - vm_compute. discriminate.
Defined.

(** ** The profile table *)

Lemma filled_among_bounds (ps : list Z) (l : list nat) :
  0 <= filled_among ps l <= Z.of_nat (length l).
Proof.
  induction l as [|i l IH]; simpl; [lia|].
  destruct (default 0 (ps !! i) =? 0); lia.
Qed.

Lemma filled_among_full (ps : list Z) (l : list nat) :
  filled_among ps l = Z.of_nat (length l) ->
  forall i, i ∈ l -> default 0 (ps !! i) <> 0.
Proof.
  induction l as [|j l IH]; intros Hfull i Hin.
  - apply elem_of_nil in Hin. contradiction.
  - simpl in Hfull. pose proof (filled_among_bounds ps l) as Hb.
    destruct (default 0 (ps !! j) =? 0) eqn:E; [lia|].
    apply Z.eqb_neq in E.
    apply elem_of_cons in Hin as [->|Hin]; [exact E|].
    apply IH; [lia|exact Hin].
Qed.

Section Registry.
Context `{Externals}.

Lemma profile_for_cert_true (i : nat) (pkey : TlsPkCtx) :
  ttls_mpi_profile_for_cert i pkey = true ->
  i = TTLS_MPI_PROFILE_ECDH /\ pk_info_type pkey = TTLS_PK_ECKEY.
Proof.
  unfold ttls_mpi_profile_for_cert.
  destruct (pk_info_type pkey); try discriminate.
  destruct (Nat.eqb i TTLS_MPI_PROFILE_ECDH) eqn:E; [|discriminate].
  apply Nat.eqb_eq in E. intros _. split; [exact E|reflexivity].
Qed.

(** A slot that is filled, or that the key does not call for, is passed
    over: it is counted if filled, and nothing changes. *)
Lemma profile_set_body_skip (pkey : TlsPkCtx) (i : nat) (mp n : Z) (st : state) :
  profile_slot st i <> 0 \/ ttls_mpi_profile_for_cert i pkey = false ->
  profile_set_body pkey i mp n st =
    Some (Next (mp, n + filled_among (mpi_profiles st) [i]), st).
Proof.
  intros Hskip. unfold profile_set_body, bind, get_profile, ret. simpl.
  unfold profile_slot in Hskip.
  destruct (default 0 (mpi_profiles st !! i) =? 0) eqn:E; simpl.
  - apply Z.eqb_eq in E. destruct Hskip as [Hne|Hf]; [contradiction|].
    rewrite Hf. simpl. rewrite Z.add_0_r. reflexivity.
  - reflexivity.
Qed.

Lemma profile_set_loop_skip (pkey : TlsPkCtx) (l : list nat) (mp n : Z) (st : state) :
  (forall i, i ∈ l ->
     profile_slot st i <> 0 \/ ttls_mpi_profile_for_cert i pkey = false) ->
  profile_set_loop pkey l mp n st =
    Some (Next (mp, n + filled_among (mpi_profiles st) l), st).
Proof.
  revert n. induction l as [|i l IH]; intros n Hskip.
  - simpl. unfold ret. rewrite Z.add_0_r. reflexivity.
  - cbn [profile_set_loop]. unfold bind at 1.
    rewrite profile_set_body_skip by (apply Hskip; apply list_elem_of_here).
    rewrite IH by (intros j Hj; apply Hskip; apply list_elem_of_further; exact Hj).
    cbn [filled_among].
    destruct (default 0 (mpi_profiles st !! i) =? 0); do 4 f_equal; lia.
Qed.

(** Creating an EC profile never oopses and touches neither the table,
    nor the flag, nor the per-CPU pointers. *)
Lemma profile_create_ec_frame (pkey : TlsPkCtx) (st : state) :
  exists mp st1,
    ttls_mpi_profile_create_ec pkey st = Some (mp, st1) /\
    mpi_profiles st1 = mpi_profiles st /\
    g_tmp_mpool st1 = g_tmp_mpool st /\
    has_empty_profile st1 = has_empty_profile st.
Proof.
  unfold ttls_mpi_profile_create_ec, bind, __get_free_pages, on_memory, ret.
  destruct (buddy st) as [|p rest]; simpl.
  - eexists _, _. split; [reflexivity|]. auto.
  - destruct (p =? 0); simpl.
    + eexists _, _. split; [reflexivity|]. auto.
    + destruct (ttls_ecdh_get_params _ _ _) as [r m1]. simpl.
      destruct (r =? 0); simpl.
      * destruct (ecp_precompute_comb _ _ _ _) as [r2 m2]. simpl.
        destruct (r2 =? 0); simpl; eexists _, _; (split; [reflexivity|]); auto.
      * eexists _, _. split; [reflexivity|]. auto.
Qed.

Lemma profile_set_body_fill_eq (pkey : TlsPkCtx) (i : nat) (mp n : Z) (st : state) :
  profile_slot st i = 0 -> ttls_mpi_profile_for_cert i pkey = true ->
  profile_set_body pkey i mp n st =
    if mp =? 0 then
      match ttls_mpi_profile_create_ec pkey st with
      | Some (mp', st1) =>
          if mp' =? 0 then Some (Return (- EINVAL), st1)
          else Some (Next (mp', n + 1),
                     set_mpi_profiles (<[ i := mp' ]> (mpi_profiles st1)) st1)
      | None => None
      end
    else Some (Next (mp, n + 1),
               set_mpi_profiles (<[ i := mp ]> (mpi_profiles st)) st).
Proof.
  intros Hempty Hfor.
  destruct (profile_for_cert_true _ _ Hfor) as [_ Hty].
  unfold profile_slot in Hempty.
  unfold profile_set_body, bind, get_profile, ret, put_profile.
  rewrite Hempty, Hfor, Hty. simpl.
  destruct (mp =? 0); [|reflexivity].
  destruct (ttls_mpi_profile_create_ec pkey st) as [[mp' st1]|]; [|reflexivity].
  destruct (mp' =? 0); reflexivity.
Qed.

(** An empty slot the key calls for is given a pool that is not NULL, or
    the call gives up with [-EINVAL]. *)
Lemma profile_set_body_fill (pkey : TlsPkCtx) (i : nat) (mp n : Z) (st : state) :
  profile_slot st i = 0 -> ttls_mpi_profile_for_cert i pkey = true ->
  exists st1,
    g_tmp_mpool st1 = g_tmp_mpool st /\
    has_empty_profile st1 = has_empty_profile st /\
    ((profile_set_body pkey i mp n st = Some (Return (- EINVAL), st1) /\
      mpi_profiles st1 = mpi_profiles st) \/
     (exists mp', mp' <> 0 /\
        profile_set_body pkey i mp n st = Some (Next (mp', n + 1), st1) /\
        mpi_profiles st1 = <[ i := mp' ]> (mpi_profiles st))).
Proof.
  intros Hempty Hfor.
  rewrite (profile_set_body_fill_eq pkey i mp n st Hempty Hfor).
  destruct (mp =? 0) eqn:Emp.
  - destruct (profile_create_ec_frame pkey st) as (mp' & st1 & Hrun & Hp & Hg & Hf).
    rewrite Hrun.
    destruct (mp' =? 0) eqn:E'.
    + exists st1. split; [exact Hg|]. split; [exact Hf|]. left. auto.
    + apply Z.eqb_neq in E'. eexists.
      split; [|split; [|right; exists mp'; split; [exact E'|split; [reflexivity|]]]].
      * exact Hg.
      * exact Hf.
      * cbn [mpi_profiles set_mpi_profiles]. rewrite Hp. reflexivity.
  - apply Z.eqb_neq in Emp. eexists.
    split; [|split; [|right; exists mp; split; [exact Emp|split; reflexivity]]];
      reflexivity.
Qed.

Lemma profile_for_cert_tail (pkey : TlsPkCtx) (i : nat) :
  i <> TTLS_MPI_PROFILE_ECDH -> ttls_mpi_profile_for_cert i pkey = false.
Proof.
  intros Hi. destruct (ttls_mpi_profile_for_cert i pkey) eqn:E; [|reflexivity].
  apply profile_for_cert_true in E as [E _]. contradiction.
Qed.

Lemma profile_for_cert_other_key (pkey : TlsPkCtx) (i : nat) :
  pk_info_type pkey <> TTLS_PK_ECKEY -> ttls_mpi_profile_for_cert i pkey = false.
Proof.
  intros Hk. destruct (ttls_mpi_profile_for_cert i pkey) eqn:E; [|reflexivity].
  apply profile_for_cert_true in E as [_ E]. contradiction.
Qed.

(** The whole loop: it either gives up with [-EINVAL], or ends with [n]
    equal to the number of filled slots, having written at most the
    ECDH slot, and then only for an EC key and with a pool that is not
    NULL.  A second pass over the resulting table would skip every slot. *)
Lemma profile_set_loop_cases (pkey : TlsPkCtx) (u : Z) (st : state) :
  length (mpi_profiles st) = __TTLS_MPI_PROFILES_N ->
  exists st1,
    g_tmp_mpool st1 = g_tmp_mpool st /\
    has_empty_profile st1 = has_empty_profile st /\
    length (mpi_profiles st1) = __TTLS_MPI_PROFILES_N /\
    (forall i, i <> TTLS_MPI_PROFILE_ECDH -> profile_slot st1 i = profile_slot st i) /\
    ((profile_set_loop pkey (seq 0 __TTLS_MPI_PROFILES_N) u 0 st
        = Some (Return (- EINVAL), st1) /\
      mpi_profiles st1 = mpi_profiles st) \/
     (exists mp,
        profile_set_loop pkey (seq 0 __TTLS_MPI_PROFILES_N) u 0 st
          = Some (Next (mp, filled_among (mpi_profiles st1)
                              (seq 0 __TTLS_MPI_PROFILES_N)), st1) /\
        (st1 = st \/
         (pk_info_type pkey = TTLS_PK_ECKEY /\
          profile_slot st TTLS_MPI_PROFILE_ECDH = 0 /\
          profile_slot st1 TTLS_MPI_PROFILE_ECDH <> 0)) /\
        (forall i, profile_slot st1 i <> 0 \/
                   ttls_mpi_profile_for_cert i pkey = false))).
Proof.
  intros Hlen.
  destruct (Z.eq_dec (profile_slot st TTLS_MPI_PROFILE_ECDH) 0) as [Hempty|Hfilled];
    [destruct (ttls_mpi_profile_for_cert TTLS_MPI_PROFILE_ECDH pkey) eqn:Hfor|].
  - (* the ECDH slot is empty and the key calls for it *)
    destruct (profile_for_cert_true _ _ Hfor) as [_ Hty].
    destruct (profile_set_body_fill pkey TTLS_MPI_PROFILE_ECDH u 0 st Hempty Hfor)
      as (st1 & Hg & Hf & [[Hrun Hp]|(mp' & Hmp' & Hrun & Hp)]).
    + exists st1. split; [exact Hg|]. split; [exact Hf|].
      split; [rewrite Hp; exact Hlen|].
      split; [intros i _; unfold profile_slot; rewrite Hp; reflexivity|].
      left. split; [|exact Hp].
      change (seq 0 __TTLS_MPI_PROFILES_N) with (TTLS_MPI_PROFILE_ECDH :: seq 1 7).
      cbn [profile_set_loop]. unfold bind. rewrite Hrun. reflexivity.
    + assert (Hslot : profile_slot st1 TTLS_MPI_PROFILE_ECDH = mp').
      { unfold profile_slot. rewrite Hp.
        rewrite list_lookup_insert_eq; [reflexivity|].
        rewrite Hlen. unfold TTLS_MPI_PROFILE_ECDH, __TTLS_MPI_PROFILES_N. lia. }
      assert (Hskip : forall i, profile_slot st1 i <> 0 \/
                                ttls_mpi_profile_for_cert i pkey = false).
      { intros i. destruct (Nat.eq_dec i TTLS_MPI_PROFILE_ECDH) as [->|Hi].
        - left. rewrite Hslot. exact Hmp'.
        - right. apply profile_for_cert_tail. exact Hi. }
      exists st1. split; [exact Hg|]. split; [exact Hf|].
      split; [rewrite Hp, length_insert; exact Hlen|].
      split.
      { intros i Hi. unfold profile_slot. rewrite Hp.
        rewrite list_lookup_insert_ne by (intros E; apply Hi; symmetry; exact E).
        reflexivity. }
      right. exists mp'. split; [|split; [|exact Hskip]].
      * change (seq 0 __TTLS_MPI_PROFILES_N) with (TTLS_MPI_PROFILE_ECDH :: seq 1 7).
        cbn [profile_set_loop]. unfold bind. rewrite Hrun.
        rewrite profile_set_loop_skip by (intros i _; apply Hskip).
        cbn [filled_among]. fold (profile_slot st1 TTLS_MPI_PROFILE_ECDH).
        rewrite Hslot.
        replace (mp' =? 0) with false by (symmetry; apply Z.eqb_neq; exact Hmp').
        reflexivity.
      * right. split; [exact Hty|]. split; [exact Hempty|].
        rewrite Hslot. exact Hmp'.
  - (* the ECDH slot is empty and the key does not call for it *)
    assert (Hskip : forall i, profile_slot st i <> 0 \/
                              ttls_mpi_profile_for_cert i pkey = false).
    { intros i. right. destruct (Nat.eq_dec i TTLS_MPI_PROFILE_ECDH) as [->|Hi];
        [exact Hfor|apply profile_for_cert_tail; exact Hi]. }
    exists st. repeat (split; [reflexivity|]). split; [exact Hlen|].
    split; [reflexivity|]. right. exists u. split; [|split; [left; reflexivity|exact Hskip]].
    rewrite profile_set_loop_skip by (intros i _; apply Hskip). reflexivity.
  - (* the ECDH slot is filled *)
    assert (Hskip : forall i, profile_slot st i <> 0 \/
                              ttls_mpi_profile_for_cert i pkey = false).
    { intros i. destruct (Nat.eq_dec i TTLS_MPI_PROFILE_ECDH) as [->|Hi];
        [left; exact Hfilled|right; apply profile_for_cert_tail; exact Hi]. }
    exists st. repeat (split; [reflexivity|]). split; [exact Hlen|].
    split; [reflexivity|]. right. exists u. split; [|split; [left; reflexivity|exact Hskip]].
    rewrite profile_set_loop_skip by (intros i _; apply Hskip). reflexivity.
Qed.

(** With the flag cleared the call returns at once. *)
Lemma profile_set_flag_clear (crt : ttls_x509_crt) (u : Z) (st : state) :
  has_empty_profile st = false ->
  ttls_mpi_profile_set crt u st = Some (0, st).
Proof.
  intros Hflag. unfold ttls_mpi_profile_set, bind, get_has_empty_profile, ret.
  rewrite Hflag. reflexivity.
Qed.

(** A call on a table every slot of which would be skipped. *)
Lemma profile_set_all_skipped (crt : ttls_x509_crt) (u : Z) (st : state) :
  has_empty_profile st = true ->
  (forall i, profile_slot st i <> 0 \/
             ttls_mpi_profile_for_cert i (pk crt) = false) ->
  ttls_mpi_profile_set crt u st =
    Some (0, if filled_among (mpi_profiles st) (seq 0 __TTLS_MPI_PROFILES_N)
                =? Z.of_nat __TTLS_MPI_PROFILES_N
             then set_has_empty_profile false st else st).
Proof.
  intros Hflag Hskip.
  unfold ttls_mpi_profile_set. unfold bind at 1. unfold get_has_empty_profile.
  rewrite Hflag. cbn [negb]. unfold bind at 1.
  rewrite profile_set_loop_skip by (intros i _; apply Hskip).
  rewrite Z.add_0_l.
  destruct (_ =? _); reflexivity.
Qed.

Lemma all_filled_of_count (st : state) :
  filled_among (mpi_profiles st) (seq 0 __TTLS_MPI_PROFILES_N)
    = Z.of_nat __TTLS_MPI_PROFILES_N ->
  all_profiles_filled st.
Proof.
  intros Hn i Hi. unfold profile_slot.
  apply (filled_among_full _ (seq 0 __TTLS_MPI_PROFILES_N)).
  - rewrite length_seq. exact Hn.
  - apply elem_of_seq. lia.
Qed.

(** What a call with the flag still set can do. *)
Lemma profile_set_flag_set (crt : ttls_x509_crt) (u : Z) (st : state) :
  length (mpi_profiles st) = __TTLS_MPI_PROFILES_N ->
  has_empty_profile st = true ->
  exists r st',
    ttls_mpi_profile_set crt u st = Some (r, st') /\
    length (mpi_profiles st') = __TTLS_MPI_PROFILES_N /\
    g_tmp_mpool st' = g_tmp_mpool st /\
    (forall i, i <> TTLS_MPI_PROFILE_ECDH -> profile_slot st' i = profile_slot st i) /\
    (pk_info_type (pk crt) <> TTLS_PK_ECKEY -> mpi_profiles st' = mpi_profiles st) /\
    ((r = - EINVAL /\ mpi_profiles st' = mpi_profiles st /\
      has_empty_profile st' = true) \/
     (r = 0 /\
      (has_empty_profile st' = false -> all_profiles_filled st') /\
      (forall u', ttls_mpi_profile_set crt u' st' = Some (0, st')))).
Proof.
  intros Hlen Hflag.
  destruct (profile_set_loop_cases (pk crt) u st Hlen)
    as (st1 & Hg & Hf & Hlen1 & Hothers &
        [[Hrun Hp]|(mp & Hrun & Hwhat & Hskip)]).
  - exists (- EINVAL), st1.
    split.
    { unfold ttls_mpi_profile_set. unfold bind at 1. unfold get_has_empty_profile.
      rewrite Hflag. cbn [negb]. unfold bind. rewrite Hrun. reflexivity. }
    split; [exact Hlen1|]. split; [exact Hg|]. split; [exact Hothers|].
    split; [intros _; exact Hp|].
    left. split; [reflexivity|]. split; [exact Hp|]. rewrite Hf. exact Hflag.
  - set (n := filled_among (mpi_profiles st1) (seq 0 __TTLS_MPI_PROFILES_N)) in *.
    exists 0, (if n =? Z.of_nat __TTLS_MPI_PROFILES_N
               then set_has_empty_profile false st1 else st1).
    split.
    { unfold ttls_mpi_profile_set. unfold bind at 1. unfold get_has_empty_profile.
      rewrite Hflag. cbn [negb]. unfold bind at 1. rewrite Hrun.
      destruct (n =? _); reflexivity. }
    assert (Hkey : pk_info_type (pk crt) <> TTLS_PK_ECKEY ->
                   mpi_profiles st1 = mpi_profiles st).
    { intros Hk. destruct Hwhat as [->|[Hty _]]; [reflexivity|contradiction]. }
    destruct (n =? Z.of_nat __TTLS_MPI_PROFILES_N) eqn:En.
    + apply Z.eqb_eq in En.
      split; [exact Hlen1|]. split; [exact Hg|]. split; [exact Hothers|].
      split; [exact Hkey|].
      right. split; [reflexivity|]. split.
      * intros _. apply (all_filled_of_count st1). exact En.
      * intros u'. apply profile_set_flag_clear. reflexivity.
    + split; [exact Hlen1|]. split; [exact Hg|]. split; [exact Hothers|].
      split; [exact Hkey|].
      right. split; [reflexivity|]. split.
      * intros Hcl. rewrite Hf, Hflag in Hcl. discriminate.
      * intros u'. rewrite profile_set_all_skipped;
          [|rewrite Hf; exact Hflag|exact Hskip].
        fold n. rewrite En. reflexivity.
Qed.

(** C4, as amended.  [ttls_mpi_profile_set] is idempotent: once a call
    has returned 0, a repeated call for the same certificate, whatever
    its uninitialised local holds, returns 0 and leaves the whole state
    as it is (no page is taken, no byte is written, the table and the
    flag stay), so the preparation ran once at most.  It does not give
    two schemes a profile each: a call writes no slot but
    [TTLS_MPI_PROFILE_ECDH], and for a key that is not [TTLS_PK_ECKEY] it
    writes no slot at all. *)
Theorem profile_set_idempotent (crt : ttls_x509_crt) (u : Z) (st st' : state) :
  length (mpi_profiles st) = __TTLS_MPI_PROFILES_N ->
  ttls_mpi_profile_set crt u st = Some (0, st') ->
  (forall u', ttls_mpi_profile_set crt u' st' = Some (0, st')) /\
  (forall i, i <> TTLS_MPI_PROFILE_ECDH -> profile_slot st' i = profile_slot st i) /\
  (pk_info_type (pk crt) <> TTLS_PK_ECKEY -> mpi_profiles st' = mpi_profiles st).
Proof.
  intros Hlen Hrun.
  destruct (has_empty_profile st) eqn:Hflag.
  - destruct (profile_set_flag_set crt u st Hlen Hflag)
      as (r & st2 & Hrun2 & _ & _ & Hothers & Hkey & Hcases).
    rewrite Hrun in Hrun2. injection Hrun2 as <- <-.
    destruct Hcases as [[Hr _]|(_ & _ & Hagain)]; [unfold EINVAL in Hr; lia|].
    split; [exact Hagain|]. split; [exact Hothers|exact Hkey].
  - rewrite (profile_set_flag_clear crt u st Hflag) in Hrun.
    injection Hrun as <-.
    split; [|split; reflexivity].
    intros u'. apply profile_set_flag_clear. exact Hflag.
Qed.

(** C8, as amended.  [ttls_mpi_profile_alloc] does not look at the
    table: for every handshake it returns 0 and changes nothing, with or
    without a profile.  [ttls_mpi_profile_set] for an RSA, ECKEY_DH or
    ECDSA key returns 0, not an error, and registers nothing: the table,
    the store, the pages in use and the page allocator are as they
    were. *)
Theorem unprepared_schemes_succeed
    (tls : TlsCtx) (crt : ttls_x509_crt) (u : Z) (st : state) :
  pk_info_type (pk crt) = TTLS_PK_RSA \/
  pk_info_type (pk crt) = TTLS_PK_ECKEY_DH \/
  pk_info_type (pk crt) = TTLS_PK_ECDSA ->
  ttls_mpi_profile_alloc tls st = Some (0, st) /\
  exists st',
    ttls_mpi_profile_set crt u st = Some (0, st') /\
    mpi_profiles st' = mpi_profiles st /\
    memory st' = memory st /\
    live_pages st' = live_pages st /\
    buddy st' = buddy st /\
    g_tmp_mpool st' = g_tmp_mpool st.
Proof.
  intros Hty.
  assert (Hkey : pk_info_type (pk crt) <> TTLS_PK_ECKEY).
  { intros E. rewrite E in Hty. destruct Hty as [Hty|[Hty|Hty]]; discriminate. }
  split.
  - unfold ttls_mpi_profile_alloc, ret.
    destruct (_ || _); reflexivity.
  - destruct (has_empty_profile st) eqn:Hflag.
    + rewrite profile_set_all_skipped;
        [|exact Hflag|intros i; right; apply profile_for_cert_other_key; exact Hkey].
      eexists. split; [reflexivity|].
      destruct (_ =? _); repeat split.
    + rewrite profile_set_flag_clear by exact Hflag.
      eexists. split; [reflexivity|]. repeat split.
Qed.

End Registry.

Lemma profile_set_idempotent_witness :
  let st' := state_after (@ttls_mpi_profile_set demo_ext eckey_crt 0) demo_ready in
  (forall u', @ttls_mpi_profile_set demo_ext eckey_crt u' st' = Some (0, st')) /\
  (forall i, i <> TTLS_MPI_PROFILE_ECDH ->
     profile_slot st' i = profile_slot demo_ready i) /\
  (pk_info_type (pk eckey_crt) <> TTLS_PK_ECKEY ->
     mpi_profiles st' = mpi_profiles demo_ready).
Proof.
  intros st'.
  apply (@profile_set_idempotent demo_ext eckey_crt 0 demo_ready st').
  - reflexivity.
  - unfold st', state_after.
    destruct (@ttls_mpi_profile_set demo_ext eckey_crt 0 demo_ready)
      as [[r st1]|] eqn:E.
    + assert (Hr : fst <$> @ttls_mpi_profile_set demo_ext eckey_crt 0 demo_ready
                   = Some r) by (rewrite E; reflexivity).
      vm_compute in Hr. injection Hr as <-. reflexivity.
    + assert (Hr : runs (@ttls_mpi_profile_set demo_ext eckey_crt 0) demo_ready
                   = false) by (unfold runs; rewrite E; reflexivity).
      vm_compute in Hr. discriminate.
Defined.

(** C4 as stated fails: an EC key and then an RSA key are presented to a
    table with no profile yet; both calls return 0, and the table ends
    with the one ECDH profile, every other slot still empty. *)
Lemma profile_set_second_scheme_left_empty :
  let st1 := state_after (@ttls_mpi_profile_set demo_ext eckey_crt 0) demo_ready in
  let st2 := state_after (@ttls_mpi_profile_set demo_ext rsa_crt 0) st1 in
  mpi_profiles demo_ready = [0; 0; 0; 0; 0; 0; 0; 0] /\
  fst <$> @ttls_mpi_profile_set demo_ext eckey_crt 0 demo_ready = Some 0 /\
  fst <$> @ttls_mpi_profile_set demo_ext rsa_crt 0 st1 = Some 0 /\
  mpi_profiles st2 = [demo_page2; 0; 0; 0; 0; 0; 0; 0] /\
  profile_slot st2 TTLS_MPI_PROFILE_DHM = 0.
Proof. repeat split; vm_compute; reflexivity. Qed.

Lemma unprepared_schemes_succeed_witness :
  @ttls_mpi_profile_alloc demo_ext demo_tls demo_ready = Some (0, demo_ready) /\
  exists st',
    @ttls_mpi_profile_set demo_ext rsa_crt 0 demo_ready = Some (0, st') /\
    mpi_profiles st' = mpi_profiles demo_ready /\
    memory st' = memory demo_ready /\
    live_pages st' = live_pages demo_ready /\
    buddy st' = buddy demo_ready /\
    g_tmp_mpool st' = g_tmp_mpool demo_ready.
Proof.
  apply (@unprepared_schemes_succeed demo_ext demo_tls rsa_crt 0 demo_ready).
  left. reflexivity.
Defined.

(** C8 as stated fails: with no profile in the table and none in the
    peer configuration, [ttls_mpi_profile_alloc] returns 0; and
    [ttls_mpi_profile_set] for an RSA key returns 0 as well. *)
Lemma bind_without_profile_succeeds :
  mpi_profiles demo_ready = [0; 0; 0; 0; 0; 0; 0; 0] /\
  peer_conf_mpi_prof demo_tls = 0 /\
  fst <$> @ttls_mpi_profile_alloc demo_ext demo_tls demo_ready = Some 0 /\
  fst <$> @ttls_mpi_profile_set demo_ext rsa_crt 0 demo_ready = Some 0.
Proof. repeat split; vm_compute; reflexivity. Qed.

(** ** The flag over the life of the module *)

Lemma keeps_ret {A} (a : A) : keeps_registry (ret a).
Proof. intros st b st' E. injection E as _ <-. split; reflexivity. Qed.

Lemma keeps_bind {A B} (c : M A) (k : A -> M B) :
  keeps_registry c -> (forall a, keeps_registry (k a)) ->
  keeps_registry (bind c k).
Proof.
  intros Hc Hk st b st' E. unfold bind in E.
  destruct (c st) as [[a st1]|] eqn:Ec; [|discriminate].
  destruct (Hc _ _ _ Ec) as [H1 H2]. destruct (Hk a _ _ _ E) as [H3 H4].
  split; congruence.
Qed.

Lemma keeps_lift {A} (o : option A) : keeps_registry (lift o).
Proof.
  intros st b st' E. unfold lift in E. destruct o; [|discriminate].
  injection E as _ <-. split; reflexivity.
Qed.

Lemma keeps_bug_on (c : bool) : keeps_registry (bug_on c).
Proof. apply keeps_lift. Qed.

Lemma keeps_load (a : Z) : keeps_registry (load a).
Proof.
  intros st b st' E. unfold load, lift in E.
  destruct (rd64 _ _); [|discriminate]. injection E as _ <-. split; reflexivity.
Qed.

Lemma keeps_store (a v : Z) : keeps_registry (store a v).
Proof.
  intros st b st' E. unfold store in E.
  destruct (wr64 _ _ _); [|discriminate]. injection E as _ <-. split; reflexivity.
Qed.

Lemma keeps_bzero (p n : Z) : keeps_registry (bzero p n).
Proof.
  intros st b st' E. unfold bzero in E.
  destruct (_ && _); [discriminate|]. injection E as _ <-. split; reflexivity.
Qed.

Lemma keeps_get_free_pages (z : bool) (order : Z) :
  keeps_registry (__get_free_pages z order).
Proof.
  intros st b st' E. unfold __get_free_pages in E.
  destruct (buddy st); injection E as _ <-; split; reflexivity.
Qed.

Lemma keeps_free_pages (addr order : Z) : keeps_registry (free_pages addr order).
Proof.
  intros st b st' E. unfold free_pages in E.
  destruct (addr =? 0); injection E as _ <-; split; reflexivity.
Qed.

Lemma keeps_get_profile (i : nat) : keeps_registry (get_profile i).
Proof. intros st b st' E. injection E as _ <-. split; reflexivity. Qed.

Lemma keeps_get_tmp_mpool (cpu : nat) : keeps_registry (get_tmp_mpool cpu).
Proof. intros st b st' E. injection E as _ <-. split; reflexivity. Qed.

Lemma keeps_put_tmp_mpool (cpu : nat) (mp : Z) : keeps_registry (put_tmp_mpool cpu mp).
Proof. intros st b st' E. injection E as _ <-. split; reflexivity. Qed.

Lemma keeps_possible_cpus : keeps_registry possible_cpus.
Proof. intros st b st' E. injection E as _ <-. split; reflexivity. Qed.

Lemma keeps_on_memory {A} (f : mem -> A * mem) : keeps_registry (on_memory f).
Proof.
  intros st b st' E. unfold on_memory in E. destruct (f (memory st)).
  injection E as _ <-. split; reflexivity.
Qed.

Lemma keeps_for_each (l : list nat) (body : nat -> M unit) :
  (forall i, keeps_registry (body i)) -> keeps_registry (for_each l body).
Proof.
  intros Hb. induction l as [|i l IH]; simpl.
  - apply keeps_ret.
  - apply keeps_bind; [apply Hb|intros _; exact IH].
Qed.

Create HintDb registry.
#[local] Hint Resolve keeps_ret keeps_lift keeps_bug_on keeps_load keeps_store
  keeps_bzero keeps_get_free_pages keeps_free_pages keeps_get_profile
  keeps_get_tmp_mpool keeps_put_tmp_mpool keeps_possible_cpus keeps_on_memory
  : registry.

Ltac keeps_step :=
  first
    [ apply keeps_bind; [|intros ?]
    | apply keeps_for_each; intros ?
    | match goal with
      | |- keeps_registry (if ?b then _ else _) => destruct b
      | |- keeps_registry (match ?x with _ => _ end) => destruct x
      end
    | solve [auto with registry] ].

Ltac keeps := repeat keeps_step.

Section Lifetime.
Context `{Externals}.

Lemma keeps_pool_init (mp : Z) : keeps_registry (ttls_mpi_pool_init mp).
Proof. unfold ttls_mpi_pool_init. keeps. Qed.

Lemma keeps_alloc_mpi (x n : Z) : keeps_registry (ttls_mpi_profile_alloc_mpi x n).
Proof. unfold ttls_mpi_profile_alloc_mpi, MPI_POOL_FREE_PTR. keeps. Qed.

Lemma keeps_load_mem_alloc (mp : Z) : keeps_registry (load_mem_alloc mp).
Proof.
  intros st b st' E. unfold load_mem_alloc in E.
  destruct (mapped mp); [|discriminate]. injection E as _ <-. split; reflexivity.
Qed.

Lemma keeps_cleanup_ctx (cpu : nat) : keeps_registry (ttls_mpi_cleanup_ctx cpu).
Proof.
  unfold ttls_mpi_cleanup_ctx.
  apply keeps_bind; [auto with registry|intros mp].
  apply keeps_bind; [apply keeps_load_mem_alloc|intros ma]. keeps.
Qed.

Lemma keeps_free_mpool (ctx : Z) : keeps_registry (ttls_mpi_free_mpool ctx).
Proof. unfold ttls_mpi_free_mpool. keeps. Qed.

Lemma keeps_pool_alloc (n : Z) (z : bool) : keeps_registry (ttls_mpi_pool_alloc n z).
Proof.
  unfold ttls_mpi_pool_alloc.
  apply keeps_bind; [auto with registry|intros _].
  apply keeps_bind; [auto with registry|intros mp].
  destruct (mp =? 0); [auto with registry|].
  apply keeps_bind; [apply keeps_pool_init|intros _]. keeps.
Qed.

Lemma keeps_profile_alloc (tls : TlsCtx) : keeps_registry (ttls_mpi_profile_alloc tls).
Proof. unfold ttls_mpi_profile_alloc. keeps. Qed.

Lemma keeps_mpool_exit : keeps_registry ttls_mpool_exit.
Proof. unfold ttls_mpool_exit. keeps. Qed.

Lemma keeps_mpool_init_loop (cpus : list nat) : keeps_registry (mpool_init_loop cpus).
Proof.
  induction cpus as [|cpu cpus IH]; simpl; [auto with registry|].
  apply keeps_bind; [auto with registry|intros mp].
  apply keeps_bind; [auto with registry|intros _].
  destruct (mp =? 0); [auto with registry|exact IH].
Qed.

Lemma keeps_mpool_init : keeps_registry ttls_mpool_init.
Proof.
  unfold ttls_mpool_init.
  apply keeps_bind; [auto with registry|intros cpus].
  apply keeps_bind; [apply keeps_mpool_init_loop|intros failed].
  destruct failed; [|auto with registry].
  apply keeps_bind; [apply keeps_mpool_exit|intros _]. auto with registry.
Qed.

Lemma registry_inv_kept (st st' : state) :
  mpi_profiles st' = mpi_profiles st ->
  has_empty_profile st' = has_empty_profile st ->
  registry_inv st ->
  registry_inv st' /\
  (has_empty_profile st = false -> has_empty_profile st' = false).
Proof.
  intros Hp Hf [Hlen Hfull]. split; [split|].
  - rewrite Hp. exact Hlen.
  - rewrite Hf. intros Hcl i Hi. unfold profile_slot. rewrite Hp.
    apply (Hfull Hcl i Hi).
  - rewrite Hf. auto.
Qed.

(** Every entry point but [ttls_mpi_profile_set] leaves the table and the
    flag alone. *)
Lemma step_cases (o : op) (st st' : state) :
  step o st = Some (tt, st') ->
  (mpi_profiles st' = mpi_profiles st /\
   has_empty_profile st' = has_empty_profile st) \/
  (exists crt u r, o = Op_profile_set crt u /\
                   ttls_mpi_profile_set crt u st = Some (r, st')).
Proof.
  intros Hstep.
  assert (Hkeeps : forall c : M unit,
            keeps_registry c -> c st = Some (tt, st') ->
            mpi_profiles st' = mpi_profiles st /\
            has_empty_profile st' = has_empty_profile st).
  { intros c Hc Hrun. exact (Hc _ _ _ Hrun). }
  destruct o as [mp|x n|cpu|ctx|n z|crt u|tls| |]; cbn [step] in Hstep.
  - left. apply (Hkeeps _ (keeps_pool_init mp) Hstep).
  - left. refine (Hkeeps _ _ Hstep).
    apply keeps_bind; [apply keeps_alloc_mpi|auto with registry].
  - left. apply (Hkeeps _ (keeps_cleanup_ctx cpu) Hstep).
  - left. apply (Hkeeps _ (keeps_free_mpool ctx) Hstep).
  - left. refine (Hkeeps _ _ Hstep).
    apply keeps_bind; [apply keeps_pool_alloc|auto with registry].
  - right. exists crt, u. unfold bind, ret in Hstep.
    destruct (ttls_mpi_profile_set crt u st) as [[r s1]|]; [|discriminate].
    injection Hstep as <-. exists r. split; reflexivity.
  - left. refine (Hkeeps _ _ Hstep).
    apply keeps_bind; [apply keeps_profile_alloc|auto with registry].
  - left. apply (Hkeeps _ keeps_mpool_exit Hstep).
  - left. refine (Hkeeps _ _ Hstep).
    apply keeps_bind; [apply keeps_mpool_init|auto with registry].
Qed.

(** Every entry point keeps the invariant and never sets the flag again. *)
Lemma step_registry_inv (o : op) (st st' : state) :
  registry_inv st -> step o st = Some (tt, st') ->
  registry_inv st' /\
  (has_empty_profile st = false -> has_empty_profile st' = false).
Proof.
  intros Hinv Hstep.
  destruct (step_cases o st st' Hstep) as [[Hp Hf]|(crt & u & r & _ & Hrun)].
  - apply registry_inv_kept; assumption.
  - destruct Hinv as [Hlen Hfull].
    destruct (has_empty_profile st) eqn:Hflag.
    + destruct (profile_set_flag_set crt u st Hlen Hflag)
        as (r2 & st2 & Hrun2 & Hlen2 & _ & _ & _ & Hcases).
      rewrite Hrun in Hrun2. injection Hrun2 as <- <-.
      split; [split; [exact Hlen2|]|discriminate].
      destruct Hcases as [(_ & _ & Hf)|(_ & Hfilled & _)].
      * rewrite Hf. discriminate.
      * exact Hfilled.
    + rewrite (profile_set_flag_clear crt u st Hflag) in Hrun.
      injection Hrun as _ <-.
      split; [split; [exact Hlen|intros _; apply Hfull; reflexivity]|].
      intros _. exact Hflag.
Qed.

Lemma run_registry_inv (ops : list op) (st st' : state) :
  registry_inv st -> run ops st = Some (tt, st') ->
  registry_inv st' /\
  (has_empty_profile st = false -> has_empty_profile st' = false).
Proof.
  revert st. induction ops as [|o ops IH]; intros st Hinv Hrun.
  - injection Hrun as <-. split; [exact Hinv|auto].
  - cbn [run] in Hrun. unfold bind in Hrun.
    destruct (step o st) as [[[] st1]|] eqn:Hstep; [|discriminate].
    destruct (step_registry_inv o st st1 Hinv Hstep) as [Hinv1 Hmono1].
    destruct (IH st1 Hinv1 Hrun) as [Hinv' Hmono'].
    split; [exact Hinv'|]. auto.
Qed.

(** The part of the flag's contract that holds.  Take the module in a
    state where the table has its slots and the flag, if cleared, is
    cleared over a table without a NULL slot (at load time the flag is
    set).  Along any sequence of calls of the entry points, at an earlier
    point [st1] and a later point [st2]: if the flag is cleared at [st1]
    it is cleared at [st2]; and if it is cleared at [st2], no slot is
    NULL at [st2].  A slot that is not NULL need not hold a profile: see
    [flag_cleared_without_profile]. *)
Theorem flag_cleared_only_when_full (ops1 ops2 : list op) (st st1 st2 : state) :
  registry_inv st ->
  run ops1 st = Some (tt, st1) ->
  run ops2 st1 = Some (tt, st2) ->
  (has_empty_profile st1 = false -> has_empty_profile st2 = false) /\
  (has_empty_profile st2 = false -> all_profiles_filled st2).
Proof.
  intros Hinv Hrun1 Hrun2.
  destruct (run_registry_inv ops1 st st1 Hinv Hrun1) as [Hinv1 _].
  destruct (run_registry_inv ops2 st1 st2 Hinv1 Hrun2) as [[_ Hfull] Hmono].
  split; assumption.
Qed.

End Lifetime.

Lemma boot_registry_inv (m : mem) (pages : list Z) (ncpu : nat) :
  registry_inv (boot_state m pages ncpu).
Proof. split; [reflexivity|discriminate]. Qed.

(** From the state at load time the flag is in fact never cleared: no
    entry point ever writes a slot other than the ECDH one. *)
Lemma flag_stays_set_from_boot `{Externals}
    (ops : list op) (m : mem) (pages : list Z) (ncpu : nat) (st' : state) :
  run ops (boot_state m pages ncpu) = Some (tt, st') ->
  has_empty_profile st' = true.
Proof.
  set (J := fun s : state =>
              length (mpi_profiles s) = __TTLS_MPI_PROFILES_N /\
              has_empty_profile s = true /\
              profile_slot s TTLS_MPI_PROFILE_DHM = 0).
  assert (Hstep : forall o s s', J s -> step o s = Some (tt, s') -> J s').
  { intros o s s' (Hlen & Hflag & Hdhm) Hrun.
    destruct (step_cases o s s' Hrun) as [[Hp Hf]|(crt & u & r & _ & Hset)].
    - unfold J, profile_slot. rewrite Hp, Hf. repeat split; assumption.
    - destruct (profile_set_flag_set crt u s Hlen Hflag)
        as (r2 & s2 & Hrun2 & Hlen2 & _ & Hothers & _ & Hcases).
      rewrite Hset in Hrun2. injection Hrun2 as <- <-.
      assert (Hdhm' : profile_slot s' TTLS_MPI_PROFILE_DHM = 0).
      { rewrite Hothers; [exact Hdhm|discriminate]. }
      split; [exact Hlen2|]. split; [|exact Hdhm'].
      destruct Hcases as [(_ & _ & Hf)|(_ & Hfilled & _)]; [exact Hf|].
      destruct (has_empty_profile s') eqn:Hf'; [reflexivity|].
      exfalso. apply (Hfilled eq_refl TTLS_MPI_PROFILE_DHM).
      + unfold TTLS_MPI_PROFILE_DHM, __TTLS_MPI_PROFILES_N. lia.
      + exact Hdhm'. }
  assert (Hrun : forall s, J s -> run ops s = Some (tt, st') -> J st').
  { induction ops as [|o ops IH]; intros s HJ Hr.
    - injection Hr as <-. exact HJ.
    - cbn [run] in Hr. unfold bind in Hr.
      destruct (step o s) as [[[] s1]|] eqn:Es; [|discriminate].
      apply (IH s1); [apply (Hstep o s s1 HJ Es)|exact Hr]. }
  intros Hboot.
  assert (HJ0 : J (boot_state m pages ncpu)) by (repeat split).
  destruct (Hrun _ HJ0 Hboot) as (_ & Hf & _). exact Hf.
Qed.

Lemma runs_state_after (c : M unit) (st : state) :
  runs c st = true -> c st = Some (tt, state_after c st).
Proof.
  unfold runs, state_after. destruct (c st) as [[[] st']|]; [reflexivity|discriminate].
Qed.

Lemma flag_cleared_only_when_full_witness :
  let ops1 := [Op_profile_set eckey_crt 0] in
  let ops2 := [Op_alloc_mpi demo_x 8; Op_profile_set rsa_crt 0; Op_mpool_exit] in
  let st1 := state_after (@run demo_ext ops1) demo_nearly_full in
  let st2 := state_after (@run demo_ext ops2) st1 in
  has_empty_profile demo_nearly_full = true /\
  has_empty_profile st1 = false /\
  (has_empty_profile st1 = false -> has_empty_profile st2 = false) /\
  (has_empty_profile st2 = false -> all_profiles_filled st2).
Proof.
  intros ops1 ops2 st1 st2.
  split; [reflexivity|]. split; [vm_compute; reflexivity|].
  apply (@flag_cleared_only_when_full demo_ext ops1 ops2 demo_nearly_full st1 st2).
  - split; [reflexivity|]. intros Hcl. vm_compute in Hcl. discriminate.
  - apply runs_state_after. vm_compute. reflexivity.
  - apply runs_state_after. vm_compute. reflexivity.
Defined.


Lemma result_state_after {A} (c : M A) (st : state) (a : A) :
  fst <$> c st = Some a -> c st = Some (a, state_after c st).
Proof.
  unfold state_after. destruct (c st) as [[b st']|]; [|discriminate].
  intros E. injection E as <-. reflexivity.
Qed.

(** * Further properties of mpool.c

    ** What one allocation can do *)

(** X1.  A call of [ttls_mpi_profile_alloc_mpi] that returns has done one
    of two things.  Either its test refused the request: it returned
    [-ENOMEM] and left the whole state as it was.  Or it granted the
    request: the MPI was below the free pointer, the call returned the
    distance from the MPI to the free pointer cut to an [int], added [n]
    to both counters of the pool (modulo 2^64) and wrote nothing else:
    every byte outside the 16 bytes of the header is as before (the
    bytes handed out are not cleared), and so are the pages in use, the
    page allocator, the profile table and the per-CPU pointers.  The
    result of a granted request leads back to the bytes, [x + r] being the
    free pointer, when the distance is below 2^31. *)
Theorem alloc_mpi_outcomes `{Externals} (x n r : Z) (st st' : state) :
  ttls_mpi_profile_alloc_mpi x n st = Some (r, st') ->
  let mp := __mpi_profile x in
  let ptr := u64 (mp + sizeof_TlsMpiPool + pool_curr st mp) in
  (PAGE_SIZE < u64 (sizeof_TlsMpiPool + pool_size st mp + n) /\
   r = - ENOMEM /\ st' = st) \/
  (u64 (sizeof_TlsMpiPool + pool_size st mp + n) <= PAGE_SIZE /\
   x < ptr /\
   r = s32 (u64 (ptr - x)) /\
   (ptr - x < 2 ^ 31 -> x + r = ptr) /\
   pool_curr st' mp = u64 (pool_curr st mp + n) /\
   pool_size st' mp = u64 (pool_size st mp + n) /\
   (forall a, a < mp \/ mp + sizeof_TlsMpiPool <= a -> memory st' a = memory st a) /\
   live_pages st' = live_pages st /\
   buddy st' = buddy st /\
   mpi_profiles st' = mpi_profiles st /\
   g_tmp_mpool st' = g_tmp_mpool st /\
   has_empty_profile st' = has_empty_profile st).
Proof.
  intros Hrun mp. fold mp in Hrun. cbv zeta.
  unfold ttls_mpi_profile_alloc_mpi, MPI_POOL_FREE_PTR in Hrun. fold mp in Hrun.
  unfold bind, load, store, bug_on, lift, rd64, wr64, BUG_ON, ret, size_of, curr_of in Hrun.
  destruct (mapped (mp + 8)) eqn:Hm2; [|discriminate].
  cbn [memory set_memory] in Hrun.
  unfold pool_curr, pool_size, curr_of, size_of.
  destruct (PAGE_SIZE <? _) eqn:Echk.
  { injection Hrun as <- <-. left. apply Z.ltb_lt in Echk.
    split; [exact Echk|]. split; reflexivity. }
  apply Z.ltb_ge in Echk.
  destruct (mapped mp) eqn:Hm1; [|discriminate].
  cbn [memory set_memory] in Hrun.
  destruct (_ <=? x) eqn:Ebug; [discriminate|].
  cbn [memory set_memory] in Hrun. rewrite ?Hm1, ?Hm2 in Hrun.
  cbn [memory set_memory] in Hrun.
  injection Hrun as <- <-. right.
  apply Z.leb_gt in Ebug.
  unfold sizeof_TlsMpiPool in *.
  cbn [memory set_memory live_pages buddy mpi_profiles g_tmp_mpool has_empty_profile].
  split; [exact Echk|]. split; [exact Ebug|]. split; [reflexivity|].
  split.
  { intros Hint. rewrite s32_small by lia. lia. }
  split; [rewrite load64_store64_other by lia; apply load64_store64_same|].
  split.
  { rewrite load64_store64_same, load64_store64_other by lia. reflexivity. }
  split; [|repeat split].
  intros a Ha. rewrite !store64_outside by lia. reflexivity.
Qed.

Lemma alloc_mpi_outcomes_witness :
  let st := demo_ready in
  let st' := state_after (@ttls_mpi_profile_alloc_mpi demo_ext demo_x 100) st in
  let r := pool_base demo_page - demo_x in
  let mp := @__mpi_profile demo_ext demo_x in
  let ptr := u64 (mp + sizeof_TlsMpiPool + pool_curr st mp) in
  (PAGE_SIZE < u64 (sizeof_TlsMpiPool + pool_size st mp + 100) /\
   r = - ENOMEM /\ st' = st) \/
  (u64 (sizeof_TlsMpiPool + pool_size st mp + 100) <= PAGE_SIZE /\
   demo_x < ptr /\
   r = s32 (u64 (ptr - demo_x)) /\
   (ptr - demo_x < 2 ^ 31 -> demo_x + r = ptr) /\
   pool_curr st' mp = u64 (pool_curr st mp + 100) /\
   pool_size st' mp = u64 (pool_size st mp + 100) /\
   (forall a, a < mp \/ mp + sizeof_TlsMpiPool <= a -> memory st' a = memory st a) /\
   live_pages st' = live_pages st /\
   buddy st' = buddy st /\
   mpi_profiles st' = mpi_profiles st /\
   g_tmp_mpool st' = g_tmp_mpool st /\
   has_empty_profile st' = has_empty_profile st).
Proof.
  intros st st' r.
  apply (@alloc_mpi_outcomes demo_ext demo_x 100 r st st').
  unfold st', state_after.
  destruct (@ttls_mpi_profile_alloc_mpi demo_ext demo_x 100 st) as [[r1 s1]|] eqn:E.
  - assert (Hr : fst <$> @ttls_mpi_profile_alloc_mpi demo_ext demo_x 100 st = Some r1)
      by (rewrite E; reflexivity).
    vm_compute in Hr. injection Hr as <-. reflexivity.
  - assert (Hr : runs (@ttls_mpi_profile_alloc_mpi demo_ext demo_x 100) st = false)
      by (unfold runs; rewrite E; reflexivity).
    vm_compute in Hr. discriminate.
Defined.

(** ** Contexts in a page of their own *)

Lemma page_of_base (p d : Z) :
  p mod PAGE_SIZE = 0 -> 0 <= d < PAGE_SIZE -> page_of (p + d) = p.
Proof.
  rewrite PAGE_SIZE_eq. intros Hp Hd. unfold page_of. rewrite PAGE_SIZE_eq.
  rewrite Z.add_mod, Hp, Z.add_0_l, Z.mod_mod, Z.mod_small by lia. lia.
Qed.

Lemma pool_alloc_unfold (n : Z) (z : bool) (p : Z) (rest : list Z) (st : state) :
  n <= PAGE_SIZE -> buddy st = p :: rest -> PAGE_SIZE <= p ->
  ttls_mpi_pool_alloc n z st =
    Some (MPI_POOL_DATA p,
          {| memory :=
               store64
                 (store64
                    (store64 (bzero_fast (memory st) p (Z.shiftl PAGE_SIZE MCTX_ORDER))
                             (curr_of p) (MPI_POOL_DATA p))
                    (size_of p) 0)
                 (curr_of p) (u64 (MPI_POOL_DATA p) + n);
             live_pages := {[ p ]} ∪ live_pages st;
             buddy := rest;
             mpi_profiles := mpi_profiles st;
             g_tmp_mpool := g_tmp_mpool st;
             has_empty_profile := has_empty_profile st |}).
Proof.
  intros Hn Hb Hp.
  assert (Hm1 : mapped p = true) by (apply mapped_true; exact Hp).
  assert (Hnz : (p =? 0) = false) by (apply Z.eqb_neq; rewrite PAGE_SIZE_eq in Hp; lia).
  unfold ttls_mpi_pool_alloc. unfold bind at 1. unfold bug_on, lift, BUG_ON.
  replace (Z.shiftl PAGE_SIZE MCTX_ORDER <? n) with false
    by (symmetry; apply Z.ltb_ge; exact Hn).
  unfold bind at 1. unfold __get_free_pages. rewrite Hb, Hnz.
  rewrite orb_true_r. cbn [negb andb].
  unfold bind at 1. rewrite pool_init_spec by exact Hp.
  cbn [memory set_memory].
  unfold bind, load, store, lift, rd64, wr64, ret, curr_of. rewrite Hm1.
  cbn [memory set_memory].
  rewrite load64_store64_other by (unfold size_of; lia).
  rewrite load64_store64_same. reflexivity.
Qed.

(** X2.  [ttls_mpi_pool_alloc(n, gfp)] on a page [p] from the page
    allocator returns the address right after the header of [p].  The
    page is now in use; its bytes after the header all read zero; [size]
    is zero and [curr] holds the address of the data area plus [n] (an
    address, not an offset); nothing outside the page is written. *)
Theorem pool_alloc_success (n : Z) (z : bool) (p : Z) (rest : list Z) (st : state) :
  0 <= n <= PAGE_SIZE ->
  buddy st = p :: rest ->
  PAGE_SIZE <= p -> p + PAGE_SIZE < 2 ^ 64 ->
  exists st',
    ttls_mpi_pool_alloc n z st = Some (pool_base p, st') /\
    live_pages st' = {[ p ]} ∪ live_pages st /\
    buddy st' = rest /\
    pool_curr st' p = u64 (pool_base p + n) /\
    pool_size st' p = 0 /\
    (forall a, pool_base p <= a < p + PAGE_SIZE -> load8 (memory st') a = 0) /\
    (forall a, a < p \/ p + PAGE_SIZE <= a -> memory st' a = memory st a) /\
    mpi_profiles st' = mpi_profiles st /\
    g_tmp_mpool st' = g_tmp_mpool st.
Proof.
  intros Hn Hb Hlo Hhi.
  assert (Hd : MPI_POOL_DATA p = pool_base p).
  { unfold MPI_POOL_DATA, pool_base, sizeof_TlsMpiPool. apply u64_small.
    rewrite PAGE_SIZE_eq in *. lia. }
  rewrite (pool_alloc_unfold n z p rest st) by (try lia; assumption).
  rewrite Hd. eexists. split; [reflexivity|].
  unfold pool_curr, pool_size, curr_of, size_of, pool_base, sizeof_TlsMpiPool in *.
  cbn [memory live_pages buddy mpi_profiles g_tmp_mpool].
  change (Z.shiftl PAGE_SIZE MCTX_ORDER) with PAGE_SIZE.
  rewrite PAGE_SIZE_eq in *.
  split; [reflexivity|]. split; [reflexivity|].
  split.
  { rewrite load64_store64_same. unfold u64. rewrite Zplus_mod_idemp_l. reflexivity. }
  split.
  { rewrite load64_store64_other by lia. rewrite load64_store64_same. reflexivity. }
  split; [|split; [|split; reflexivity]].
  - intros a Ha. unfold load8. rewrite !store64_outside by lia.
    rewrite bzero_fast_inside by lia. reflexivity.
  - intros a Ha. rewrite !store64_outside by lia.
    apply bzero_fast_outside. lia.
Qed.

Lemma pool_alloc_success_witness :
  exists st',
    ttls_mpi_pool_alloc 32 false demo_boot = Some (pool_base demo_page, st') /\
    live_pages st' = {[ demo_page ]} ∪ live_pages demo_boot /\
    buddy st' = [demo_page2] /\
    pool_curr st' demo_page = u64 (pool_base demo_page + 32) /\
    pool_size st' demo_page = 0 /\
    (forall a, pool_base demo_page <= a < demo_page + PAGE_SIZE ->
       load8 (memory st') a = 0) /\
    (forall a, a < demo_page \/ demo_page + PAGE_SIZE <= a ->
       memory st' a = memory demo_boot a) /\
    mpi_profiles st' = mpi_profiles demo_boot /\
    g_tmp_mpool st' = g_tmp_mpool demo_boot.
Proof.
  apply (pool_alloc_success 32 false demo_page [demo_page2] demo_boot).
  - vm_compute. split; discriminate.
  - reflexivity.
  - vm_compute. discriminate.
  - vm_compute. reflexivity.
Defined.

(** X3.  When the page allocator has no page to give,
    [ttls_mpi_pool_alloc] returns NULL and the store, the pages in use,
    the profile table and the per-CPU pointers are as they were. *)
Theorem pool_alloc_no_page (n : Z) (z : bool) (st : state) :
  n <= PAGE_SIZE ->
  (buddy st = [] \/ exists rest, buddy st = 0 :: rest) ->
  exists st',
    ttls_mpi_pool_alloc n z st = Some (0, st') /\
    memory st' = memory st /\
    live_pages st' = live_pages st /\
    mpi_profiles st' = mpi_profiles st /\
    g_tmp_mpool st' = g_tmp_mpool st.
Proof.
  intros Hn Hb.
  unfold ttls_mpi_pool_alloc. unfold bind at 1. unfold bug_on, lift, BUG_ON.
  replace (Z.shiftl PAGE_SIZE MCTX_ORDER <? n) with false
    by (symmetry; apply Z.ltb_ge; exact Hn).
  unfold bind, __get_free_pages, ret.
  destruct Hb as [Hb|[rest Hb]]; rewrite Hb; cbn.
  - exists st. repeat split.
  - eexists. split; [reflexivity|]. repeat split.
Qed.

Lemma pool_alloc_no_page_witness :
  exists st',
    ttls_mpi_pool_alloc 32 false (boot_state demo_mem [] 1) = Some (0, st') /\
    memory st' = memory (boot_state demo_mem [] 1) /\
    live_pages st' = live_pages (boot_state demo_mem [] 1) /\
    mpi_profiles st' = mpi_profiles (boot_state demo_mem [] 1) /\
    g_tmp_mpool st' = g_tmp_mpool (boot_state demo_mem [] 1).
Proof.
  apply (pool_alloc_no_page 32 false (boot_state demo_mem [] 1)).
  - vm_compute. discriminate.
  - left. reflexivity.
Defined.

Lemma free_mpool_unfold (ctx : Z) (st : state) :
  PAGE_SIZE <= ctx < 2 ^ 64 ->
  ttls_mpi_free_mpool ctx st =
    Some (tt, {| memory := bzero_fast (memory st) (page_of ctx)
                             (Z.shiftl PAGE_SIZE MCTX_ORDER);
                 live_pages := live_pages st ∖ {[ page_of ctx ]};
                 buddy := buddy st;
                 mpi_profiles := mpi_profiles st;
                 g_tmp_mpool := g_tmp_mpool st;
                 has_empty_profile := has_empty_profile st |}).
Proof.
  intros Hctx. rewrite PAGE_SIZE_eq in Hctx.
  unfold ttls_mpi_free_mpool. rewrite land_PAGE_MASK by lia.
  assert (Hp : 4096 <= page_of ctx).
  { unfold page_of. rewrite PAGE_SIZE_eq.
    pose proof (Z.div_mod ctx 4096). pose proof (Z.mod_pos_bound ctx 4096).
    assert (1 <= ctx / 4096) by (apply Z.div_le_lower_bound; lia). lia. }
  unfold bind, bzero, free_pages.
  replace (mapped (page_of ctx)) with true
    by (symmetry; apply mapped_true; rewrite PAGE_SIZE_eq; exact Hp).
  rewrite andb_false_r.
  replace (page_of ctx =? 0) with false by (symmetry; apply Z.eqb_neq; lia).
  reflexivity.
Qed.

(** X4.  [ttls_mpi_free_mpool(ctx)], for a context anywhere in a page:
    every byte of that page reads zero afterwards, the page and no other
    leaves the pages in use, no byte outside the page is written, and
    the profile table and the per-CPU pointers are not touched (a pointer
    to the page that is registered there stays). *)
Theorem free_mpool_releases_page (ctx : Z) (st : state) :
  PAGE_SIZE <= ctx < 2 ^ 64 ->
  exists st',
    ttls_mpi_free_mpool ctx st = Some (tt, st') /\
    page_zeroed st' (page_of ctx) /\
    live_pages st' = live_pages st ∖ {[ page_of ctx ]} /\
    (forall a, a < page_of ctx \/ page_of ctx + PAGE_SIZE <= a ->
       memory st' a = memory st a) /\
    mpi_profiles st' = mpi_profiles st /\
    g_tmp_mpool st' = g_tmp_mpool st.
Proof.
  intros Hctx. rewrite free_mpool_unfold by exact Hctx.
  eexists. split; [reflexivity|]. unfold page_zeroed.
  cbn [memory live_pages mpi_profiles g_tmp_mpool].
  split; [|split; [reflexivity|split; [|split; reflexivity]]].
  - intros a Ha. unfold load8. rewrite bzero_fast_inside by exact Ha. reflexivity.
  - intros a Ha. apply bzero_fast_outside. exact Ha.
Qed.

Lemma free_mpool_releases_page_witness :
  exists st',
    ttls_mpi_free_mpool (demo_page + 48) demo_ready = Some (tt, st') /\
    page_zeroed st' (page_of (demo_page + 48)) /\
    live_pages st' = live_pages demo_ready ∖ {[ page_of (demo_page + 48) ]} /\
    (forall a, a < page_of (demo_page + 48) \/
               page_of (demo_page + 48) + PAGE_SIZE <= a ->
       memory st' a = memory demo_ready a) /\
    mpi_profiles st' = mpi_profiles demo_ready /\
    g_tmp_mpool st' = g_tmp_mpool demo_ready.
Proof.
  apply (free_mpool_releases_page (demo_page + 48) demo_ready).
  vm_compute. split; [discriminate|reflexivity].
Defined.

(** X5.  Round trip.  A context obtained from [ttls_mpi_pool_alloc] on a
    page-aligned page that was not in use, and given to
    [ttls_mpi_free_mpool], leaves the pages in use exactly as they were
    before the allocation, the page wholly zeroed (header included), and
    every byte outside the page untouched. *)
Theorem pool_alloc_free_round_trip
    (n : Z) (z : bool) (p : Z) (rest : list Z) (st : state) :
  0 <= n <= PAGE_SIZE ->
  buddy st = p :: rest ->
  PAGE_SIZE <= p -> p + PAGE_SIZE < 2 ^ 64 ->
  p mod PAGE_SIZE = 0 ->
  p ∉ live_pages st ->
  exists st',
    (ctx <- ttls_mpi_pool_alloc n z ;; ttls_mpi_free_mpool ctx) st = Some (tt, st') /\
    live_pages st' = live_pages st /\
    page_zeroed st' p /\
    (forall a, a < p \/ p + PAGE_SIZE <= a -> memory st' a = memory st a).
Proof.
  intros Hn Hb Hlo Hhi Hal Hfresh.
  assert (Hd : MPI_POOL_DATA p = pool_base p).
  { unfold MPI_POOL_DATA, pool_base, sizeof_TlsMpiPool. apply u64_small.
    rewrite PAGE_SIZE_eq in *. lia. }
  assert (Hpage : page_of (pool_base p) = p).
  { apply page_of_base; [exact Hal|]. unfold sizeof_TlsMpiPool. rewrite PAGE_SIZE_eq. lia. }
  unfold bind. rewrite (pool_alloc_unfold n z p rest st) by (try lia; assumption).
  rewrite Hd.
  rewrite free_mpool_unfold
    by (unfold pool_base, sizeof_TlsMpiPool; rewrite PAGE_SIZE_eq in *; lia).
  rewrite Hpage. eexists. split; [reflexivity|].
  unfold page_zeroed. cbn [memory live_pages].
  change (Z.shiftl PAGE_SIZE MCTX_ORDER) with PAGE_SIZE.
  split; [|split].
  - apply set_eq. intros q. rewrite elem_of_difference, elem_of_union, elem_of_singleton.
    split; [intros [[->|Hq] Hne]; [contradiction|exact Hq]|].
    intros Hq. split; [right; exact Hq|]. intros ->. contradiction.
  - intros a Ha. unfold load8. rewrite bzero_fast_inside by exact Ha. reflexivity.
  - intros a Ha. rewrite bzero_fast_outside by exact Ha.
    unfold curr_of, size_of. rewrite PAGE_SIZE_eq in *.
    rewrite !store64_outside by lia. apply bzero_fast_outside. lia.
Qed.

Lemma pool_alloc_free_round_trip_witness :
  exists st',
    (ctx <- ttls_mpi_pool_alloc 32 false ;; ttls_mpi_free_mpool ctx) demo_boot
      = Some (tt, st') /\
    live_pages st' = live_pages demo_boot /\
    page_zeroed st' demo_page /\
    (forall a, a < demo_page \/ demo_page + PAGE_SIZE <= a ->
       memory st' a = memory demo_boot a).
Proof.
  apply (pool_alloc_free_round_trip 32 false demo_page [demo_page2] demo_boot).
  - vm_compute. split; discriminate.
  - reflexivity.
  - vm_compute. discriminate.
  - vm_compute. reflexivity.
  - vm_compute. reflexivity.
  - apply not_elem_of_empty.
Defined.

(** The header that [ttls_mpi_pool_alloc] leaves in the page it took. *)
Lemma pool_alloc_header (n : Z) (z : bool) (p : Z) (rest : list Z) (st : state) :
  0 <= n <= PAGE_SIZE ->
  buddy st = p :: rest ->
  PAGE_SIZE <= p -> p + PAGE_SIZE < 2 ^ 64 ->
  exists st',
    ttls_mpi_pool_alloc n z st = Some (pool_base p, st') /\
    pool_curr st' p = u64 (pool_base p + n) /\
    pool_size st' p = 0.
Proof.
  intros Hn Hb Hlo Hhi.
  assert (Hd : MPI_POOL_DATA p = pool_base p).
  { unfold MPI_POOL_DATA, pool_base, sizeof_TlsMpiPool. apply u64_small.
    rewrite PAGE_SIZE_eq in *. lia. }
  rewrite (pool_alloc_unfold n z p rest st) by (try lia; assumption).
  rewrite Hd. eexists. split; [reflexivity|].
  unfold pool_curr, pool_size, curr_of, size_of. cbn [memory].
  split.
  - rewrite load64_store64_same. unfold u64. rewrite Zplus_mod_idemp_l. reflexivity.
  - rewrite load64_store64_other by lia. rewrite load64_store64_same. reflexivity.
Qed.

Lemma u64_wrap_once (z : Z) : 2 ^ 64 <= z < 2 ^ 65 -> u64 z = z - 2 ^ 64.
Proof.
  intros Hz. unfold u64. symmetry. apply (Z.mod_unique z (2 ^ 64) 1); lia.
Qed.

(** X6.  A page [p] set up by [ttls_mpi_pool_alloc(n)] cannot serve an
    MPI: the header's [curr] holds an address, which the allocator adds
    to the address of the data area, so the free pointer it computes,
    [2 * (p + 16) + n] modulo 2^64, lies outside the page (below it when
    the sum wraps, as for a kernel address, beyond it otherwise).  A
    request for an MPI at or above that pointer stops at the [BUG_ON]; a
    request for an MPI below it is granted bytes that start at that
    pointer, outside the page. *)
Theorem alloc_after_pool_alloc_leaves_page `{Externals}
    (n k x : Z) (z : bool) (p : Z) (rest : list Z) (st : state) :
  0 <= n <= PAGE_SIZE ->
  buddy st = p :: rest ->
  PAGE_SIZE <= p -> p + 2 * PAGE_SIZE <= 2 ^ 64 ->
  __mpi_profile x = p ->
  0 <= k <= pool_capacity ->
  let ptr := u64 (2 * pool_base p + n) in
  (ptr < p \/ p + PAGE_SIZE <= ptr) /\
  (ptr <= x ->
   (ttls_mpi_pool_alloc n z ;;; ttls_mpi_profile_alloc_mpi x k) st = None) /\
  (x < ptr ->
   exists st',
     (ttls_mpi_pool_alloc n z ;;; ttls_mpi_profile_alloc_mpi x k) st
       = Some (s32 (u64 (ptr - x)), st') /\
     pool_size st' p = k).
Proof.
  intros Hn Hb Hlo Hhi Hres Hk ptr.
  rewrite pool_capacity_eq in Hk. unfold pool_base, sizeof_TlsMpiPool in *.
  rewrite PAGE_SIZE_eq in *.
  assert (Hout : ptr < p \/ p + 4096 <= ptr).
  { unfold ptr. destruct (Z_lt_le_dec (2 * (p + 16) + n) (2 ^ 64)) as [Hs|Hs].
    - rewrite u64_small by lia. right. lia.
    - rewrite u64_wrap_once by lia. left. lia. }
  split; [exact Hout|].
  destruct (pool_alloc_header n z p rest st) as (s1 & Hrun & Hc & Hs);
    try rewrite PAGE_SIZE_eq; try assumption; try lia.
  unfold pool_base, sizeof_TlsMpiPool in *.
  rewrite (u64_small (p + 16 + n)) in Hc by lia.
  unfold bind. rewrite Hrun.
  pose proof (alloc_mpi_unfold x k s1) as Hu. cbv zeta in Hu.
  rewrite Hres in Hu. rewrite Hu by (rewrite PAGE_SIZE_eq; exact Hlo). clear Hu.
  rewrite Hc, Hs. unfold sizeof_TlsMpiPool. rewrite PAGE_SIZE_eq.
  rewrite (u64_small (16 + 0 + k)) by lia.
  replace (p + 16 + (p + 16 + n)) with (2 * (p + 16) + n) by lia. fold ptr.
  destruct (4096 <? 16 + 0 + k) eqn:E1; [apply Z.ltb_lt in E1; lia|].
  split.
  - intros Hx. apply Z.leb_le in Hx. rewrite Hx. reflexivity.
  - intros Hx. destruct (ptr <=? x) eqn:E2; [apply Z.leb_le in E2; lia|].
    eexists. split; [reflexivity|].
    unfold pool_size, size_of. cbn [memory set_memory].
    rewrite load64_store64_same. apply u64_small. lia.
Qed.

Lemma alloc_after_pool_alloc_leaves_page_witness :
  let ptr := u64 (2 * pool_base demo_page + 32) in
  (ptr < demo_page \/ demo_page + PAGE_SIZE <= ptr) /\
  (ptr <= pool_base demo_page ->
   (ttls_mpi_pool_alloc 32 false ;;;
    @ttls_mpi_profile_alloc_mpi (demo_externals (fun _ => demo_page))
       (pool_base demo_page) 64) demo_boot = None) /\
  (pool_base demo_page < ptr ->
   exists st',
     (ttls_mpi_pool_alloc 32 false ;;;
      @ttls_mpi_profile_alloc_mpi (demo_externals (fun _ => demo_page))
         (pool_base demo_page) 64) demo_boot
       = Some (s32 (u64 (ptr - pool_base demo_page)), st') /\
     pool_size st' demo_page = 64).
Proof.
  apply (@alloc_after_pool_alloc_leaves_page (demo_externals (fun _ => demo_page))
           32 64 (pool_base demo_page) false demo_page [demo_page2] demo_boot).
  - vm_compute. split; discriminate.
  - reflexivity.
  - vm_compute. discriminate.
  - vm_compute. discriminate.
  - reflexivity.
  - vm_compute. split; discriminate.
Defined.

(** ** The per-CPU pool over its life *)

Section PoolLife.
Context `{Externals}.

Lemma cleanup_ctx_unfold (cpu : nat) (st : state) :
  let mp := tmp_mpool_slot st cpu in
  PAGE_SIZE <= mp -> mp + PAGE_SIZE < 2 ^ 64 ->
  MPI_POOL_DATA mp <= mem_alloc (memory st) mp ->
  pool_curr st mp <= pool_size st mp ->
  ttls_mpi_cleanup_ctx cpu st =
    Some (tt, set_memory
                (store64 (bzero_fast (memory st) (pool_base mp) (pool_curr st mp))
                         (curr_of mp) 0) st).
Proof.
  intros mp Hlo Hhi Hma Hcs.
  assert (Hm1 : mapped mp = true) by (apply mapped_true; exact Hlo).
  assert (Hm2 : mapped (mp + 8) = true) by (apply mapped_true; lia).
  assert (Hd : MPI_POOL_DATA mp = mp + 16).
  { unfold MPI_POOL_DATA, sizeof_TlsMpiPool. apply u64_small.
    rewrite PAGE_SIZE_eq in *. lia. }
  assert (Hm3 : mapped (mp + 16) = true) by (apply mapped_true; lia).
  unfold ttls_mpi_cleanup_ctx, get_tmp_mpool, load_mem_alloc.
  unfold bind at 1. fold (tmp_mpool_slot st cpu). fold mp.
  unfold bind at 1. rewrite Hm1.
  unfold bind, load, store, bzero, bug_on, lift, rd64, wr64, BUG_ON, size_of, curr_of.
  rewrite Hd in *.
  destruct (mem_alloc (memory st) mp <? mp + 16) eqn:E1;
    [apply Z.ltb_lt in E1; lia|].
  unfold pool_curr, pool_size, curr_of, size_of, pool_base, sizeof_TlsMpiPool in *.
  rewrite Hm1, Hm2. cbn [memory set_memory].
  destruct (load64 (memory st) (mp + 8) <? load64 (memory st) mp) eqn:E2;
    [apply Z.ltb_lt in E2; lia|].
  rewrite Hm3, andb_false_r. cbn [memory set_memory]. reflexivity.
Qed.

(** The invariant of the pool of CPU [cpu] between two uses: the offset
    is at most the bytes granted since the page was obtained, and those
    fit the page. *)
Lemma pool_run_budget (ops : list pool_op) (cpu : nat) (mp c s : Z) (st : state) :
  tmp_mpool_slot st cpu = mp ->
  PAGE_SIZE <= mp -> mp + PAGE_SIZE < 2 ^ 64 ->
  (forall m, MPI_POOL_DATA mp <= mem_alloc m mp) ->
  Forall (fun o => match o with
                   | Pool_alloc x n =>
                       __mpi_profile x = mp /\ x < pool_base mp /\ 0 <= n < 2 ^ 63
                   | Pool_cleanup => True
                   end) ops ->
  pool_curr st mp = c -> pool_size st mp = s ->
  0 <= c <= s -> s <= pool_capacity ->
  exists granted st',
    pool_run cpu ops st = Some (granted, st') /\
    Forall (fun n => 0 <= n) granted /\
    s + sum_sizes granted <= pool_size st' mp /\
    pool_size st' mp <= pool_capacity /\
    0 <= pool_curr st' mp <= pool_size st' mp /\
    (mpis_near mp ops -> pool_size st' mp = s + sum_sizes granted).
Proof.
  intros Hslot Hlo Hhi Hma Hops. revert c s st Hslot.
  rewrite pool_capacity_eq.
  induction Hops as [|o ops Ho _ IH]; intros c s st Hslot Hc Hs Hcs Hcap.
  - exists [], st. cbn [pool_run]. unfold ret, sum_sizes. cbn [foldr].
    split; [reflexivity|]. split; [constructor|]. rewrite Hc, Hs.
    repeat split; lia.
  - destruct o as [x n|].
    + destruct Ho as (Hres & Hx & Hn).
      cbn [pool_run]. unfold bind at 1.
      pose proof (alloc_mpi_unfold x n st) as Hu. cbv zeta in Hu.
      rewrite Hres in Hu. rewrite (Hu Hlo), Hc, Hs. clear Hu.
      unfold pool_base, sizeof_TlsMpiPool in *. rewrite PAGE_SIZE_eq in *.
      rewrite (u64_small (16 + s + n)) by lia.
      destruct (4096 <? 16 + s + n) eqn:E1.
      * (* refused *)
        destruct (IH c s st Hslot Hc Hs Hcs Hcap)
          as (g & st' & Hrun & Hpos & Hsz & Hfit & Hinv & Heq).
        exists g, st'. unfold bind. rewrite Hrun. unfold ret.
        rewrite Z.eqb_refl. split; [reflexivity|]. split; [exact Hpos|].
        split; [exact Hsz|]. split; [exact Hfit|]. split; [exact Hinv|].
        intros Hnear. apply Heq. apply Forall_cons in Hnear as [_ Hnear]. exact Hnear.
      * (* granted *)
        apply Z.ltb_ge in E1.
        rewrite (u64_small (mp + 16 + c)) by lia.
        destruct (mp + 16 + c <=? x) eqn:E2; [apply Z.leb_le in E2; lia|].
        set (st1 := set_memory _ st).
        assert (Hc1 : pool_curr st1 mp = c + n).
        { unfold st1, pool_curr, curr_of, size_of. cbn [memory set_memory].
          rewrite load64_store64_other by lia.
          rewrite load64_store64_same. apply u64_small. lia. }
        assert (Hs1 : pool_size st1 mp = s + n).
        { unfold st1, pool_size, curr_of, size_of. cbn [memory set_memory].
          rewrite load64_store64_same. apply u64_small. lia. }
        destruct (IH (c + n) (s + n) st1)
          as (g & st' & Hrun & Hpos & Hsz & Hfit & Hinv & Heq);
          try assumption; try lia.
        unfold bind. rewrite Hrun. unfold ret.
        destruct (_ =? - ENOMEM) eqn:Er.
        -- exists g, st'. split; [reflexivity|]. split; [exact Hpos|].
           split; [lia|]. split; [exact Hfit|]. split; [exact Hinv|].
           intros Hnear. apply Forall_cons in Hnear as [Hd _].
           rewrite PAGE_SIZE_eq in Hd.
           rewrite s32_small in Er by lia.
           apply Z.eqb_eq in Er. unfold ENOMEM in Er. lia.
        -- exists (n :: g), st'.
           split; [reflexivity|]. split; [constructor; [lia|exact Hpos]|].
           unfold sum_sizes in *. cbn [foldr].
           split; [lia|]. split; [exact Hfit|]. split; [exact Hinv|].
           intros Hnear. apply Forall_cons in Hnear as [_ Hnear].
           rewrite (Heq Hnear). lia.
    + cbn [pool_run]. unfold bind at 1.
      pose proof (cleanup_ctx_unfold cpu st) as Hu. cbv zeta in Hu.
      rewrite Hslot in Hu. rewrite Hu by (try apply Hma; try assumption; lia). clear Hu.
      set (st1 := set_memory _ st).
      unfold pool_base, sizeof_TlsMpiPool in *. rewrite PAGE_SIZE_eq in *.
      assert (Hc1 : pool_curr st1 mp = 0).
      { unfold st1, pool_curr, curr_of. cbn [memory set_memory].
        apply load64_store64_same. }
      assert (Hs1 : pool_size st1 mp = s).
      { unfold st1, pool_size, curr_of, size_of. cbn [memory set_memory].
        rewrite load64_store64_other by lia.
        rewrite load64_bzero_outside by lia. exact Hs. }
      destruct (IH 0 s st1) as (g & st' & Hrun & Hpos & Hsz & Hfit & Hinv & Heq);
        try assumption; try lia.
      exists g, st'. split; [exact Hrun|]. split; [exact Hpos|].
      split; [exact Hsz|]. split; [exact Hfit|]. split; [exact Hinv|].
      intros Hnear. apply Heq. apply Forall_cons in Hnear as [_ Hnear]. exact Hnear.
Qed.

(** X7.  Over the whole life of a per-CPU pool, whatever the order of
    allocations and cleanups, the sizes of all the requests that did not
    return [-ENOMEM] add up to at most the size counter, and the size
    counter to at most the capacity of the page (4080 bytes): a cleanup
    gives the offset back but not the budget.  The run itself never
    oopses when the callers keep to what the allocator asks of them (MPIs
    below the pool, sizes below 2^63, the pool's own [mem_alloc]
    check).  When every MPI lies less than 2^31 bytes below the end of
    the pool, the size counter is exactly the sum of those sizes. *)
Theorem pool_lifetime_budget (ops : list pool_op) (cpu : nat) (st : state) :
  let mp := tmp_mpool_slot st cpu in
  PAGE_SIZE <= mp -> mp + PAGE_SIZE < 2 ^ 64 ->
  (forall m, MPI_POOL_DATA mp <= mem_alloc m mp) ->
  Forall (fun o => match o with
                   | Pool_alloc x n =>
                       __mpi_profile x = mp /\ x < pool_base mp /\ 0 <= n < 2 ^ 63
                   | Pool_cleanup => True
                   end) ops ->
  pool_curr st mp = 0 -> pool_size st mp = 0 ->
  exists granted st',
    pool_run cpu ops st = Some (granted, st') /\
    sum_sizes granted <= pool_size st' mp /\
    pool_size st' mp <= pool_capacity /\
    (mpis_near mp ops -> pool_size st' mp = sum_sizes granted).
Proof.
  intros mp Hlo Hhi Hma Hops Hc Hs.
  destruct (pool_run_budget ops cpu mp 0 0 st)
    as (g & st' & Hrun & _ & Hsz & Hfit & _ & Heq);
    try assumption; try reflexivity; try lia.
  { rewrite pool_capacity_eq. lia. }
  exists g, st'. split; [exact Hrun|]. split; [lia|]. split; [exact Hfit|].
  intros Hnear. rewrite (Heq Hnear). lia.
Qed.

End PoolLife.

Lemma pool_lifetime_budget_witness :
  exists granted st',
    @pool_run demo_ext 0
       [Pool_alloc demo_x 3000; Pool_cleanup; Pool_alloc demo_x 2000;
        Pool_alloc demo_x 1000; Pool_cleanup; Pool_alloc demo_x 80]
       demo_ready = Some (granted, st') /\
    sum_sizes granted <= pool_size st' (tmp_mpool_slot demo_ready 0) /\
    pool_size st' (tmp_mpool_slot demo_ready 0) <= pool_capacity /\
    (mpis_near (tmp_mpool_slot demo_ready 0)
       [Pool_alloc demo_x 3000; Pool_cleanup; Pool_alloc demo_x 2000;
        Pool_alloc demo_x 1000; Pool_cleanup; Pool_alloc demo_x 80] ->
     pool_size st' (tmp_mpool_slot demo_ready 0) = sum_sizes granted).
Proof.
  apply (@pool_lifetime_budget demo_ext
           [Pool_alloc demo_x 3000; Pool_cleanup; Pool_alloc demo_x 2000;
            Pool_alloc demo_x 1000; Pool_cleanup; Pool_alloc demo_x 80]
           0 demo_ready).
  - vm_compute. discriminate.
  - vm_compute. reflexivity.
  - intros m. vm_compute. discriminate.
  - repeat constructor; vm_compute; try reflexivity; discriminate.
  - vm_compute. reflexivity.
  - vm_compute. reflexivity.
Defined.

(** ** Cleanups *)

Lemma store64_inside (m : mem) (a v x : Z) :
  a <= x < a + 8 -> store64 m a v x = (v / 256 ^ (x - a)) mod 256.
Proof.
  intros Hx. unfold store64, store_le.
  replace ((a <=? x) && (x <? a + Z.of_nat 8)) with true; [reflexivity|].
  symmetry. apply andb_true_iff. split; [apply Z.leb_le|apply Z.ltb_lt]; lia.
Qed.

(** X8.  [ttls_mpi_cleanup_ctx] on a pool whose offset is at most its
    size, and its size at most the capacity of the page: the bytes
    handed out since the last cleanup, from the data area up to the
    offset, lie in the page and all read zero afterwards; the offset is
    zero; the size counter is what it was; no byte below the pool or from
    the old free pointer on is written; the pages in use, the page
    allocator and the per-CPU pointers are not touched (the page is
    kept). *)
Theorem cleanup_ctx_erases_consumed `{Externals} (cpu : nat) (st : state) :
  let mp := tmp_mpool_slot st cpu in
  PAGE_SIZE <= mp -> mp + PAGE_SIZE < 2 ^ 64 ->
  MPI_POOL_DATA mp <= mem_alloc (memory st) mp ->
  pool_curr st mp <= pool_size st mp ->
  pool_size st mp <= pool_capacity ->
  exists st',
    ttls_mpi_cleanup_ctx cpu st = Some (tt, st') /\
    pool_base mp + pool_curr st mp <= mp + PAGE_SIZE /\
    pool_curr st' mp = 0 /\
    pool_size st' mp = pool_size st mp /\
    (forall a, pool_base mp <= a < pool_base mp + pool_curr st mp ->
       load8 (memory st') a = 0) /\
    (forall a, a < mp \/ pool_base mp + pool_curr st mp <= a ->
       memory st' a = memory st a) /\
    live_pages st' = live_pages st /\
    buddy st' = buddy st /\
    g_tmp_mpool st' = g_tmp_mpool st.
Proof.
  intros mp Hlo Hhi Hma Hcs Hcap.
  pose proof (cleanup_ctx_unfold cpu st) as Hu. cbv zeta in Hu. fold mp in Hu.
  rewrite (Hu Hlo Hhi Hma Hcs). clear Hu.
  pose proof (load64_bound (memory st) mp) as Hcb.
  eexists. split; [reflexivity|].
  rewrite pool_capacity_eq in Hcap.
  unfold pool_curr, pool_size, curr_of, size_of, pool_base, sizeof_TlsMpiPool in *.
  cbn [memory set_memory live_pages buddy g_tmp_mpool].
  split; [rewrite PAGE_SIZE_eq; lia|].
  split; [apply load64_store64_same|].
  split.
  { rewrite load64_store64_other by lia.
    rewrite load64_bzero_outside by lia. reflexivity. }
  split; [|split; [|repeat split]].
  - intros a Ha. unfold load8.
    rewrite store64_outside by lia.
    rewrite bzero_fast_inside by lia. reflexivity.
  - intros a Ha.
    rewrite store64_outside.
    + apply bzero_fast_outside. lia.
    + destruct Ha as [Ha|Ha]; [left; exact Ha|right; lia].
Qed.

(** X9.  On a pool whose offset is at most its size, and its size at most
    the capacity of the page, a second [ttls_mpi_cleanup_ctx] right
    after the first changes no byte of the store and nothing else of the
    state: there is nothing left to erase. *)
Theorem cleanup_ctx_twice `{Externals} (cpu : nat) (st : state) :
  let mp := tmp_mpool_slot st cpu in
  PAGE_SIZE <= mp -> mp + PAGE_SIZE < 2 ^ 64 ->
  (forall m, MPI_POOL_DATA mp <= mem_alloc m mp) ->
  pool_curr st mp <= pool_size st mp ->
  pool_size st mp <= pool_capacity ->
  exists st1 st2,
    ttls_mpi_cleanup_ctx cpu st = Some (tt, st1) /\
    ttls_mpi_cleanup_ctx cpu st1 = Some (tt, st2) /\
    (forall a, memory st2 a = memory st1 a) /\
    live_pages st2 = live_pages st1 /\
    buddy st2 = buddy st1 /\
    mpi_profiles st2 = mpi_profiles st1 /\
    g_tmp_mpool st2 = g_tmp_mpool st1 /\
    has_empty_profile st2 = has_empty_profile st1.
Proof.
  intros mp Hlo Hhi Hma Hcs _.
  pose proof (load64_bound (memory st) mp) as Hcb.
  pose proof (load64_bound (memory st) (mp + 8)) as Hsb.
  pose proof (cleanup_ctx_unfold cpu st) as Hu. cbv zeta in Hu. fold mp in Hu.
  rewrite (Hu Hlo Hhi (Hma _) Hcs). clear Hu.
  set (st1 := set_memory _ st).
  assert (Hslot : tmp_mpool_slot st1 cpu = mp) by reflexivity.
  assert (Hc1 : pool_curr st1 mp = 0).
  { unfold st1, pool_curr, curr_of. cbn [memory set_memory]. apply load64_store64_same. }
  assert (Hs1 : pool_size st1 mp = pool_size st mp).
  { unfold st1, pool_size, pool_curr, pool_base, curr_of, size_of, sizeof_TlsMpiPool in *.
    cbn [memory set_memory].
    rewrite load64_store64_other by lia.
    rewrite load64_bzero_outside by lia. reflexivity. }
  pose proof (cleanup_ctx_unfold cpu st1) as Hu. cbv zeta in Hu.
  rewrite Hslot in Hu.
  specialize (Hu Hlo Hhi (Hma _)).
  rewrite Hc1, Hs1 in Hu. specialize (Hu (proj1 Hsb)).
  exists st1. eexists. split; [reflexivity|]. split; [exact Hu|].
  cbn [memory set_memory live_pages buddy mpi_profiles g_tmp_mpool has_empty_profile].
  split; [|repeat split].
  intros a. unfold curr_of.
  destruct (Z_lt_ge_dec a mp) as [Hl|Hg];
    [|destruct (Z_lt_ge_dec a (mp + 8)) as [Hin|Hout]].
  - rewrite store64_outside by lia. apply bzero_fast_outside. lia.
  - rewrite store64_inside by lia.
    unfold st1, curr_of. cbn [memory set_memory].
    rewrite store64_inside by lia. reflexivity.
  - rewrite store64_outside by lia. apply bzero_fast_outside. lia.
Qed.

Lemma cleanup_ctx_erases_consumed_witness :
  let st := demo_used in
  exists st',
    @ttls_mpi_cleanup_ctx demo_ext 0 st = Some (tt, st') /\
    pool_base (tmp_mpool_slot st 0) + pool_curr st (tmp_mpool_slot st 0)
      <= tmp_mpool_slot st 0 + PAGE_SIZE /\
    pool_curr st' (tmp_mpool_slot st 0) = 0 /\
    pool_size st' (tmp_mpool_slot st 0) = pool_size st (tmp_mpool_slot st 0) /\
    (forall a, pool_base (tmp_mpool_slot st 0) <= a
               < pool_base (tmp_mpool_slot st 0) + pool_curr st (tmp_mpool_slot st 0) ->
       load8 (memory st') a = 0) /\
    (forall a, a < tmp_mpool_slot st 0 \/
               pool_base (tmp_mpool_slot st 0) + pool_curr st (tmp_mpool_slot st 0) <= a ->
       memory st' a = memory st a) /\
    live_pages st' = live_pages st /\
    buddy st' = buddy st /\
    g_tmp_mpool st' = g_tmp_mpool st.
Proof.
  intros st.
  apply (@cleanup_ctx_erases_consumed demo_ext 0 st).
  - vm_compute. discriminate.
  - vm_compute. reflexivity.
  - vm_compute. discriminate.
  - vm_compute. discriminate.
  - vm_compute. discriminate.
Defined.

Lemma cleanup_ctx_twice_witness :
  let st := demo_used in
  exists st1 st2,
    @ttls_mpi_cleanup_ctx demo_ext 0 st = Some (tt, st1) /\
    @ttls_mpi_cleanup_ctx demo_ext 0 st1 = Some (tt, st2) /\
    (forall a, memory st2 a = memory st1 a) /\
    live_pages st2 = live_pages st1 /\
    buddy st2 = buddy st1 /\
    mpi_profiles st2 = mpi_profiles st1 /\
    g_tmp_mpool st2 = g_tmp_mpool st1 /\
    has_empty_profile st2 = has_empty_profile st1.
Proof.
  intros st.
  apply (@cleanup_ctx_twice demo_ext 0 st).
  - vm_compute. discriminate.
  - vm_compute. reflexivity.
  - intros m. vm_compute. discriminate.
  - vm_compute. discriminate.
  - vm_compute. discriminate.
Defined.

(** ** Creating the ECDH profile *)

Section CreateProfile.
Context `{Externals}.

Lemma profile_create_ec_no_page (pkey : TlsPkCtx) (st : state) :
  (buddy st = [] \/ exists rest, buddy st = 0 :: rest) ->
  exists st1,
    ttls_mpi_profile_create_ec pkey st = Some (0, st1) /\
    memory st1 = memory st /\
    live_pages st1 = live_pages st /\
    mpi_profiles st1 = mpi_profiles st /\
    g_tmp_mpool st1 = g_tmp_mpool st /\
    has_empty_profile st1 = has_empty_profile st.
Proof.
  intros Hb. unfold ttls_mpi_profile_create_ec, bind, __get_free_pages, ret.
  destruct Hb as [Hb|[rest Hb]]; rewrite Hb; cbn.
  - exists st. repeat split.
  - eexists. split; [reflexivity|]. repeat split.
Qed.

Lemma profile_create_ec_page (pkey : TlsPkCtx) (p : Z) (rest : list Z) (st : state) :
  buddy st = p :: rest -> p <> 0 ->
  exists mp st1,
    ttls_mpi_profile_create_ec pkey st = Some (mp, st1) /\
    (mp = 0 \/ mp = p) /\
    live_pages st1 = {[ p ]} ∪ live_pages st /\
    buddy st1 = rest /\
    mpi_profiles st1 = mpi_profiles st /\
    g_tmp_mpool st1 = g_tmp_mpool st /\
    has_empty_profile st1 = has_empty_profile st.
Proof.
  intros Hb Hp. apply Z.eqb_neq in Hp.
  unfold ttls_mpi_profile_create_ec, bind, __get_free_pages, on_memory, ret.
  rewrite Hb, Hp. cbn.
  destruct (ttls_ecdh_get_params _ _ _) as [r m1]. cbn.
  destruct (r =? 0); cbn.
  - destruct (ecp_precompute_comb _ _ _ _) as [r2 m2]. cbn.
    destruct (r2 =? 0); cbn; eexists _, _; (split; [reflexivity|]); auto 10.
  - eexists _, _. split; [reflexivity|]. auto 10.
Qed.

(** The call, when the flag is set, the ECDH slot is empty and the key is
    an EC key: the first turn of the loop decides, the others skip. *)
Lemma profile_set_fill_eq (crt : ttls_x509_crt) (u : Z) (st : state) :
  has_empty_profile st = true ->
  profile_slot st TTLS_MPI_PROFILE_ECDH = 0 ->
  pk_info_type (pk crt) = TTLS_PK_ECKEY ->
  ttls_mpi_profile_set crt u st =
    match profile_set_body (pk crt) TTLS_MPI_PROFILE_ECDH u 0 st with
    | Some (Return e, st1) => Some (e, st1)
    | Some (Next (_, n1), st1) =>
        Some (0, if n1 + filled_among (mpi_profiles st1) (seq 1 7)
                      =? Z.of_nat __TTLS_MPI_PROFILES_N
                 then set_has_empty_profile false st1 else st1)
    | None => None
    end.
Proof.
  intros Hflag Hempty Hty.
  unfold ttls_mpi_profile_set. unfold bind at 1. unfold get_has_empty_profile.
  rewrite Hflag. cbn [negb]. unfold bind at 1.
  change (seq 0 __TTLS_MPI_PROFILES_N) with (TTLS_MPI_PROFILE_ECDH :: seq 1 7).
  cbn [profile_set_loop]. unfold bind at 1.
  destruct (profile_set_body (pk crt) TTLS_MPI_PROFILE_ECDH u 0 st)
    as [[[[mp' n1]|e] st1]|]; [|reflexivity|reflexivity].
  rewrite profile_set_loop_skip.
  - unfold bind, put_has_empty_profile, ret. destruct (_ =? _); reflexivity.
  - intros i Hi. right. apply profile_for_cert_tail.
    apply elem_of_seq in Hi. unfold TTLS_MPI_PROFILE_ECDH. lia.
Qed.

(** X10.  A call for an EC key that finds the flag set, the ECDH slot
    empty, the local [mp] NULL and a page to be had always takes that
    page, and returns 0 or [-EINVAL].  With 0, the page is the profile
    now registered in the ECDH slot, and no other slot has changed.  With
    [-EINVAL] (one of the two EC routines failed), the table is as it
    was and the page is still in use: it is not given back. *)
Theorem profile_set_takes_page
    (crt : ttls_x509_crt) (p : Z) (rest : list Z) (st : state) :
  length (mpi_profiles st) = __TTLS_MPI_PROFILES_N ->
  has_empty_profile st = true ->
  profile_slot st TTLS_MPI_PROFILE_ECDH = 0 ->
  pk_info_type (pk crt) = TTLS_PK_ECKEY ->
  buddy st = p :: rest -> p <> 0 ->
  exists r st',
    ttls_mpi_profile_set crt 0 st = Some (r, st') /\
    live_pages st' = {[ p ]} ∪ live_pages st /\
    buddy st' = rest /\
    ((r = 0 /\
      profile_slot st' TTLS_MPI_PROFILE_ECDH = p /\
      forall i, i <> TTLS_MPI_PROFILE_ECDH -> profile_slot st' i = profile_slot st i) \/
     (r = - EINVAL /\
      mpi_profiles st' = mpi_profiles st /\
      has_empty_profile st' = true)).
Proof.
  intros Hlen Hflag Hempty Hty Hb Hp.
  assert (Hfor : ttls_mpi_profile_for_cert TTLS_MPI_PROFILE_ECDH (pk crt) = true).
  { unfold ttls_mpi_profile_for_cert. rewrite Hty. reflexivity. }
  rewrite (profile_set_fill_eq crt 0 st Hflag Hempty Hty).
  rewrite (profile_set_body_fill_eq (pk crt) TTLS_MPI_PROFILE_ECDH 0 0 st Hempty Hfor).
  cbn [Z.eqb].
  destruct (profile_create_ec_page (pk crt) p rest st Hb Hp)
    as (mp & st1 & Hrun & Hmp & Hlive & Hbud & Hprof & _ & Hf).
  rewrite Hrun.
  destruct (mp =? 0) eqn:Emp.
  - exists (- EINVAL), st1. split; [reflexivity|]. split; [exact Hlive|].
    split; [exact Hbud|]. right. split; [reflexivity|]. split; [exact Hprof|].
    rewrite Hf. exact Hflag.
  - apply Z.eqb_neq in Emp. destruct Hmp as [Hmp|Hmp]; [contradiction|]. subst mp.
    eexists 0, _. split; [reflexivity|].
    assert (Hslot : default 0 (<[TTLS_MPI_PROFILE_ECDH:=p]> (mpi_profiles st1)
                               !! TTLS_MPI_PROFILE_ECDH) = p).
    { rewrite list_lookup_insert_eq; [reflexivity|].
      rewrite Hprof, Hlen. unfold TTLS_MPI_PROFILE_ECDH, __TTLS_MPI_PROFILES_N. lia. }
    destruct (_ =? _);
      unfold profile_slot;
      cbn [live_pages buddy mpi_profiles set_has_empty_profile set_mpi_profiles];
      (split; [exact Hlive|]); (split; [exact Hbud|]); left;
      (split; [reflexivity|]); (split; [exact Hslot|]);
      intros i Hi; rewrite list_lookup_insert_ne by (intros E; apply Hi; symmetry; exact E);
      rewrite Hprof; reflexivity.
Qed.

(** X11.  The same call when the page allocator has no page to give:
    it returns [-EINVAL], and the store, the pages in use, the table and
    the flag are as they were. *)
Theorem profile_set_no_page (crt : ttls_x509_crt) (st : state) :
  has_empty_profile st = true ->
  profile_slot st TTLS_MPI_PROFILE_ECDH = 0 ->
  pk_info_type (pk crt) = TTLS_PK_ECKEY ->
  (buddy st = [] \/ exists rest, buddy st = 0 :: rest) ->
  exists st',
    ttls_mpi_profile_set crt 0 st = Some (- EINVAL, st') /\
    memory st' = memory st /\
    live_pages st' = live_pages st /\
    mpi_profiles st' = mpi_profiles st /\
    has_empty_profile st' = true.
Proof.
  intros Hflag Hempty Hty Hb.
  assert (Hfor : ttls_mpi_profile_for_cert TTLS_MPI_PROFILE_ECDH (pk crt) = true).
  { unfold ttls_mpi_profile_for_cert. rewrite Hty. reflexivity. }
  rewrite (profile_set_fill_eq crt 0 st Hflag Hempty Hty).
  rewrite (profile_set_body_fill_eq (pk crt) TTLS_MPI_PROFILE_ECDH 0 0 st Hempty Hfor).
  cbn [Z.eqb].
  destruct (profile_create_ec_no_page (pk crt) st Hb)
    as (st1 & Hrun & Hm & Hlive & Hprof & _ & Hf).
  rewrite Hrun. cbn [Z.eqb]. exists st1. split; [reflexivity|].
  split; [exact Hm|]. split; [exact Hlive|]. split; [exact Hprof|].
  rewrite Hf. exact Hflag.
Qed.

End CreateProfile.

Lemma profile_set_takes_page_witness :
  exists r st',
    @ttls_mpi_profile_set (failing_externals (fun _ => 0)) eckey_crt 0 demo_ready
      = Some (r, st') /\
    live_pages st' = {[ demo_page2 ]} ∪ live_pages demo_ready /\
    buddy st' = [] /\
    ((r = 0 /\
      profile_slot st' TTLS_MPI_PROFILE_ECDH = demo_page2 /\
      forall i, i <> TTLS_MPI_PROFILE_ECDH ->
        profile_slot st' i = profile_slot demo_ready i) \/
     (r = - EINVAL /\
      mpi_profiles st' = mpi_profiles demo_ready /\
      has_empty_profile st' = true)).
Proof.
  apply (@profile_set_takes_page (failing_externals (fun _ => 0))
           eckey_crt demo_page2 [] demo_ready).
  - vm_compute. reflexivity.
  - vm_compute. reflexivity.
  - vm_compute. reflexivity.
  - reflexivity.
  - vm_compute. reflexivity.
  - vm_compute. discriminate.
Defined.

Lemma profile_set_no_page_witness :
  exists st',
    @ttls_mpi_profile_set demo_ext eckey_crt 0 (boot_state demo_mem [] 1)
      = Some (- EINVAL, st') /\
    memory st' = memory (boot_state demo_mem [] 1) /\
    live_pages st' = live_pages (boot_state demo_mem [] 1) /\
    mpi_profiles st' = mpi_profiles (boot_state demo_mem [] 1) /\
    has_empty_profile st' = true.
Proof.
  apply (@profile_set_no_page demo_ext eckey_crt (boot_state demo_mem [] 1)).
  - reflexivity.
  - reflexivity.
  - reflexivity.
  - left. reflexivity.
Defined.

(** ** Start-up that succeeds *)

Lemma bzero_fast_keeps_zero (m : mem) (p n a : Z) :
  load8 m a = 0 -> load8 (bzero_fast m p n) a = 0.
Proof.
  unfold load8, bzero_fast. intros Hz.
  destruct ((p <=? a) && (a <? p + n)); [reflexivity|exact Hz].
Qed.

(** The loop of [ttls_mpool_init] from CPU [k] on, when the page
    allocator serves every request. *)
Lemma mpool_init_loop_served (pages rest : list Z) (k : nat) (st : state) :
  buddy st = pages ++ rest ->
  Forall (fun p => p <> 0) pages ->
  (k + length pages <= length (g_tmp_mpool st))%nat ->
  exists st',
    mpool_init_loop (seq k (length pages)) st = Some (false, st') /\
    length (g_tmp_mpool st') = length (g_tmp_mpool st) /\
    (forall j, (j < length pages)%nat -> g_tmp_mpool st' !! (k + j)%nat = pages !! j) /\
    (forall i, (i < k)%nat -> g_tmp_mpool st' !! i = g_tmp_mpool st !! i) /\
    buddy st' = rest /\
    live_pages st' = list_to_set pages ∪ live_pages st /\
    (forall p, p ∈ pages -> page_zeroed st' p) /\
    (forall a, load8 (memory st) a = 0 -> load8 (memory st') a = 0) /\
    (forall a, (forall p, p ∈ pages -> a < p \/ p + PAGE_SIZE <= a) ->
       memory st' a = memory st a) /\
    mpi_profiles st' = mpi_profiles st /\
    has_empty_profile st' = has_empty_profile st.
Proof.
  revert k st. induction pages as [|p pages IH]; intros k st Hb Hnz Hlen.
  - exists st. cbn. unfold ret. split; [reflexivity|]. split; [reflexivity|].
    split; [intros j Hj; cbn in Hj; lia|]. split; [reflexivity|].
    split; [exact Hb|].
    split; [cbn [list_to_set foldr]; symmetry; apply (left_id_L ∅ (∪))|].
    split; [intros q Hq; apply elem_of_nil in Hq; contradiction|].
    repeat split; auto.
  - apply Forall_cons in Hnz as [Hp Hnz]. cbn [length] in Hlen.
    cbn [length seq mpool_init_loop].
    unfold bind at 1. unfold __get_free_pages. rewrite Hb. cbn [app].
    replace (p =? 0) with false by (symmetry; apply Z.eqb_neq; exact Hp).
    cbn [negb andb]. unfold bind at 1. unfold put_tmp_mpool.
    cbn [g_tmp_mpool set_g_tmp_mpool].
    set (s1 := set_g_tmp_mpool _ _).
    destruct (IH (S k) s1) as
      (st' & Hrun & Hl & Hnew & Hold & Hbud & Hlive & Hzero & Hmono & Hout & Hprof & Hflag).
    { reflexivity. }
    { exact Hnz. }
    { unfold s1. cbn [g_tmp_mpool set_g_tmp_mpool]. rewrite length_insert. lia. }
    exists st'. split; [exact Hrun|].
    unfold s1 in Hl, Hold, Hlive, Hmono, Hout, Hprof, Hflag.
    cbn [g_tmp_mpool set_g_tmp_mpool memory live_pages mpi_profiles has_empty_profile]
      in Hl, Hold, Hlive, Hmono, Hout, Hprof, Hflag.
    rewrite length_insert in Hl.
    split; [exact Hl|].
    split.
    { intros [|j] Hj.
      - rewrite Nat.add_0_r, (Hold k) by lia.
        rewrite list_lookup_insert_eq by lia. reflexivity.
      - cbn [lookup list_lookup]. cbn [length] in Hj.
        replace (k + S j)%nat with (S k + j)%nat by lia.
        apply Hnew. lia. }
    split.
    { intros i Hi. rewrite (Hold i) by lia.
      apply list_lookup_insert_ne. lia. }
    split; [exact Hbud|].
    split.
    { rewrite Hlive. cbn [list_to_set foldr]. apply set_eq. intros q.
      rewrite !elem_of_union. tauto. }
    split.
    { intros q Hq. apply elem_of_cons in Hq as [->|Hq]; [|apply Hzero; exact Hq].
      intros a Ha. apply Hmono. unfold load8.
      rewrite bzero_fast_inside by exact Ha. reflexivity. }
    split.
    { intros a Ha. apply Hmono. apply bzero_fast_keeps_zero. exact Ha. }
    split.
    { intros a Ha. rewrite Hout.
      - apply bzero_fast_outside.
        change (Z.shiftl PAGE_SIZE MCTX_ORDER) with PAGE_SIZE.
        apply Ha. apply list_elem_of_here.
      - intros q Hq. apply Ha. apply list_elem_of_further. exact Hq. }
    split; assumption.
Qed.

Lemma load64_of_zero_bytes (m : mem) (a : Z) :
  (forall x, a <= x < a + 8 -> load8 m x = 0) -> load64 m a = 0.
Proof.
  intros Hz. unfold load64. cbn [load_le].
  rewrite !Hz by lia. reflexivity.
Qed.

(** X12.  [ttls_mpool_init] when the page allocator serves one page per
    possible CPU: it returns 0; CPU [i] owns the [i]-th page served; the
    pages are in use and wholly zeroed, so each per-CPU pool starts
    empty (offset and size zero); no byte outside the pages is written;
    the profile table and the flag are not touched. *)
Theorem mpool_init_served (pages rest : list Z) (st : state) :
  buddy st = pages ++ rest ->
  Forall (fun p => p <> 0) pages ->
  length pages = length (g_tmp_mpool st) ->
  exists st',
    ttls_mpool_init st = Some (0, st') /\
    g_tmp_mpool st' = pages /\
    buddy st' = rest /\
    live_pages st' = list_to_set pages ∪ live_pages st /\
    (forall p, p ∈ pages ->
       page_zeroed st' p /\ pool_curr st' p = 0 /\ pool_size st' p = 0) /\
    (forall a, (forall p, p ∈ pages -> a < p \/ p + PAGE_SIZE <= a) ->
       memory st' a = memory st a) /\
    mpi_profiles st' = mpi_profiles st /\
    has_empty_profile st' = has_empty_profile st.
Proof.
  intros Hb Hnz Hlen.
  destruct (mpool_init_loop_served pages rest 0 st Hb Hnz) as
    (st' & Hrun & Hl & Hnew & _ & Hbud & Hlive & Hzero & _ & Hout & Hprof & Hflag).
  { lia. }
  exists st'. split.
  { unfold ttls_mpool_init, bind, possible_cpus. rewrite <- Hlen, Hrun. reflexivity. }
  split.
  { apply list_eq. intros i.
    destruct (Nat.lt_ge_cases i (length pages)) as [Hi|Hi].
    - rewrite <- (Hnew i Hi). reflexivity.
    - rewrite !lookup_ge_None_2 by lia. reflexivity. }
  split; [exact Hbud|]. split; [exact Hlive|].
  split; [|split; [exact Hout|split; assumption]].
  intros p Hp. pose proof (Hzero p Hp) as Hz. split; [exact Hz|].
  unfold pool_curr, pool_size, curr_of, size_of.
  change (Z.shiftl PAGE_SIZE MCTX_ORDER) with PAGE_SIZE in Hz.
  unfold page_zeroed in Hz. change (Z.shiftl PAGE_SIZE MCTX_ORDER) with 4096 in Hz.
  split; apply load64_of_zero_bytes; intros x Hx; apply Hz; lia.
Qed.

Lemma mpool_init_served_witness :
  exists st',
    ttls_mpool_init (boot_state demo_mem [demo_page; demo_page2; 458752] 2)
      = Some (0, st') /\
    g_tmp_mpool st' = [demo_page; demo_page2] /\
    buddy st' = [458752] /\
    live_pages st'
      = list_to_set [demo_page; demo_page2]
        ∪ live_pages (boot_state demo_mem [demo_page; demo_page2; 458752] 2) /\
    (forall p, p ∈ [demo_page; demo_page2] ->
       page_zeroed st' p /\ pool_curr st' p = 0 /\ pool_size st' p = 0) /\
    (forall a, (forall p, p ∈ [demo_page; demo_page2] -> a < p \/ p + PAGE_SIZE <= a) ->
       memory st' a
       = memory (boot_state demo_mem [demo_page; demo_page2; 458752] 2) a) /\
    mpi_profiles st'
      = mpi_profiles (boot_state demo_mem [demo_page; demo_page2; 458752] 2) /\
    has_empty_profile st'
      = has_empty_profile (boot_state demo_mem [demo_page; demo_page2; 458752] 2).
Proof.
  apply (mpool_init_served [demo_page; demo_page2] [458752]
           (boot_state demo_mem [demo_page; demo_page2; 458752] 2)).
  - reflexivity.
  - repeat constructor; vm_compute; discriminate.
  - reflexivity.
Defined.

(** ** Teardown of a module that started *)

Section Teardown.
Context `{Externals}.

(** The first loop of [ttls_mpool_exit]: the pages of the registered
    profiles are given back, nothing else changes. *)
Lemma exit_profiles_loop (l : list nat) (st : state) :
  exists st',
    for_each l (fun i =>
      p <- get_profile i ;;
      if negb (p =? 0) then free_pages p MCTX_ORDER else ret tt) st
      = Some (tt, st') /\
    memory st' = memory st /\ buddy st' = buddy st /\
    mpi_profiles st' = mpi_profiles st /\ g_tmp_mpool st' = g_tmp_mpool st /\
    has_empty_profile st' = has_empty_profile st /\
    (forall q, q ∈ live_pages st' <->
       q ∈ live_pages st /\
       ~ (q <> 0 /\ exists i, i ∈ l /\ profile_slot st i = q)).
Proof.
  revert st. induction l as [|i l IH]; intros st.
  - exists st. cbn [for_each]. unfold ret. repeat split; try tauto.
    intros [_ (j & Hj & _)]. apply elem_of_nil in Hj. exact Hj.
  - cbn [for_each]. unfold bind at 1. unfold bind at 1. unfold get_profile.
    fold (profile_slot st i).
    destruct (profile_slot st i =? 0) eqn:Ez; cbn [negb].
    + apply Z.eqb_eq in Ez. unfold ret.
      destruct (IH st) as (st' & Hrun & Hm & Hb & Hp & Hg & Hf & Hl).
      exists st'. split; [exact Hrun|]. repeat (split; [assumption|]).
      intros q. rewrite Hl. split; intros [Hq Hn]; (split; [exact Hq|]).
      * intros [Hq0 (j & Hj & Hs)]. apply Hn. split; [exact Hq0|].
        apply elem_of_cons in Hj as [->|Hj]; [congruence|].
        exists j. split; assumption.
      * intros [Hq0 (j & Hj & Hs)]. apply Hn. split; [exact Hq0|].
        exists j. split; [apply list_elem_of_further; exact Hj|exact Hs].
    + apply Z.eqb_neq in Ez. unfold free_pages at 1.
      destruct (profile_slot st i =? 0) eqn:Ez'; [apply Z.eqb_eq in Ez'; contradiction|].
      match goal with |- context [for_each l _ ?s] => destruct (IH s) as
        (st' & Hrun & Hm & Hb & Hp & Hg & Hf & Hl) end.
      cbn [memory buddy mpi_profiles g_tmp_mpool has_empty_profile live_pages] in *.
      exists st'. split; [exact Hrun|]. repeat (split; [assumption|]).
      assert (Hl' : forall q, q ∈ live_pages st' <->
                (q ∈ live_pages st /\ q <> profile_slot st i) /\
                ~ (q <> 0 /\ exists j, j ∈ l /\ profile_slot st j = q)).
      { intros q. rewrite Hl, elem_of_difference, elem_of_singleton. reflexivity. }
      clear Hl. intros q. rewrite Hl'.
      split.
      * intros [[Hq Hne] Hn]. split; [exact Hq|].
        intros [Hq0 (j & Hj & Hs)].
        apply elem_of_cons in Hj as [->|Hj]; [congruence|].
        apply Hn. split; [exact Hq0|]. exists j. split; assumption.
      * intros [Hq Hn]. split; [split; [exact Hq|]|].
        -- intros ->. apply Hn. split; [exact Ez|].
           exists i. split; [apply list_elem_of_here|reflexivity].
        -- intros [Hq0 (j & Hj & Hs)]. apply Hn. split; [exact Hq0|].
           exists j. split; [apply list_elem_of_further; exact Hj|exact Hs].
Qed.

(** The second loop of [ttls_mpool_exit] over CPUs whose slot points to a
    page of mapped memory, when the bytes that one pool has handed out do
    not cover the header of another: each pool has those bytes cleared
    and its page given back. *)
Lemma exit_cpus_loop (l : list nat) (st : state) :
  (forall i, i ∈ l ->
     PAGE_SIZE <= tmp_mpool_slot st i /\ tmp_mpool_slot st i + PAGE_SIZE <= 2 ^ 64) ->
  (forall i j a, i ∈ l -> j ∈ l ->
     pool_base (tmp_mpool_slot st i) <= a
       < pool_base (tmp_mpool_slot st i) + pool_curr st (tmp_mpool_slot st i) ->
     ~ (tmp_mpool_slot st j <= a < tmp_mpool_slot st j + 8)) ->
  exists st',
    for_each l (fun i =>
      ptr <- get_tmp_mpool i ;;
      curr <- load (curr_of ptr) ;;
      bzero (MPI_POOL_DATA ptr) curr ;;;
      free_pages ptr MCTX_ORDER) st = Some (tt, st') /\
    buddy st' = buddy st /\
    mpi_profiles st' = mpi_profiles st /\ g_tmp_mpool st' = g_tmp_mpool st /\
    has_empty_profile st' = has_empty_profile st /\
    (forall q, q ∈ live_pages st' <->
       q ∈ live_pages st /\ ~ (exists i, i ∈ l /\ tmp_mpool_slot st i = q)) /\
    (forall i a, i ∈ l ->
       pool_base (tmp_mpool_slot st i) <= a
         < pool_base (tmp_mpool_slot st i) + pool_curr st (tmp_mpool_slot st i) ->
       memory st' a = 0) /\
    (forall a,
       (forall i, i ∈ l ->
          ~ (pool_base (tmp_mpool_slot st i) <= a
             < pool_base (tmp_mpool_slot st i) + pool_curr st (tmp_mpool_slot st i))) ->
       memory st' a = memory st a).
Proof.
  revert st. induction l as [|i l IH]; intros st Hmap Hsep.
  - exists st. cbn [for_each]. unfold ret.
    do 5 (split; [reflexivity|]). split; [|split].
    + intros q. split; [|tauto]. intros Hq. split; [exact Hq|].
      intros (j & Hj & _). apply elem_of_nil in Hj. exact Hj.
    + intros j a Hj. apply elem_of_nil in Hj. contradiction.
    + intros a _. reflexivity.
  - cbn [for_each]. unfold bind at 1. unfold bind at 1. unfold get_tmp_mpool.
    fold (tmp_mpool_slot st i).
    destruct (Hmap i (list_elem_of_here _ _)) as [Hi Hi'].
    unfold bind at 1. unfold load, rd64, curr_of, lift.
    rewrite (mapped_true _ Hi).
    unfold bind at 1. unfold bzero.
    set (p := tmp_mpool_slot st i) in *.
    change (load64 (memory st) p) with (pool_curr st p).
    assert (Hdata : MPI_POOL_DATA p = pool_base p).
    { unfold MPI_POOL_DATA, pool_base, sizeof_TlsMpiPool. apply u64_small.
      rewrite PAGE_SIZE_eq in *. lia. }
    assert (Emap : mapped (MPI_POOL_DATA p) = true).
    { rewrite Hdata. apply mapped_true. unfold pool_base, sizeof_TlsMpiPool. lia. }
    rewrite Emap. cbn [negb]. rewrite andb_false_r. rewrite Hdata.
    unfold free_pages at 1.
    assert (Ep : (p =? 0) = false).
    { apply Z.eqb_neq. rewrite PAGE_SIZE_eq in Hi. lia. }
    rewrite Ep.
    set (m1 := bzero_fast (memory st) (pool_base p) (pool_curr st p)).
    (* the headers of the pools still to come are as they were *)
    assert (Hcurr : forall j, j ∈ l ->
              load64 m1 (tmp_mpool_slot st j) = pool_curr st (tmp_mpool_slot st j)).
    { intros j Hj. unfold pool_curr, curr_of, load64. apply load_le_ext.
      intros x Hx. unfold m1. apply bzero_fast_outside.
      assert (Hno : ~ (pool_base p <= x < pool_base p + pool_curr st p)).
      { intros Hin.
        apply (Hsep i j x (list_elem_of_here _ _) (list_elem_of_further _ _ _ Hj) Hin).
        change (Z.of_nat 8) with 8 in Hx. lia. }
      lia. }
    match goal with |- context [for_each l _ ?s] => destruct (IH s) as
      (st' & Hrun & Hb & Hp & Hg & Hf & Hl & Hin & Hout) end.
    { intros j Hj. apply (Hmap j). apply list_elem_of_further. exact Hj. }
    { intros j k a Hj Hk. unfold pool_curr, curr_of, tmp_mpool_slot.
      cbn [memory g_tmp_mpool set_memory].
      fold (tmp_mpool_slot st j). fold (tmp_mpool_slot st k). fold m1.
      rewrite (Hcurr j Hj).
      apply Hsep; apply list_elem_of_further; assumption. }
    cbn [memory buddy mpi_profiles g_tmp_mpool has_empty_profile live_pages
         set_memory] in *.
    fold m1 in Hin, Hout.
    assert (Hl' : forall q, q ∈ live_pages st' <->
              (q ∈ live_pages st /\ q <> p) /\
              ~ (exists j, j ∈ l /\ tmp_mpool_slot st j = q)).
    { intros q. rewrite Hl, elem_of_difference, elem_of_singleton. reflexivity. }
    clear Hl.
    assert (Hin' : forall j a, j ∈ l ->
              pool_base (tmp_mpool_slot st j) <= a
                < pool_base (tmp_mpool_slot st j) + pool_curr st (tmp_mpool_slot st j) ->
              memory st' a = 0).
    { intros j a Hj Ha. apply (Hin j a Hj).
      unfold pool_curr, curr_of, tmp_mpool_slot. cbn [memory g_tmp_mpool].
      fold (tmp_mpool_slot st j). rewrite (Hcurr j Hj). exact Ha. }
    assert (Hout' : forall a,
              (forall j, j ∈ l ->
                 ~ (pool_base (tmp_mpool_slot st j) <= a
                    < pool_base (tmp_mpool_slot st j)
                      + pool_curr st (tmp_mpool_slot st j))) ->
              memory st' a = m1 a).
    { intros a Ha. apply Hout. intros j Hj.
      unfold pool_curr, curr_of, tmp_mpool_slot. cbn [memory g_tmp_mpool].
      fold (tmp_mpool_slot st j). rewrite (Hcurr j Hj). apply Ha. exact Hj. }
    clear Hin Hout.
    exists st'. split; [exact Hrun|]. repeat (split; [assumption|]).
    split; [|split].
    + intros q. rewrite Hl'. split.
      * intros [[Hq Hne] Hn]. split; [exact Hq|].
        intros (j & Hj & Hs).
        apply elem_of_cons in Hj as [->|Hj]; [subst p; congruence|].
        apply Hn. exists j. split; assumption.
      * intros [Hq Hn]. split; [split; [exact Hq|]|].
        -- intros ->. apply Hn.
           exists i. split; [apply list_elem_of_here|reflexivity].
        -- intros (j & Hj & Hs). apply Hn.
           exists j. split; [apply list_elem_of_further; exact Hj|exact Hs].
    + intros j a Hj Ha.
      destruct (decide (Exists (fun k =>
                  pool_base (tmp_mpool_slot st k) <= a
                    < pool_base (tmp_mpool_slot st k)
                      + pool_curr st (tmp_mpool_slot st k)) l)) as [He|Hne].
      * apply Exists_exists in He as (k & Hk & Hka). exact (Hin' k a Hk Hka).
      * rewrite Hout'.
        -- apply elem_of_cons in Hj as [->|Hj].
           ++ unfold m1. apply bzero_fast_inside. exact Ha.
           ++ exfalso. apply Hne. apply Exists_exists. exists j. split; assumption.
        -- intros k Hk Hka. apply Hne. apply Exists_exists. exists k. split; assumption.
    + intros a Ha. rewrite Hout'.
      * unfold m1. apply bzero_fast_outside.
        pose proof (Ha i (list_elem_of_here _ _)) as Hi0. fold p in Hi0. lia.
      * intros j Hj. apply Ha. apply list_elem_of_further. exact Hj.
Qed.




(** X14.  Start-up followed by teardown, from the load-time registry (no
    profile, the allocator serving one fresh page per possible CPU): both
    return, the set of pages in use is the one before start-up, no byte
    outside the served pages has changed and the served pages are zero;
    the per-CPU pointers still hold the released pages. *)
Theorem mpool_init_exit_round_trip (pages rest : list Z) (st : state) :
  buddy st = pages ++ rest ->
  length pages = length (g_tmp_mpool st) ->
  Forall (fun p => PAGE_SIZE <= p /\ p + PAGE_SIZE <= 2 ^ 64) pages ->
  (forall p, p ∈ pages -> p ∉ live_pages st) ->
  mpi_profiles st = replicate __TTLS_MPI_PROFILES_N 0 ->
  exists st1 st2,
    ttls_mpool_init st = Some (0, st1) /\
    ttls_mpool_exit st1 = Some (tt, st2) /\
    live_pages st2 = live_pages st /\
    (forall a, (forall p, p ∈ pages -> a < p \/ p + PAGE_SIZE <= a) ->
       memory st2 a = memory st a) /\
    (forall p, p ∈ pages -> page_zeroed st2 p) /\
    g_tmp_mpool st2 = pages /\
    buddy st2 = rest.
Proof.
  intros Hb Hlen Hpg Hfresh Hprof.
  (* start-up *)
  destruct (mpool_init_loop_served pages rest 0 st Hb) as
    (st1 & Hloop & _ & Hnew & _ & Hb1 & Hl1 & Hz1 & _ & Hm1 & Hp1 & Hf1).
  { eapply Forall_impl; [exact Hpg|]. cbn. intros p [Hp _].
    rewrite PAGE_SIZE_eq in Hp. lia. }
  { lia. }
  assert (Hinit : ttls_mpool_init st = Some (0, st1)).
  { unfold ttls_mpool_init, bind, possible_cpus. rewrite <- Hlen, Hloop. reflexivity. }
  assert (Hg1 : g_tmp_mpool st1 = pages).
  { apply list_eq. intros i.
    destruct (Nat.lt_ge_cases i (length pages)) as [Hi|Hi].
    - rewrite <- (Hnew i Hi). reflexivity.
    - rewrite !lookup_ge_None_2; [reflexivity|lia|].
      destruct (g_tmp_mpool st1 !! i) as [v|] eqn:Ev; [|apply lookup_ge_None; exact Ev].
      exfalso. apply lookup_lt_Some in Ev.
      destruct (mpool_init_loop_served pages rest 0 st Hb) as
        (st1' & Hloop' & Hlen1 & _); [|lia|].
      { eapply Forall_impl; [exact Hpg|]. cbn. intros p [Hp _].
        rewrite PAGE_SIZE_eq in Hp. lia. }
      rewrite Hloop in Hloop'. injection Hloop' as <-. lia. }
  (* teardown: the loop over the profiles, then the loop over the CPUs *)
  destruct (exit_profiles_loop (seq 0 __TTLS_MPI_PROFILES_N) st1) as
    (s1 & Hrun1 & Hms & Hbs & Hps & Hgs & Hfs & Hls).
  assert (Hslot : forall i, i ∈ seq 0 (length (g_tmp_mpool s1)) ->
            exists v, pages !! i = Some v /\ tmp_mpool_slot s1 i = v).
  { intros i Hi. apply elem_of_seq in Hi. rewrite Hgs, Hg1 in Hi.
    destruct (lookup_lt_is_Some_2 pages i) as [v Hv]; [lia|].
    exists v. split; [exact Hv|].
    unfold tmp_mpool_slot. rewrite Hgs, Hg1, Hv. reflexivity. }
  assert (Hzero : forall i, i ∈ seq 0 (length (g_tmp_mpool s1)) ->
            pool_curr s1 (tmp_mpool_slot s1 i) = 0).
  { intros i Hi. destruct (Hslot i Hi) as (v & Hv & ->).
    unfold pool_curr, curr_of. rewrite Hms.
    apply load64_of_zero_bytes. intros x Hx.
    apply (Hz1 v); [eapply list_elem_of_lookup_2; exact Hv|].
    change (Z.shiftl PAGE_SIZE MCTX_ORDER) with 4096. lia. }
  destruct (exit_cpus_loop (seq 0 (length (g_tmp_mpool s1))) s1) as
    (st2 & Hrun2 & Hb2 & Hp2 & Hg2 & Hf2 & Hl2 & _ & Hm0).
  { intros i Hi. destruct (Hslot i Hi) as (v & Hv & ->).
    exact (proj1 (Forall_lookup _ _) Hpg i v Hv). }
  { intros i j a Hi _. rewrite (Hzero i Hi). lia. }
  assert (Hexit : ttls_mpool_exit st1 = Some (tt, st2)).
  { unfold ttls_mpool_exit. unfold bind at 1. rewrite Hrun1.
    unfold bind at 1. unfold possible_cpus. exact Hrun2. }
  assert (Hsame : forall a, memory st2 a = memory st1 a).
  { intros a. rewrite <- Hms. apply Hm0.
    intros i Hi. rewrite (Hzero i Hi). lia. }
  exists st1, st2. split; [exact Hinit|]. split; [exact Hexit|].
  split; [|split; [|split; [|split; congruence]]].
  - apply set_eq. intros q. rewrite Hl2, Hls, Hl1.
    rewrite elem_of_union, elem_of_list_to_set. split.
    + intros [[[Hq|Hq] _] Hn]; [|exact Hq].
      exfalso. apply Hn. apply list_elem_of_lookup_1 in Hq as [i Hi].
      exists i. split.
      * apply elem_of_seq. rewrite Hgs, Hg1. apply lookup_lt_Some in Hi. lia.
      * unfold tmp_mpool_slot. rewrite Hgs, Hg1, Hi. reflexivity.
    + intros Hq. split; [split; [right; exact Hq|]|].
      * intros [Hq0 (i & _ & Hi)]. apply Hq0. rewrite <- Hi.
        unfold profile_slot. rewrite Hp1, Hprof.
        destruct (replicate __TTLS_MPI_PROFILES_N 0 !! i) as [v|] eqn:Ev; [|reflexivity].
        apply lookup_replicate in Ev as [-> _]. reflexivity.
      * intros (i & Hi & Hs). destruct (Hslot i Hi) as (v & Hv & Hs').
        apply (Hfresh q); [|exact Hq].
        rewrite <- Hs, Hs'. eapply list_elem_of_lookup_2. exact Hv.
  - intros a Ha. rewrite Hsame. apply Hm1. exact Ha.
  - intros p Hp a Ha. unfold load8. rewrite Hsame. apply (Hz1 p Hp). exact Ha.
Qed.

Lemma mpool_init_exit_round_trip_witness :
  exists st1 st2,
    ttls_mpool_init demo_boot = Some (0, st1) /\
    ttls_mpool_exit st1 = Some (tt, st2) /\
    live_pages st2 = live_pages demo_boot /\
    (forall a, (forall p, p ∈ [demo_page] -> a < p \/ p + PAGE_SIZE <= a) ->
       memory st2 a = memory demo_boot a) /\
    (forall p, p ∈ [demo_page] -> page_zeroed st2 p) /\
    g_tmp_mpool st2 = [demo_page] /\
    buddy st2 = [demo_page2].
Proof.
  apply (mpool_init_exit_round_trip [demo_page] [demo_page2] demo_boot).
  - reflexivity.
  - reflexivity.
  - repeat constructor; vm_compute; discriminate.
  - intros p Hp. apply list_elem_of_singleton in Hp. subst p.
    unfold demo_boot, boot_state. cbn [live_pages]. apply not_elem_of_empty.
  - reflexivity.
Defined.

End Teardown.

(** ** More on the registry of profiles *)

Section RegistryMore.
Context `{Externals}.

(** X15.  The local [mp] of [ttls_mpi_profile_set] is tested before it is
    assigned.  When it happens to hold a value other than NULL, a call for
    an EC key that finds the ECDH slot empty creates no profile: it
    returns 0, takes no page, writes no byte, and registers that value as
    the ECDH profile. *)
Theorem profile_set_registers_uninitialised
    (crt : ttls_x509_crt) (u : Z) (st : state) :
  length (mpi_profiles st) = __TTLS_MPI_PROFILES_N ->
  has_empty_profile st = true ->
  profile_slot st TTLS_MPI_PROFILE_ECDH = 0 ->
  pk_info_type (pk crt) = TTLS_PK_ECKEY ->
  u <> 0 ->
  exists st',
    ttls_mpi_profile_set crt u st = Some (0, st') /\
    profile_slot st' TTLS_MPI_PROFILE_ECDH = u /\
    (forall i, i <> TTLS_MPI_PROFILE_ECDH -> profile_slot st' i = profile_slot st i) /\
    memory st' = memory st /\
    live_pages st' = live_pages st /\
    buddy st' = buddy st /\
    g_tmp_mpool st' = g_tmp_mpool st.
Proof.
  intros Hlen Hflag Hempty Hty Hu.
  assert (Hfor : ttls_mpi_profile_for_cert TTLS_MPI_PROFILE_ECDH (pk crt) = true).
  { unfold ttls_mpi_profile_for_cert. rewrite Hty. reflexivity. }
  rewrite (profile_set_fill_eq crt u st Hflag Hempty Hty).
  rewrite (profile_set_body_fill_eq (pk crt) TTLS_MPI_PROFILE_ECDH u 0 st Hempty Hfor).
  apply Z.eqb_neq in Hu. rewrite Hu.
  eexists. split; [reflexivity|].
  assert (Hslot : default 0 (<[TTLS_MPI_PROFILE_ECDH:=u]> (mpi_profiles st)
                             !! TTLS_MPI_PROFILE_ECDH) = u).
  { rewrite list_lookup_insert_eq; [reflexivity|].
    rewrite Hlen. unfold TTLS_MPI_PROFILE_ECDH, __TTLS_MPI_PROFILES_N. lia. }
  destruct (0 + 1 + filled_among _ _ =? _);
    unfold profile_slot;
    cbn [memory live_pages buddy mpi_profiles g_tmp_mpool
         set_has_empty_profile set_mpi_profiles];
    (split; [exact Hslot|]); (split; [|repeat split]);
    intros i Hi; rewrite list_lookup_insert_ne by (intros E; apply Hi; symmetry; exact E);
    reflexivity.
Qed.

(** X17.  A key of a type the code does not name: the [default] branch of
    [ttls_mpi_profile_for_cert] only logs an error and answers false for
    every slot, so [ttls_mpi_profile_set] returns 0 and neither the table,
    the store, the pages in use, the page allocator nor the per-CPU
    pointers change. *)
Theorem profile_set_unknown_key (code ctx u : Z) (st : state) :
  exists st',
    ttls_mpi_profile_set
      {| pk := {| pk_info_type := TTLS_PK_OTHER code; pk_ctx := ctx |} |} u st
      = Some (0, st') /\
    mpi_profiles st' = mpi_profiles st /\
    memory st' = memory st /\
    live_pages st' = live_pages st /\
    buddy st' = buddy st /\
    g_tmp_mpool st' = g_tmp_mpool st.
Proof.
  destruct (has_empty_profile st) eqn:Hflag.
  - rewrite profile_set_all_skipped;
      [|exact Hflag|intros i; right; apply profile_for_cert_other_key; discriminate].
    eexists. split; [reflexivity|]. destruct (_ =? _); repeat split.
  - rewrite profile_set_flag_clear by exact Hflag.
    exists st. repeat split.
Qed.

(** X18.  [ttls_mpi_pool_init] leaves [curr], an address, above [size],
    zero.  Applied to the pool of temporary MPIs of a CPU, it makes the
    next [ttls_mpi_cleanup_ctx] on that CPU stop at a [BUG_ON], whatever
    the store holds. *)
Theorem cleanup_after_pool_init_oopses (cpu : nat) (st : state) :
  PAGE_SIZE <= tmp_mpool_slot st cpu ->
  tmp_mpool_slot st cpu + PAGE_SIZE < 2 ^ 64 ->
  (ttls_mpi_pool_init (tmp_mpool_slot st cpu) ;;; ttls_mpi_cleanup_ctx cpu) st = None.
Proof.
  intros Hlo Hhi. set (mp := tmp_mpool_slot st cpu) in *.
  assert (Hm1 : mapped mp = true) by (apply mapped_true; exact Hlo).
  assert (Hm2 : mapped (mp + 8) = true) by (apply mapped_true; lia).
  assert (Hd : MPI_POOL_DATA mp = mp + 16).
  { unfold MPI_POOL_DATA, sizeof_TlsMpiPool. apply u64_small.
    rewrite PAGE_SIZE_eq in *. lia. }
  unfold bind at 1. rewrite (pool_init_spec mp st Hlo).
  set (st1 := set_memory _ st).
  assert (Hslot : tmp_mpool_slot st1 cpu = mp) by reflexivity.
  assert (Hc : load64 (memory st1) mp = mp + 16).
  { unfold st1. cbn [memory set_memory]. unfold curr_of, size_of.
    rewrite load64_store64_other by lia.
    rewrite load64_store64_same, Hd. apply u64_small.
    rewrite PAGE_SIZE_eq in *. lia. }
  assert (Hs : load64 (memory st1) (mp + 8) = 0).
  { unfold st1. cbn [memory set_memory]. unfold size_of.
    rewrite load64_store64_same. reflexivity. }
  unfold ttls_mpi_cleanup_ctx, get_tmp_mpool, load_mem_alloc.
  unfold bind at 1. fold (tmp_mpool_slot st1 cpu). rewrite Hslot.
  unfold bind at 1. rewrite Hm1.
  unfold bind at 1. unfold bug_on at 1. unfold lift, BUG_ON.
  destruct (mem_alloc (memory st1) mp <? MPI_POOL_DATA mp); [reflexivity|].
  unfold bind at 1. unfold load at 1. unfold rd64, lift, curr_of. rewrite Hm1.
  unfold bind at 1. unfold load at 1. unfold rd64, lift, size_of. rewrite Hm2.
  unfold bind at 1. unfold bug_on at 1. unfold lift, BUG_ON.
  rewrite Hc, Hs.
  assert (E : (0 <? mp + 16) = true).
  { apply Z.ltb_lt. rewrite PAGE_SIZE_eq in *. lia. }
  rewrite E. reflexivity.
Qed.

End RegistryMore.

Lemma profile_set_registers_uninitialised_witness :
  exists st',
    @ttls_mpi_profile_set demo_ext eckey_crt 2863311530 demo_ready = Some (0, st') /\
    profile_slot st' TTLS_MPI_PROFILE_ECDH = 2863311530 /\
    (forall i, i <> TTLS_MPI_PROFILE_ECDH ->
       profile_slot st' i = profile_slot demo_ready i) /\
    memory st' = memory demo_ready /\
    live_pages st' = live_pages demo_ready /\
    buddy st' = buddy demo_ready /\
    g_tmp_mpool st' = g_tmp_mpool demo_ready.
Proof.
  apply (@profile_set_registers_uninitialised demo_ext eckey_crt 2863311530 demo_ready).
  - vm_compute. reflexivity.
  - vm_compute. reflexivity.
  - vm_compute. reflexivity.
  - reflexivity.
  - discriminate.
Defined.

Lemma cleanup_after_pool_init_oopses_witness :
  (@ttls_mpi_pool_init (tmp_mpool_slot demo_ready 0)
     ;;; @ttls_mpi_cleanup_ctx demo_ext 0) demo_ready = None.
Proof.
  apply (@cleanup_after_pool_init_oopses demo_ext 0 demo_ready).
  - vm_compute. discriminate.
  - vm_compute. reflexivity.
Defined.

(** ** Properties of the table of connection hooks *)

Section ConnHooksProperties.
Context `{Gfsm}.

Lemma hooks_register_cases (hooks type : Z) (t t' : list Z) :
  tfw_connection_hooks_register hooks type t = Some t' ->
  let hid := Z.to_nat (u32 (TFW_CONN_TYPE2IDX type)) in
  (hid < TFW_GFSM_FSM_N)%nat /\
  default 0 (t !! hid) = 0 /\
  t' = <[ hid := hooks ]> t.
Proof.
  unfold tfw_connection_hooks_register, TFW_CONN_MAX_PROTOS. cbv zeta.
  assert (0 <= u32 (TFW_CONN_TYPE2IDX type)).
  { unfold u32. apply Z.mod_pos_bound. lia. }
  destruct (_ <=? _) eqn:E1; [discriminate|]. cbn [orb].
  destruct (default 0 _ =? 0) eqn:E2; [|discriminate]. cbn [negb].
  intros E. injection E as <-.
  apply Z.leb_gt in E1. apply Z.eqb_eq in E2.
  split; [lia|]. split; [exact E2|reflexivity].
Qed.

Lemma register_all_slot_kept (regs : list (Z * Z)) (t t' : list Z) (i : nat) (h : Z) :
  register_all regs t = Some t' ->
  t !! i = Some h -> h <> 0 -> t' !! i = Some h.
Proof.
  revert t. induction regs as [|[hooks type] regs IH]; intros t Hrun Hi Hh.
  - injection Hrun as <-. exact Hi.
  - cbn [register_all] in Hrun.
    destruct (tfw_connection_hooks_register hooks type t) as [t1|] eqn:E1;
      [|discriminate].
    apply hooks_register_cases in E1 as (_ & Hfree & ->).
    apply (IH _ Hrun); [|exact Hh].
    rewrite list_lookup_insert_ne; [exact Hi|].
    intros <-. rewrite Hi in Hfree. cbn in Hfree. contradiction.
Qed.

(** X19.  Registered hooks are never replaced: over any sequence of
    registrations that runs to its end, the table keeps its length and a
    slot that held hooks (a pointer other than NULL) before the sequence
    holds the same hooks after it. *)
Theorem hooks_never_replaced (regs : list (Z * Z)) (t t' : list Z) :
  register_all regs t = Some t' ->
  length t' = length t /\
  forall i h, t !! i = Some h -> h <> 0 -> t' !! i = Some h.
Proof.
  intros Hrun. split.
  - revert t Hrun. induction regs as [|[hooks type] regs IH]; intros t Hrun.
    + injection Hrun as <-. reflexivity.
    + cbn [register_all] in Hrun.
      destruct (tfw_connection_hooks_register hooks type t) as [t1|] eqn:E1;
        [|discriminate].
      apply hooks_register_cases in E1 as (_ & _ & ->).
      rewrite (IH _ Hrun). apply length_insert.
  - intros i h Hi Hh. exact (register_all_slot_kept regs t t' i h Hrun Hi Hh).
Qed.

(** X20.  A second registration for a protocol stops at the [BUG_ON]:
    once hooks other than NULL are registered for a type, every later
    registration for a type of the same index oopses, whatever was
    registered for other types in between. *)
Theorem hooks_register_twice_oopses
    (hooks type hooks2 type2 : Z) (regs : list (Z * Z)) (t t1 t2 : list Z) :
  length t = TFW_GFSM_FSM_N ->
  hooks <> 0 ->
  u32 (TFW_CONN_TYPE2IDX type2) = u32 (TFW_CONN_TYPE2IDX type) ->
  tfw_connection_hooks_register hooks type t = Some t1 ->
  register_all regs t1 = Some t2 ->
  tfw_connection_hooks_register hooks2 type2 t2 = None.
Proof.
  intros Hlen Hh Hidx Hreg Hrun.
  apply hooks_register_cases in Hreg as (Hhid & _ & ->).
  pose proof (register_all_slot_kept regs _ t2
                (Z.to_nat (u32 (TFW_CONN_TYPE2IDX type))) hooks Hrun) as Hkeep.
  rewrite list_lookup_insert_eq in Hkeep by lia.
  specialize (Hkeep eq_refl Hh).
  unfold tfw_connection_hooks_register. cbv zeta. rewrite Hidx, Hkeep. cbn.
  apply Z.eqb_neq in Hh. rewrite Hh. cbn [negb]. rewrite orb_true_r. reflexivity.
Qed.

End ConnHooksProperties.

Lemma hooks_never_replaced_witness :
  length [0; 4112; 4208; 0] = length [0; 4112; 0; 0] /\
  forall i h, [0; 4112; 0; 0] !! i = Some h -> h <> 0 ->
    [0; 4112; 4208; 0] !! i = Some h.
Proof.
  apply (@hooks_never_replaced demo_gfsm [(4208, 18)] [0; 4112; 0; 0]).
  reflexivity.
Defined.

Lemma hooks_register_twice_oopses_witness :
  @tfw_connection_hooks_register demo_gfsm 4304 33 [0; 4112; 4208; 0] = None.
Proof.
  apply (@hooks_register_twice_oopses demo_gfsm 4112 17 4304 33 [(4208, 18)]
           [0; 0; 0; 0] [0; 4112; 0; 0]).
  - reflexivity.
  - discriminate.
  - reflexivity.
  - reflexivity.
  - reflexivity.
Defined.
